(** * convert_genesis.py: CSV parts to one JSON document

    A shallow embedding of the script [convert_genesis.py] and of the parts
    of the Python runtime it runs on (text files, [csv.DictReader],
    [str.lower], [dict.get], [json.dump]), followed by the properties of the
    conversion.

    Text is modelled as [string], read as the UTF-8 bytes of a Python [str]:
    the delimiter, the quote, the line breaks and every JSON punctuation mark
    are ASCII, and no byte of a multi-byte UTF-8 sequence is ASCII, so the
    byte-wise parsers below see the same fields as the code-point-wise ones of
    CPython.  [str.lower] works on the code points: the text is decoded,
    lower-cased with the case tables of the interpreter and encoded again. *)

From Stdlib Require Import String Ascii List NArith Arith Bool Lia DecimalString.
Import ListNotations.
Open Scope string_scope.

(** ** Exceptions and the error monad *)

Inductive exn : Type :=
| FileNotFoundError
| IsADirectoryError
| PermissionError
| UnicodeDecodeError
| CsvError (msg : string)
| AttributeError (msg : string)
| JSONDecodeError (msg : string)
| OutsideModel (what : string).

Inductive result (A : Type) : Type :=
| Ok (a : A)
| Raise (e : exn).
Arguments Ok {A} a.
Arguments Raise {A} e.

Definition bind {A B : Type} (m : result A) (k : A -> result B) : result B :=
  match m with
  | Ok a => k a
  | Raise e => Raise e
  end.

Notation "x <- m ;; k" := (bind m (fun x => k))
  (at level 61, m at next level, right associativity).

Fixpoint mapM {A B : Type} (f : A -> result B) (l : list A) : result (list B) :=
  match l with
  | [] => Ok []
  | a :: l' => b <- f a ;; bs <- mapM f l' ;; Ok (b :: bs)
  end.

Definition is_ok {A : Type} (m : result A) : bool :=
  match m with Ok _ => true | Raise _ => false end.

(** ** Python values *)

(** The values the script and the JSON codec handle: [None], [bool], [str],
    [list] and [dict] (numbers never occur in the script's data).  A dict
    is kept as an association list in insertion order, which is the order
    [json.dump] writes its members in; a key is a [str] or [None] (the
    [restkey] of [csv.DictReader]). *)
#[warnings="-register-all"]
Inductive pyval : Type :=
| VNone
| VBool (b : bool)
| VStr (s : string)
| VList (l : list pyval)
| VDict (d : list (option string * pyval)).

Definition pykey : Type := option string.
Definition pydict : Type := list (pykey * pyval).

Definition key_eqb (a b : pykey) : bool :=
  match a, b with
  | None, None => true
  | Some x, Some y => String.eqb x y
  | _, _ => false
  end.

(** [d.get(k, default)] *)
Fixpoint dict_get (d : pydict) (k : pykey) (default : pyval) : pyval :=
  match d with
  | [] => default
  | (k', v) :: d' => if key_eqb k k' then v else dict_get d' k default
  end.

(** [k in d] *)
Fixpoint dict_mem (d : pydict) (k : pykey) : bool :=
  match d with
  | [] => false
  | (k', _) :: d' => key_eqb k k' || dict_mem d' k
  end.

(** [d[k] = v]: an existing key keeps its place and takes the new value, a
    new key goes last. *)
Fixpoint dict_set (d : pydict) (k : pykey) (v : pyval) : pydict :=
  match d with
  | [] => [(k, v)]
  | (k', v') :: d' =>
      if key_eqb k k' then (k', v) :: d' else (k', v') :: dict_set d' k v
  end.

(** [dict(pairs)] *)
Definition dict_of (pairs : list (pykey * pyval)) : pydict :=
  fold_left (fun d kv => dict_set d (fst kv) (snd kv)) pairs [].

Definition dict_keys (d : pydict) : list pykey := map fst d.

(** ** Text files *)

Module TextIO.

Definition LF : ascii := "010"%char.
Definition CR : ascii := "013"%char.

Inductive entry : Type :=
| Absent
| Directory
| File (content : string) (readable writable : bool).

Definition filesystem : Type := string -> entry.

Definition fs_write (fs : filesystem) (path : string) (e : entry) : filesystem :=
  fun p => if String.eqb p path then e else fs p.

(** The strict UTF-8 decoder accepts the well-formed byte sequences of the
    Unicode standard: no overlong form, no surrogate, nothing above U+10FFFF.
    [need] continuation bytes are awaited, the next one within [lo..hi]. *)
Fixpoint utf8_check (need : nat) (lo hi : N) (s : string) : bool :=
  match s with
  | EmptyString => Nat.eqb need 0
  | String c s' =>
      let b := N_of_ascii c in
      match need with
      | O =>
          if (b <? 128)%N then utf8_check 0 128 191 s'
          else if (194 <=? b)%N && (b <=? 223)%N then utf8_check 1 128 191 s'
          else if (b =? 224)%N then utf8_check 2 160 191 s'
          else if (b =? 237)%N then utf8_check 2 128 159 s'
          else if (225 <=? b)%N && (b <=? 239)%N then utf8_check 2 128 191 s'
          else if (b =? 240)%N then utf8_check 3 144 191 s'
          else if (241 <=? b)%N && (b <=? 243)%N then utf8_check 3 128 191 s'
          else if (b =? 244)%N then utf8_check 3 128 143 s'
          else false
      | S n =>
          if (lo <=? b)%N && (b <=? hi)%N then utf8_check n 128 191 s'
          else false
      end
  end.

Definition utf8_valid (bytes : string) : bool := utf8_check 0 128 191 bytes.

(** Universal newlines ([newline=None] on reading): CR LF and a lone CR are
    both handed to the program as LF. *)
Fixpoint translate_newlines (s : string) : string :=
  match s with
  | EmptyString => EmptyString
  | String c s' =>
      if Ascii.eqb c CR then
        match s' with
        | String c' s'' =>
            if Ascii.eqb c' LF then String LF (translate_newlines s'')
            else String LF (translate_newlines s')
        | EmptyString => String LF EmptyString
        end
      else String c (translate_newlines s')
  end.

(** Iterating a text file: each line with its LF, the last one possibly
    without. [cur] is the line read so far. *)
Fixpoint readlines_from (cur : string) (s : string) : list string :=
  match s with
  | EmptyString => match cur with EmptyString => [] | _ => [cur] end
  | String c s' =>
      if Ascii.eqb c LF then (cur ++ String LF EmptyString) :: readlines_from EmptyString s'
      else readlines_from (cur ++ String c EmptyString) s'
  end.

Definition readlines (text : string) : list string :=
  readlines_from EmptyString text.

(** [open(path, 'r', encoding='utf-8')] and reading the file to its end. *)
Definition read_text (fs : filesystem) (path : string) : result string :=
  match fs path with
  | Absent => Raise FileNotFoundError
  | Directory => Raise IsADirectoryError
  | File bytes readable _ =>
      if negb readable then Raise PermissionError
      else if utf8_valid bytes then Ok (translate_newlines bytes)
      else Raise UnicodeDecodeError
  end.

(** [open(path, 'w', encoding='utf-8')], writing [text] and closing: the file
    is created or truncated (line breaks are written as LF, as on POSIX). *)
Definition write_text (fs : filesystem) (path : string) (text : string)
  : result filesystem :=
  match fs path with
  | Directory => Raise IsADirectoryError
  | File _ r w =>
      if w then Ok (fs_write fs path (File text r true))
      else Raise PermissionError
  | Absent => Ok (fs_write fs path (File text true true))
  end.

End TextIO.

(** ** The [csv] module

    The reader of CPython (3.11 and later, where a NUL is an ordinary
    character) with the excel dialect: delimiter comma, quote character the
    double quote, doubled quotes inside quoted fields, minimal quoting, not
    strict. *)

Module Csv.

Import TextIO.

(** The states of the reader that the excel dialect can reach (it has no
    escape character, so the three escape states of the parser are left
    out). *)
Inductive ParserState : Type :=
| START_RECORD
| START_FIELD
| IN_FIELD
| IN_QUOTED_FIELD
| QUOTE_IN_QUOTED_FIELD
| EAT_CRNL.

Definition state_eqb (a b : ParserState) : bool :=
  match a, b with
  | START_RECORD, START_RECORD
  | START_FIELD, START_FIELD
  | IN_FIELD, IN_FIELD
  | IN_QUOTED_FIELD, IN_QUOTED_FIELD
  | QUOTE_IN_QUOTED_FIELD, QUOTE_IN_QUOTED_FIELD
  | EAT_CRNL, EAT_CRNL => true
  | _, _ => false
  end.

(** The reader object: parser state, the fields of the record being read and
    the field being read, with its length in code points. *)
Record Reader : Type := mkReader {
  state : ParserState;
  fields : list string;
  field : string;
  field_len : N
}.

(** The excel dialect *)
Definition delimiter : ascii := ","%char.
Definition quotechar : ascii := "034"%char.

(** [csv.field_size_limit()] *)
Definition field_limit : N := 131072.

(** What the parser is fed: a character of the line, or the end of the line. *)
Inductive input : Type :=
| Ch (c : ascii)
| EOL.

Definition is_newline (i : input) : bool :=
  match i with
  | Ch c => Ascii.eqb c LF || Ascii.eqb c CR
  | EOL => false
  end.

(** A byte that continues a multi-byte UTF-8 sequence: it belongs to the code
    point begun before it and does not count in the field length. *)
Definition is_continuation (c : ascii) : bool :=
  let b := N_of_ascii c in (128 <=? b)%N && (b <=? 191)%N.

Definition parse_reset : Reader :=
  mkReader START_RECORD [] EmptyString 0.

Definition parse_save_field (r : Reader) : Reader :=
  mkReader (state r) (fields r ++ [field r]) EmptyString 0.

Definition parse_add_char (r : Reader) (c : ascii) : result Reader :=
  if is_continuation c then
    Ok (mkReader (state r) (fields r) (field r ++ String c EmptyString) (field_len r))
  else if (field_limit <=? field_len r)%N then
    Raise (CsvError "field larger than field limit (131072)")
  else
    Ok (mkReader (state r) (fields r) (field r ++ String c EmptyString) (field_len r + 1)).

Definition set_state (r : Reader) (s : ParserState) : Reader :=
  mkReader s (fields r) (field r) (field_len r).

(** START_FIELD, also reached by falling through from START_RECORD *)
Definition process_start_field (r : Reader) (i : input) : result Reader :=
  match i with
  | EOL => Ok (set_state (parse_save_field r) START_RECORD)
  | Ch c =>
      if is_newline i then Ok (set_state (parse_save_field r) EAT_CRNL)
      else if Ascii.eqb c quotechar then Ok (set_state r IN_QUOTED_FIELD)
      else if Ascii.eqb c delimiter then Ok (parse_save_field r)
      else r' <- parse_add_char r c ;; Ok (set_state r' IN_FIELD)
  end.

Definition parse_process_char (r : Reader) (i : input) : result Reader :=
  match state r with
  | START_RECORD =>
      match i with
      | EOL => Ok r
      | Ch c =>
          if is_newline i then Ok (set_state r EAT_CRNL)
          else process_start_field (set_state r START_FIELD) i
      end
  | START_FIELD => process_start_field r i
  | IN_FIELD =>
      match i with
      | EOL => Ok (set_state (parse_save_field r) START_RECORD)
      | Ch c =>
          if is_newline i then Ok (set_state (parse_save_field r) EAT_CRNL)
          else if Ascii.eqb c delimiter then
            Ok (set_state (parse_save_field r) START_FIELD)
          else parse_add_char r c
      end
  | IN_QUOTED_FIELD =>
      match i with
      | EOL => Ok r
      | Ch c =>
          if Ascii.eqb c quotechar then Ok (set_state r QUOTE_IN_QUOTED_FIELD)
          else parse_add_char r c
      end
  | QUOTE_IN_QUOTED_FIELD =>
      match i with
      | EOL => Ok (set_state (parse_save_field r) START_RECORD)
      | Ch c =>
          if Ascii.eqb c quotechar then
            r' <- parse_add_char r c ;; Ok (set_state r' IN_QUOTED_FIELD)
          else if Ascii.eqb c delimiter then
            Ok (set_state (parse_save_field r) START_FIELD)
          else if is_newline i then
            Ok (set_state (parse_save_field r) EAT_CRNL)
          else r' <- parse_add_char r c ;; Ok (set_state r' IN_FIELD)
      end
  | EAT_CRNL =>
      match i with
      | EOL => Ok (set_state r START_RECORD)
      | Ch c =>
          if is_newline i then Ok r
          else Raise (CsvError "new-line character seen in unquoted field - do you need to open the file with newline=''?")
      end
  end.

(** The characters of one line, then its end. *)
Fixpoint process_line (r : Reader) (line : string) : result Reader :=
  match line with
  | EmptyString => parse_process_char r EOL
  | String c line' => r' <- parse_process_char r (Ch c) ;; process_line r' line'
  end.

(** All the records of a reader over [lines]; [r] is the parser at the start
    of the next line, reset when a record is complete.  At the end of the
    input an open quoted field closes the last record. *)
Fixpoint reader_from (r : Reader) (lines : list string) : result (list (list string)) :=
  match lines with
  | [] =>
      if negb (field_len r =? 0)%N || state_eqb (state r) IN_QUOTED_FIELD
      then Ok [fields (parse_save_field r)]
      else Ok []
  | line :: lines' =>
      r' <- process_line r line ;;
      if state_eqb (state r') START_RECORD then
        rows <- reader_from parse_reset lines' ;; Ok (fields r' :: rows)
      else reader_from r' lines'
  end.

(** [list(csv.reader(f))] *)
Definition reader (lines : list string) : result (list (list string)) :=
  reader_from parse_reset lines.

(** The row of a [DictReader] (restkey and restval both [None]):
    [dict(zip(fieldnames, row))], then the surplus fields under [None], or
    [None] under each field name the row did not reach. *)
Definition DictReader_row (fieldnames row : list string) : pydict :=
  let d := dict_of (map (fun kv => (Some (fst kv), VStr (snd kv))) (combine fieldnames row)) in
  let lf := length fieldnames in
  let lr := length row in
  if (lf <? lr)%nat then dict_set d None (VList (map VStr (skipn lf row)))
  else if (lr <? lf)%nat then
    fold_left (fun d key => dict_set d (Some key) VNone) (skipn lr fieldnames) d
  else d.

Definition is_blank_row (row : list string) : bool :=
  match row with [] => true | _ => false end.

(** [csv.DictReader(f, fieldnames)], read to its end: its field names (taken
    from the first record when none are given, and missing when there is no
    record at all) and its rows.  Blank records are passed over. *)
Definition DictReader (lines : list string) (fieldnames : option (list string))
  : result (option (list string) * list pydict) :=
  records <- reader lines ;;
  match fieldnames with
  | Some names =>
      Ok (Some names,
          map (DictReader_row names) (filter (fun r => negb (is_blank_row r)) records))
  | None =>
      match records with
      | [] => Ok (None, [])
      | names :: records' =>
          Ok (Some names,
              map (DictReader_row names) (filter (fun r => negb (is_blank_row r)) records'))
      end
  end.

End Csv.

(** ** The [json] module *)

Module Json.

Import TextIO.

Definition dquote : ascii := "034"%char.
Definition backslash : ascii := "092"%char.

Definition str1 (c : ascii) : string := String c EmptyString.

(** *** [json.dumps(v, indent=2, ensure_ascii=False)] *)

Definition hex_digit (n : N) : ascii :=
  if (n <? 10)%N then ascii_of_N (48 + n) else ascii_of_N (87 + n).

(** The replacement of one character in a string literal: the backslash, the
    double quote and the control characters below U+0020 are escaped. *)
Definition escape_char (c : ascii) : string :=
  let n := N_of_ascii c in
  if (n =? 92)%N then String backslash (str1 backslash)
  else if (n =? 34)%N then String backslash (str1 dquote)
  else if (n =? 8)%N then String backslash "b"
  else if (n =? 12)%N then String backslash "f"
  else if (n =? 10)%N then String backslash "n"
  else if (n =? 13)%N then String backslash "r"
  else if (n =? 9)%N then String backslash "t"
  else if (n <? 32)%N then
    String backslash ("u00" ++ String (hex_digit (n / 16)) (str1 (hex_digit (n mod 16))))
  else str1 c.

Fixpoint escape (s : string) : string :=
  match s with
  | EmptyString => EmptyString
  | String c s' => escape_char c ++ escape s'
  end.

Definition encode_basestring (s : string) : string :=
  String dquote (escape s ++ str1 dquote).

(** A key that is [None] is written as the string null. *)
Definition encode_key (k : pykey) : string :=
  match k with
  | Some s => encode_basestring s
  | None => encode_basestring "null"
  end.

Fixpoint spaces (n : nat) : string :=
  match n with
  | O => EmptyString
  | S n' => String " " (spaces n')
  end.

Definition newline_indent (level : nat) : string :=
  String LF (spaces (2 * level)).

Fixpoint encode (level : nat) (v : pyval) {struct v} : string :=
  match v with
  | VNone => "null"
  | VBool b => if b then "true" else "false"
  | VStr s => encode_basestring s
  | VList [] => "[]"
  | VList (x :: l) =>
      "[" ++ newline_indent (S level) ++ encode (S level) x
      ++ (fix items (l : list pyval) : string :=
            match l with
            | [] => EmptyString
            | y :: l' =>
                "," ++ newline_indent (S level) ++ encode (S level) y ++ items l'
            end) l
      ++ newline_indent level ++ "]"
  | VDict [] => "{}"
  | VDict ((k, x) :: d) =>
      "{" ++ newline_indent (S level) ++ encode_key k ++ ": " ++ encode (S level) x
      ++ (fix members (d : list (pykey * pyval)) : string :=
            match d with
            | [] => EmptyString
            | (k', y) :: d' =>
                "," ++ newline_indent (S level) ++ encode_key k' ++ ": "
                ++ encode (S level) y ++ members d'
            end) d
      ++ newline_indent level ++ "}"
  end.

Definition dumps (v : pyval) : string := encode 0 v.

(** *** [json.loads]

    The decoder is modelled on the JSON values that have no number in them;
    a number literal is reported as outside the model. *)

Definition is_ws (c : ascii) : bool :=
  Ascii.eqb c " " || Ascii.eqb c "009" || Ascii.eqb c LF || Ascii.eqb c CR.

Fixpoint skip_ws (s : string) : string :=
  match s with
  | EmptyString => EmptyString
  | String c s' => if is_ws c then skip_ws s' else s
  end.

Definition hexval (c : ascii) : option N :=
  let n := N_of_ascii c in
  if (48 <=? n)%N && (n <=? 57)%N then Some (n - 48)%N
  else if (97 <=? n)%N && (n <=? 102)%N then Some (n - 87)%N
  else if (65 <=? n)%N && (n <=? 70)%N then Some (n - 55)%N
  else None.

Definition hex4 (a b c d : ascii) : option N :=
  match hexval a, hexval b, hexval c, hexval d with
  | Some x, Some y, Some z, Some w => Some (((x * 16 + y) * 16 + z) * 16 + w)%N
  | _, _, _, _ => None
  end.

(** The bytes of the code point [n].  (A lone surrogate, which a Python [str]
    can hold, is given the three bytes the same scheme yields.) *)
Definition utf8_encode (n : N) : string :=
  if (n <? 128)%N then str1 (ascii_of_N n)
  else if (n <? 2048)%N then
    String (ascii_of_N (192 + n / 64)) (str1 (ascii_of_N (128 + n mod 64)))
  else if (n <? 65536)%N then
    String (ascii_of_N (224 + n / 4096))
      (String (ascii_of_N (128 + (n / 64) mod 64)) (str1 (ascii_of_N (128 + n mod 64))))
  else
    String (ascii_of_N (240 + n / 262144))
      (String (ascii_of_N (128 + (n / 4096) mod 64))
         (String (ascii_of_N (128 + (n / 64) mod 64)) (str1 (ascii_of_N (128 + n mod 64))))).

Definition is_high_surrogate (n : N) : bool := (55296 <=? n)%N && (n <=? 56319)%N.
Definition is_low_surrogate (n : N) : bool := (56320 <=? n)%N && (n <=? 57343)%N.
Definition join_surrogates (hi lo : N) : N :=
  (65536 + ((hi - 55296) * 1024 + (lo - 56320)))%N.

(** The character a one-letter escape stands for. *)
Definition unescape (e : ascii) : option ascii :=
  if Ascii.eqb e dquote then Some dquote
  else if Ascii.eqb e backslash then Some backslash
  else if Ascii.eqb e "/" then Some "/"%char
  else if Ascii.eqb e "b" then Some "008"%char
  else if Ascii.eqb e "f" then Some "012"%char
  else if Ascii.eqb e "n" then Some LF
  else if Ascii.eqb e "r" then Some CR
  else if Ascii.eqb e "t" then Some "009"%char
  else None.

Definition unterminated : exn := JSONDecodeError "Unterminated string starting at".
Definition invalid_uXXXX : exn := JSONDecodeError "Invalid \uXXXX escape".

(** [scanstring] (strict), from just after the opening quote: the string and
    the text after its closing quote. *)
Fixpoint scanstring (s : string) : result (string * string) :=
  match s with
  | EmptyString => Raise unterminated
  | String c s' =>
      if Ascii.eqb c dquote then Ok (EmptyString, s')
      else if Ascii.eqb c backslash then
        match s' with
        | EmptyString => Raise unterminated
        | String e s'' =>
            if Ascii.eqb e "u" then
              match s'' with
              | String a (String b (String c (String d (String x rest as after)))) =>
                  match hex4 a b c d with
                  | None => Raise invalid_uXXXX
                  | Some n =>
                      let alone :=
                        r <- scanstring after ;; Ok (utf8_encode n ++ fst r, snd r) in
                      if is_high_surrogate n then
                        match rest with
                        | String y (String a2 (String b2 (String c2 (String d2
                            (String z rest2 as after2))))) =>
                            if Ascii.eqb x backslash && Ascii.eqb y "u" then
                              match hex4 a2 b2 c2 d2 with
                              | None => Raise invalid_uXXXX
                              | Some n2 =>
                                  if is_low_surrogate n2 then
                                    r <- scanstring after2 ;;
                                    Ok (utf8_encode (join_surrogates n n2) ++ fst r, snd r)
                                  else alone
                              end
                            else alone
                        | _ => alone
                        end
                      else alone
                  end
              | _ => Raise invalid_uXXXX
              end
            else
              match unescape e with
              | Some ch => r <- scanstring s'' ;; Ok (String ch (fst r), snd r)
              | None => Raise (JSONDecodeError "Invalid \escape")
              end
        end
      else if (N_of_ascii c <? 32)%N then
        Raise (JSONDecodeError "Invalid control character at")
      else r <- scanstring s' ;; Ok (String c (fst r), snd r)
  end.

Fixpoint drop_prefix (p s : string) : option string :=
  match p, s with
  | EmptyString, _ => Some s
  | String a p', String b s' => if Ascii.eqb a b then drop_prefix p' s' else None
  | String _ _, EmptyString => None
  end.

Definition starts_number (c : ascii) : bool :=
  let n := N_of_ascii c in
  ((48 <=? n)%N && (n <=? 57)%N) || Ascii.eqb c "-" || Ascii.eqb c "N" || Ascii.eqb c "I".

Definition expecting_value : exn := JSONDecodeError "Expecting value".
Definition expecting_comma : exn := JSONDecodeError "Expecting ',' delimiter".
Definition expecting_colon : exn := JSONDecodeError "Expecting ':' delimiter".
Definition expecting_name : exn :=
  JSONDecodeError "Expecting property name enclosed in double quotes".
Definition too_deep : exn := OutsideModel "recursion limit".

Definition literal (lit : string) (v : pyval) (s : string) : result (pyval * string) :=
  match drop_prefix lit s with
  | Some rest => Ok (v, rest)
  | None => Raise expecting_value
  end.

(** [scan_once]: one value at the head of [s] and the text after it.
    [scan_items] reads the elements of an array up to its closing bracket,
    [scan_members] the members of an object from just after the opening quote
    of a name up to the closing brace.  [fuel] bounds the number of nested
    calls; the length of the text is enough. *)
Fixpoint scan_once (fuel : nat) (s : string) {struct fuel} : result (pyval * string) :=
  match fuel with
  | O => Raise too_deep
  | S fuel' =>
      match s with
      | EmptyString => Raise expecting_value
      | String c s' =>
          if Ascii.eqb c dquote then
            r <- scanstring s' ;; Ok (VStr (fst r), snd r)
          else if Ascii.eqb c "{" then
            match skip_ws s' with
            | EmptyString => Raise expecting_name
            | String c1 s2 =>
                if Ascii.eqb c1 "}" then Ok (VDict [], s2)
                else if Ascii.eqb c1 dquote then
                  r <- scan_members fuel' s2 ;; Ok (VDict (dict_of (fst r)), snd r)
                else Raise expecting_name
            end
          else if Ascii.eqb c "[" then
            match skip_ws s' with
            | EmptyString => Raise expecting_value
            | String c1 s2 =>
                if Ascii.eqb c1 "]" then Ok (VList [], s2)
                else r <- scan_items fuel' (String c1 s2) ;; Ok (VList (fst r), snd r)
            end
          else if Ascii.eqb c "n" then literal "null" VNone s
          else if Ascii.eqb c "t" then literal "true" (VBool true) s
          else if Ascii.eqb c "f" then literal "false" (VBool false) s
          else if starts_number c then Raise (OutsideModel "number")
          else Raise expecting_value
      end
  end
with scan_items (fuel : nat) (s : string) {struct fuel} : result (list pyval * string) :=
  match fuel with
  | O => Raise too_deep
  | S fuel' =>
      r <- scan_once fuel' s ;;
      match skip_ws (snd r) with
      | EmptyString => Raise expecting_comma
      | String c s2 =>
          if Ascii.eqb c "]" then Ok ([fst r], s2)
          else if Ascii.eqb c "," then
            rs <- scan_items fuel' (skip_ws s2) ;; Ok (fst r :: fst rs, snd rs)
          else Raise expecting_comma
      end
  end
with scan_members (fuel : nat) (s : string) {struct fuel}
  : result (list (pykey * pyval) * string) :=
  match fuel with
  | O => Raise too_deep
  | S fuel' =>
      k <- scanstring s ;;
      match skip_ws (snd k) with
      | EmptyString => Raise expecting_colon
      | String c s2 =>
          if Ascii.eqb c ":" then
            r <- scan_once fuel' (skip_ws s2) ;;
            match skip_ws (snd r) with
            | EmptyString => Raise expecting_comma
            | String c3 s4 =>
                if Ascii.eqb c3 "}" then Ok ([(Some (fst k), fst r)], s4)
                else if Ascii.eqb c3 "," then
                  match skip_ws s4 with
                  | EmptyString => Raise expecting_name
                  | String c5 s6 =>
                      if Ascii.eqb c5 dquote then
                        ms <- scan_members fuel' s6 ;;
                        Ok ((Some (fst k), fst r) :: fst ms, snd ms)
                      else Raise expecting_name
                  end
                else Raise expecting_comma
            end
          else Raise expecting_colon
      end
  end.

(** The bytes of U+FEFF, the byte order mark *)
Definition byte_order_mark : string :=
  String "239" (String "187" (String "191" EmptyString)).

(** [json.loads(s)]: one value, with white space around it and nothing else;
    a text that begins with a byte order mark is refused. *)
Definition loads (s : string) : result pyval :=
  match drop_prefix byte_order_mark s with
  | Some _ => Raise (JSONDecodeError "Unexpected UTF-8 BOM (decode using utf-8-sig)")
  | None =>
      r <- scan_once (S (String.length s)) (skip_ws s) ;;
      match skip_ws (snd r) with
      | EmptyString => Ok (fst r)
      | String _ _ => Raise (JSONDecodeError "Extra data")
      end
  end.

End Json.

(** ** [str.lower]

    The lower-casing of CPython 3.11 (Unicode 14.0.0), on the code points
    of the text: [do_lower] maps each code point through the full lower-case
    mapping of the Unicode database, except the capital sigma, which becomes
    the final or the ordinary small sigma according to its context.  The
    three tables are those of the interpreter. *)

Module Unicode.

Local Open Scope N_scope.

Definition is_continuation (b : N) : bool := (128 <=? b) && (b <=? 191).
Definition is_surrogate (n : N) : bool := (55296 <=? n) && (n <=? 57343).

(** The code points of a UTF-8 text; nothing when the bytes are not
    well-formed UTF-8 (such a [string] stands for no [str]). *)
Fixpoint utf8_decode (s : string) : option (list N) :=
  match s with
  | EmptyString => Some []
  | String c0 s1 =>
      let b0 := N_of_ascii c0 in
      if b0 <? 128 then option_map (cons b0) (utf8_decode s1)
      else if b0 <? 224 then
        match s1 with
        | String c1 s2 =>
            let b1 := N_of_ascii c1 in
            let n := (b0 - 192) * 64 + (b1 - 128) in
            if (192 <=? b0) && is_continuation b1 && (128 <=? n)
            then option_map (cons n) (utf8_decode s2)
            else None
        | EmptyString => None
        end
      else if b0 <? 240 then
        match s1 with
        | String c1 (String c2 s3) =>
            let b1 := N_of_ascii c1 in
            let b2 := N_of_ascii c2 in
            let n := (b0 - 224) * 4096 + (b1 - 128) * 64 + (b2 - 128) in
            if is_continuation b1 && is_continuation b2 && (2048 <=? n)
               && negb (is_surrogate n)
            then option_map (cons n) (utf8_decode s3)
            else None
        | _ => None
        end
      else if b0 <? 248 then
        match s1 with
        | String c1 (String c2 (String c3 s4)) =>
            let b1 := N_of_ascii c1 in
            let b2 := N_of_ascii c2 in
            let b3 := N_of_ascii c3 in
            let n := (b0 - 240) * 262144 + (b1 - 128) * 4096
                     + (b2 - 128) * 64 + (b3 - 128) in
            if is_continuation b1 && is_continuation b2 && is_continuation b3
               && (65536 <=? n) && (n <=? 1114111)
            then option_map (cons n) (utf8_decode s4)
            else None
        | _ => None
        end
      else None
  end.

Fixpoint utf8_encode_all (cps : list N) : string :=
  match cps with
  | [] => EmptyString
  | c :: cps' => (Json.utf8_encode c ++ utf8_encode_all cps')%string
  end.

(** The code points with a lower-case mapping other than themselves, each
    with its mapping ([_PyUnicode_ToLowerFull]). *)
Definition lower_table : list (N * list N) :=
  [
    (65, [97]); (66, [98]); (67, [99]); (68, [100]); (69, [101]);
    (70, [102]); (71, [103]); (72, [104]); (73, [105]); (74, [106]);
    (75, [107]); (76, [108]); (77, [109]); (78, [110]); (79, [111]);
    (80, [112]); (81, [113]); (82, [114]); (83, [115]); (84, [116]);
    (85, [117]); (86, [118]); (87, [119]); (88, [120]); (89, [121]);
    (90, [122]); (192, [224]); (193, [225]); (194, [226]); (195, [227]);
    (196, [228]); (197, [229]); (198, [230]); (199, [231]); (200, [232]);
    (201, [233]); (202, [234]); (203, [235]); (204, [236]); (205, [237]);
    (206, [238]); (207, [239]); (208, [240]); (209, [241]); (210, [242]);
    (211, [243]); (212, [244]); (213, [245]); (214, [246]); (216, [248]);
    (217, [249]); (218, [250]); (219, [251]); (220, [252]); (221, [253]);
    (222, [254]); (256, [257]); (258, [259]); (260, [261]); (262, [263]);
    (264, [265]); (266, [267]); (268, [269]); (270, [271]); (272, [273]);
    (274, [275]); (276, [277]); (278, [279]); (280, [281]); (282, [283]);
    (284, [285]); (286, [287]); (288, [289]); (290, [291]); (292, [293]);
    (294, [295]); (296, [297]); (298, [299]); (300, [301]); (302, [303]);
    (304, [105; 775]); (306, [307]); (308, [309]); (310, [311]);
    (313, [314]); (315, [316]); (317, [318]); (319, [320]); (321, [322]);
    (323, [324]); (325, [326]); (327, [328]); (330, [331]); (332, [333]);
    (334, [335]); (336, [337]); (338, [339]); (340, [341]); (342, [343]);
    (344, [345]); (346, [347]); (348, [349]); (350, [351]); (352, [353]);
    (354, [355]); (356, [357]); (358, [359]); (360, [361]); (362, [363]);
    (364, [365]); (366, [367]); (368, [369]); (370, [371]); (372, [373]);
    (374, [375]); (376, [255]); (377, [378]); (379, [380]); (381, [382]);
    (385, [595]); (386, [387]); (388, [389]); (390, [596]); (391, [392]);
    (393, [598]); (394, [599]); (395, [396]); (398, [477]); (399, [601]);
    (400, [603]); (401, [402]); (403, [608]); (404, [611]); (406, [617]);
    (407, [616]); (408, [409]); (412, [623]); (413, [626]); (415, [629]);
    (416, [417]); (418, [419]); (420, [421]); (422, [640]); (423, [424]);
    (425, [643]); (428, [429]); (430, [648]); (431, [432]); (433, [650]);
    (434, [651]); (435, [436]); (437, [438]); (439, [658]); (440, [441]);
    (444, [445]); (452, [454]); (453, [454]); (455, [457]); (456, [457]);
    (458, [460]); (459, [460]); (461, [462]); (463, [464]); (465, [466]);
    (467, [468]); (469, [470]); (471, [472]); (473, [474]); (475, [476]);
    (478, [479]); (480, [481]); (482, [483]); (484, [485]); (486, [487]);
    (488, [489]); (490, [491]); (492, [493]); (494, [495]); (497, [499]);
    (498, [499]); (500, [501]); (502, [405]); (503, [447]); (504, [505]);
    (506, [507]); (508, [509]); (510, [511]); (512, [513]); (514, [515]);
    (516, [517]); (518, [519]); (520, [521]); (522, [523]); (524, [525]);
    (526, [527]); (528, [529]); (530, [531]); (532, [533]); (534, [535]);
    (536, [537]); (538, [539]); (540, [541]); (542, [543]); (544, [414]);
    (546, [547]); (548, [549]); (550, [551]); (552, [553]); (554, [555]);
    (556, [557]); (558, [559]); (560, [561]); (562, [563]); (570, [11365]);
    (571, [572]); (573, [410]); (574, [11366]); (577, [578]); (579, [384]);
    (580, [649]); (581, [652]); (582, [583]); (584, [585]); (586, [587]);
    (588, [589]); (590, [591]); (880, [881]); (882, [883]); (886, [887]);
    (895, [1011]); (902, [940]); (904, [941]); (905, [942]); (906, [943]);
    (908, [972]); (910, [973]); (911, [974]); (913, [945]); (914, [946]);
    (915, [947]); (916, [948]); (917, [949]); (918, [950]); (919, [951]);
    (920, [952]); (921, [953]); (922, [954]); (923, [955]); (924, [956]);
    (925, [957]); (926, [958]); (927, [959]); (928, [960]); (929, [961]);
    (931, [963]); (932, [964]); (933, [965]); (934, [966]); (935, [967]);
    (936, [968]); (937, [969]); (938, [970]); (939, [971]); (975, [983]);
    (984, [985]); (986, [987]); (988, [989]); (990, [991]); (992, [993]);
    (994, [995]); (996, [997]); (998, [999]); (1000, [1001]); (1002, [1003]);
    (1004, [1005]); (1006, [1007]); (1012, [952]); (1015, [1016]);
    (1017, [1010]); (1018, [1019]); (1021, [891]); (1022, [892]);
    (1023, [893]); (1024, [1104]); (1025, [1105]); (1026, [1106]);
    (1027, [1107]); (1028, [1108]); (1029, [1109]); (1030, [1110]);
    (1031, [1111]); (1032, [1112]); (1033, [1113]); (1034, [1114]);
    (1035, [1115]); (1036, [1116]); (1037, [1117]); (1038, [1118]);
    (1039, [1119]); (1040, [1072]); (1041, [1073]); (1042, [1074]);
    (1043, [1075]); (1044, [1076]); (1045, [1077]); (1046, [1078]);
    (1047, [1079]); (1048, [1080]); (1049, [1081]); (1050, [1082]);
    (1051, [1083]); (1052, [1084]); (1053, [1085]); (1054, [1086]);
    (1055, [1087]); (1056, [1088]); (1057, [1089]); (1058, [1090]);
    (1059, [1091]); (1060, [1092]); (1061, [1093]); (1062, [1094]);
    (1063, [1095]); (1064, [1096]); (1065, [1097]); (1066, [1098]);
    (1067, [1099]); (1068, [1100]); (1069, [1101]); (1070, [1102]);
    (1071, [1103]); (1120, [1121]); (1122, [1123]); (1124, [1125]);
    (1126, [1127]); (1128, [1129]); (1130, [1131]); (1132, [1133]);
    (1134, [1135]); (1136, [1137]); (1138, [1139]); (1140, [1141]);
    (1142, [1143]); (1144, [1145]); (1146, [1147]); (1148, [1149]);
    (1150, [1151]); (1152, [1153]); (1162, [1163]); (1164, [1165]);
    (1166, [1167]); (1168, [1169]); (1170, [1171]); (1172, [1173]);
    (1174, [1175]); (1176, [1177]); (1178, [1179]); (1180, [1181]);
    (1182, [1183]); (1184, [1185]); (1186, [1187]); (1188, [1189]);
    (1190, [1191]); (1192, [1193]); (1194, [1195]); (1196, [1197]);
    (1198, [1199]); (1200, [1201]); (1202, [1203]); (1204, [1205]);
    (1206, [1207]); (1208, [1209]); (1210, [1211]); (1212, [1213]);
    (1214, [1215]); (1216, [1231]); (1217, [1218]); (1219, [1220]);
    (1221, [1222]); (1223, [1224]); (1225, [1226]); (1227, [1228]);
    (1229, [1230]); (1232, [1233]); (1234, [1235]); (1236, [1237]);
    (1238, [1239]); (1240, [1241]); (1242, [1243]); (1244, [1245]);
    (1246, [1247]); (1248, [1249]); (1250, [1251]); (1252, [1253]);
    (1254, [1255]); (1256, [1257]); (1258, [1259]); (1260, [1261]);
    (1262, [1263]); (1264, [1265]); (1266, [1267]); (1268, [1269]);
    (1270, [1271]); (1272, [1273]); (1274, [1275]); (1276, [1277]);
    (1278, [1279]); (1280, [1281]); (1282, [1283]); (1284, [1285]);
    (1286, [1287]); (1288, [1289]); (1290, [1291]); (1292, [1293]);
    (1294, [1295]); (1296, [1297]); (1298, [1299]); (1300, [1301]);
    (1302, [1303]); (1304, [1305]); (1306, [1307]); (1308, [1309]);
    (1310, [1311]); (1312, [1313]); (1314, [1315]); (1316, [1317]);
    (1318, [1319]); (1320, [1321]); (1322, [1323]); (1324, [1325]);
    (1326, [1327]); (1329, [1377]); (1330, [1378]); (1331, [1379]);
    (1332, [1380]); (1333, [1381]); (1334, [1382]); (1335, [1383]);
    (1336, [1384]); (1337, [1385]); (1338, [1386]); (1339, [1387]);
    (1340, [1388]); (1341, [1389]); (1342, [1390]); (1343, [1391]);
    (1344, [1392]); (1345, [1393]); (1346, [1394]); (1347, [1395]);
    (1348, [1396]); (1349, [1397]); (1350, [1398]); (1351, [1399]);
    (1352, [1400]); (1353, [1401]); (1354, [1402]); (1355, [1403]);
    (1356, [1404]); (1357, [1405]); (1358, [1406]); (1359, [1407]);
    (1360, [1408]); (1361, [1409]); (1362, [1410]); (1363, [1411]);
    (1364, [1412]); (1365, [1413]); (1366, [1414]); (4256, [11520]);
    (4257, [11521]); (4258, [11522]); (4259, [11523]); (4260, [11524]);
    (4261, [11525]); (4262, [11526]); (4263, [11527]); (4264, [11528]);
    (4265, [11529]); (4266, [11530]); (4267, [11531]); (4268, [11532]);
    (4269, [11533]); (4270, [11534]); (4271, [11535]); (4272, [11536]);
    (4273, [11537]); (4274, [11538]); (4275, [11539]); (4276, [11540]);
    (4277, [11541]); (4278, [11542]); (4279, [11543]); (4280, [11544]);
    (4281, [11545]); (4282, [11546]); (4283, [11547]); (4284, [11548]);
    (4285, [11549]); (4286, [11550]); (4287, [11551]); (4288, [11552]);
    (4289, [11553]); (4290, [11554]); (4291, [11555]); (4292, [11556]);
    (4293, [11557]); (4295, [11559]); (4301, [11565]); (5024, [43888]);
    (5025, [43889]); (5026, [43890]); (5027, [43891]); (5028, [43892]);
    (5029, [43893]); (5030, [43894]); (5031, [43895]); (5032, [43896]);
    (5033, [43897]); (5034, [43898]); (5035, [43899]); (5036, [43900]);
    (5037, [43901]); (5038, [43902]); (5039, [43903]); (5040, [43904]);
    (5041, [43905]); (5042, [43906]); (5043, [43907]); (5044, [43908]);
    (5045, [43909]); (5046, [43910]); (5047, [43911]); (5048, [43912]);
    (5049, [43913]); (5050, [43914]); (5051, [43915]); (5052, [43916]);
    (5053, [43917]); (5054, [43918]); (5055, [43919]); (5056, [43920]);
    (5057, [43921]); (5058, [43922]); (5059, [43923]); (5060, [43924]);
    (5061, [43925]); (5062, [43926]); (5063, [43927]); (5064, [43928]);
    (5065, [43929]); (5066, [43930]); (5067, [43931]); (5068, [43932]);
    (5069, [43933]); (5070, [43934]); (5071, [43935]); (5072, [43936]);
    (5073, [43937]); (5074, [43938]); (5075, [43939]); (5076, [43940]);
    (5077, [43941]); (5078, [43942]); (5079, [43943]); (5080, [43944]);
    (5081, [43945]); (5082, [43946]); (5083, [43947]); (5084, [43948]);
    (5085, [43949]); (5086, [43950]); (5087, [43951]); (5088, [43952]);
    (5089, [43953]); (5090, [43954]); (5091, [43955]); (5092, [43956]);
    (5093, [43957]); (5094, [43958]); (5095, [43959]); (5096, [43960]);
    (5097, [43961]); (5098, [43962]); (5099, [43963]); (5100, [43964]);
    (5101, [43965]); (5102, [43966]); (5103, [43967]); (5104, [5112]);
    (5105, [5113]); (5106, [5114]); (5107, [5115]); (5108, [5116]);
    (5109, [5117]); (7312, [4304]); (7313, [4305]); (7314, [4306]);
    (7315, [4307]); (7316, [4308]); (7317, [4309]); (7318, [4310]);
    (7319, [4311]); (7320, [4312]); (7321, [4313]); (7322, [4314]);
    (7323, [4315]); (7324, [4316]); (7325, [4317]); (7326, [4318]);
    (7327, [4319]); (7328, [4320]); (7329, [4321]); (7330, [4322]);
    (7331, [4323]); (7332, [4324]); (7333, [4325]); (7334, [4326]);
    (7335, [4327]); (7336, [4328]); (7337, [4329]); (7338, [4330]);
    (7339, [4331]); (7340, [4332]); (7341, [4333]); (7342, [4334]);
    (7343, [4335]); (7344, [4336]); (7345, [4337]); (7346, [4338]);
    (7347, [4339]); (7348, [4340]); (7349, [4341]); (7350, [4342]);
    (7351, [4343]); (7352, [4344]); (7353, [4345]); (7354, [4346]);
    (7357, [4349]); (7358, [4350]); (7359, [4351]); (7680, [7681]);
    (7682, [7683]); (7684, [7685]); (7686, [7687]); (7688, [7689]);
    (7690, [7691]); (7692, [7693]); (7694, [7695]); (7696, [7697]);
    (7698, [7699]); (7700, [7701]); (7702, [7703]); (7704, [7705]);
    (7706, [7707]); (7708, [7709]); (7710, [7711]); (7712, [7713]);
    (7714, [7715]); (7716, [7717]); (7718, [7719]); (7720, [7721]);
    (7722, [7723]); (7724, [7725]); (7726, [7727]); (7728, [7729]);
    (7730, [7731]); (7732, [7733]); (7734, [7735]); (7736, [7737]);
    (7738, [7739]); (7740, [7741]); (7742, [7743]); (7744, [7745]);
    (7746, [7747]); (7748, [7749]); (7750, [7751]); (7752, [7753]);
    (7754, [7755]); (7756, [7757]); (7758, [7759]); (7760, [7761]);
    (7762, [7763]); (7764, [7765]); (7766, [7767]); (7768, [7769]);
    (7770, [7771]); (7772, [7773]); (7774, [7775]); (7776, [7777]);
    (7778, [7779]); (7780, [7781]); (7782, [7783]); (7784, [7785]);
    (7786, [7787]); (7788, [7789]); (7790, [7791]); (7792, [7793]);
    (7794, [7795]); (7796, [7797]); (7798, [7799]); (7800, [7801]);
    (7802, [7803]); (7804, [7805]); (7806, [7807]); (7808, [7809]);
    (7810, [7811]); (7812, [7813]); (7814, [7815]); (7816, [7817]);
    (7818, [7819]); (7820, [7821]); (7822, [7823]); (7824, [7825]);
    (7826, [7827]); (7828, [7829]); (7838, [223]); (7840, [7841]);
    (7842, [7843]); (7844, [7845]); (7846, [7847]); (7848, [7849]);
    (7850, [7851]); (7852, [7853]); (7854, [7855]); (7856, [7857]);
    (7858, [7859]); (7860, [7861]); (7862, [7863]); (7864, [7865]);
    (7866, [7867]); (7868, [7869]); (7870, [7871]); (7872, [7873]);
    (7874, [7875]); (7876, [7877]); (7878, [7879]); (7880, [7881]);
    (7882, [7883]); (7884, [7885]); (7886, [7887]); (7888, [7889]);
    (7890, [7891]); (7892, [7893]); (7894, [7895]); (7896, [7897]);
    (7898, [7899]); (7900, [7901]); (7902, [7903]); (7904, [7905]);
    (7906, [7907]); (7908, [7909]); (7910, [7911]); (7912, [7913]);
    (7914, [7915]); (7916, [7917]); (7918, [7919]); (7920, [7921]);
    (7922, [7923]); (7924, [7925]); (7926, [7927]); (7928, [7929]);
    (7930, [7931]); (7932, [7933]); (7934, [7935]); (7944, [7936]);
    (7945, [7937]); (7946, [7938]); (7947, [7939]); (7948, [7940]);
    (7949, [7941]); (7950, [7942]); (7951, [7943]); (7960, [7952]);
    (7961, [7953]); (7962, [7954]); (7963, [7955]); (7964, [7956]);
    (7965, [7957]); (7976, [7968]); (7977, [7969]); (7978, [7970]);
    (7979, [7971]); (7980, [7972]); (7981, [7973]); (7982, [7974]);
    (7983, [7975]); (7992, [7984]); (7993, [7985]); (7994, [7986]);
    (7995, [7987]); (7996, [7988]); (7997, [7989]); (7998, [7990]);
    (7999, [7991]); (8008, [8000]); (8009, [8001]); (8010, [8002]);
    (8011, [8003]); (8012, [8004]); (8013, [8005]); (8025, [8017]);
    (8027, [8019]); (8029, [8021]); (8031, [8023]); (8040, [8032]);
    (8041, [8033]); (8042, [8034]); (8043, [8035]); (8044, [8036]);
    (8045, [8037]); (8046, [8038]); (8047, [8039]); (8072, [8064]);
    (8073, [8065]); (8074, [8066]); (8075, [8067]); (8076, [8068]);
    (8077, [8069]); (8078, [8070]); (8079, [8071]); (8088, [8080]);
    (8089, [8081]); (8090, [8082]); (8091, [8083]); (8092, [8084]);
    (8093, [8085]); (8094, [8086]); (8095, [8087]); (8104, [8096]);
    (8105, [8097]); (8106, [8098]); (8107, [8099]); (8108, [8100]);
    (8109, [8101]); (8110, [8102]); (8111, [8103]); (8120, [8112]);
    (8121, [8113]); (8122, [8048]); (8123, [8049]); (8124, [8115]);
    (8136, [8050]); (8137, [8051]); (8138, [8052]); (8139, [8053]);
    (8140, [8131]); (8152, [8144]); (8153, [8145]); (8154, [8054]);
    (8155, [8055]); (8168, [8160]); (8169, [8161]); (8170, [8058]);
    (8171, [8059]); (8172, [8165]); (8184, [8056]); (8185, [8057]);
    (8186, [8060]); (8187, [8061]); (8188, [8179]); (8486, [969]);
    (8490, [107]); (8491, [229]); (8498, [8526]); (8544, [8560]);
    (8545, [8561]); (8546, [8562]); (8547, [8563]); (8548, [8564]);
    (8549, [8565]); (8550, [8566]); (8551, [8567]); (8552, [8568]);
    (8553, [8569]); (8554, [8570]); (8555, [8571]); (8556, [8572]);
    (8557, [8573]); (8558, [8574]); (8559, [8575]); (8579, [8580]);
    (9398, [9424]); (9399, [9425]); (9400, [9426]); (9401, [9427]);
    (9402, [9428]); (9403, [9429]); (9404, [9430]); (9405, [9431]);
    (9406, [9432]); (9407, [9433]); (9408, [9434]); (9409, [9435]);
    (9410, [9436]); (9411, [9437]); (9412, [9438]); (9413, [9439]);
    (9414, [9440]); (9415, [9441]); (9416, [9442]); (9417, [9443]);
    (9418, [9444]); (9419, [9445]); (9420, [9446]); (9421, [9447]);
    (9422, [9448]); (9423, [9449]); (11264, [11312]); (11265, [11313]);
    (11266, [11314]); (11267, [11315]); (11268, [11316]); (11269, [11317]);
    (11270, [11318]); (11271, [11319]); (11272, [11320]); (11273, [11321]);
    (11274, [11322]); (11275, [11323]); (11276, [11324]); (11277, [11325]);
    (11278, [11326]); (11279, [11327]); (11280, [11328]); (11281, [11329]);
    (11282, [11330]); (11283, [11331]); (11284, [11332]); (11285, [11333]);
    (11286, [11334]); (11287, [11335]); (11288, [11336]); (11289, [11337]);
    (11290, [11338]); (11291, [11339]); (11292, [11340]); (11293, [11341]);
    (11294, [11342]); (11295, [11343]); (11296, [11344]); (11297, [11345]);
    (11298, [11346]); (11299, [11347]); (11300, [11348]); (11301, [11349]);
    (11302, [11350]); (11303, [11351]); (11304, [11352]); (11305, [11353]);
    (11306, [11354]); (11307, [11355]); (11308, [11356]); (11309, [11357]);
    (11310, [11358]); (11311, [11359]); (11360, [11361]); (11362, [619]);
    (11363, [7549]); (11364, [637]); (11367, [11368]); (11369, [11370]);
    (11371, [11372]); (11373, [593]); (11374, [625]); (11375, [592]);
    (11376, [594]); (11378, [11379]); (11381, [11382]); (11390, [575]);
    (11391, [576]); (11392, [11393]); (11394, [11395]); (11396, [11397]);
    (11398, [11399]); (11400, [11401]); (11402, [11403]); (11404, [11405]);
    (11406, [11407]); (11408, [11409]); (11410, [11411]); (11412, [11413]);
    (11414, [11415]); (11416, [11417]); (11418, [11419]); (11420, [11421]);
    (11422, [11423]); (11424, [11425]); (11426, [11427]); (11428, [11429]);
    (11430, [11431]); (11432, [11433]); (11434, [11435]); (11436, [11437]);
    (11438, [11439]); (11440, [11441]); (11442, [11443]); (11444, [11445]);
    (11446, [11447]); (11448, [11449]); (11450, [11451]); (11452, [11453]);
    (11454, [11455]); (11456, [11457]); (11458, [11459]); (11460, [11461]);
    (11462, [11463]); (11464, [11465]); (11466, [11467]); (11468, [11469]);
    (11470, [11471]); (11472, [11473]); (11474, [11475]); (11476, [11477]);
    (11478, [11479]); (11480, [11481]); (11482, [11483]); (11484, [11485]);
    (11486, [11487]); (11488, [11489]); (11490, [11491]); (11499, [11500]);
    (11501, [11502]); (11506, [11507]); (42560, [42561]); (42562, [42563]);
    (42564, [42565]); (42566, [42567]); (42568, [42569]); (42570, [42571]);
    (42572, [42573]); (42574, [42575]); (42576, [42577]); (42578, [42579]);
    (42580, [42581]); (42582, [42583]); (42584, [42585]); (42586, [42587]);
    (42588, [42589]); (42590, [42591]); (42592, [42593]); (42594, [42595]);
    (42596, [42597]); (42598, [42599]); (42600, [42601]); (42602, [42603]);
    (42604, [42605]); (42624, [42625]); (42626, [42627]); (42628, [42629]);
    (42630, [42631]); (42632, [42633]); (42634, [42635]); (42636, [42637]);
    (42638, [42639]); (42640, [42641]); (42642, [42643]); (42644, [42645]);
    (42646, [42647]); (42648, [42649]); (42650, [42651]); (42786, [42787]);
    (42788, [42789]); (42790, [42791]); (42792, [42793]); (42794, [42795]);
    (42796, [42797]); (42798, [42799]); (42802, [42803]); (42804, [42805]);
    (42806, [42807]); (42808, [42809]); (42810, [42811]); (42812, [42813]);
    (42814, [42815]); (42816, [42817]); (42818, [42819]); (42820, [42821]);
    (42822, [42823]); (42824, [42825]); (42826, [42827]); (42828, [42829]);
    (42830, [42831]); (42832, [42833]); (42834, [42835]); (42836, [42837]);
    (42838, [42839]); (42840, [42841]); (42842, [42843]); (42844, [42845]);
    (42846, [42847]); (42848, [42849]); (42850, [42851]); (42852, [42853]);
    (42854, [42855]); (42856, [42857]); (42858, [42859]); (42860, [42861]);
    (42862, [42863]); (42873, [42874]); (42875, [42876]); (42877, [7545]);
    (42878, [42879]); (42880, [42881]); (42882, [42883]); (42884, [42885]);
    (42886, [42887]); (42891, [42892]); (42893, [613]); (42896, [42897]);
    (42898, [42899]); (42902, [42903]); (42904, [42905]); (42906, [42907]);
    (42908, [42909]); (42910, [42911]); (42912, [42913]); (42914, [42915]);
    (42916, [42917]); (42918, [42919]); (42920, [42921]); (42922, [614]);
    (42923, [604]); (42924, [609]); (42925, [620]); (42926, [618]);
    (42928, [670]); (42929, [647]); (42930, [669]); (42931, [43859]);
    (42932, [42933]); (42934, [42935]); (42936, [42937]); (42938, [42939]);
    (42940, [42941]); (42942, [42943]); (42944, [42945]); (42946, [42947]);
    (42948, [42900]); (42949, [642]); (42950, [7566]); (42951, [42952]);
    (42953, [42954]); (42960, [42961]); (42966, [42967]); (42968, [42969]);
    (42997, [42998]); (65313, [65345]); (65314, [65346]); (65315, [65347]);
    (65316, [65348]); (65317, [65349]); (65318, [65350]); (65319, [65351]);
    (65320, [65352]); (65321, [65353]); (65322, [65354]); (65323, [65355]);
    (65324, [65356]); (65325, [65357]); (65326, [65358]); (65327, [65359]);
    (65328, [65360]); (65329, [65361]); (65330, [65362]); (65331, [65363]);
    (65332, [65364]); (65333, [65365]); (65334, [65366]); (65335, [65367]);
    (65336, [65368]); (65337, [65369]); (65338, [65370]); (66560, [66600]);
    (66561, [66601]); (66562, [66602]); (66563, [66603]); (66564, [66604]);
    (66565, [66605]); (66566, [66606]); (66567, [66607]); (66568, [66608]);
    (66569, [66609]); (66570, [66610]); (66571, [66611]); (66572, [66612]);
    (66573, [66613]); (66574, [66614]); (66575, [66615]); (66576, [66616]);
    (66577, [66617]); (66578, [66618]); (66579, [66619]); (66580, [66620]);
    (66581, [66621]); (66582, [66622]); (66583, [66623]); (66584, [66624]);
    (66585, [66625]); (66586, [66626]); (66587, [66627]); (66588, [66628]);
    (66589, [66629]); (66590, [66630]); (66591, [66631]); (66592, [66632]);
    (66593, [66633]); (66594, [66634]); (66595, [66635]); (66596, [66636]);
    (66597, [66637]); (66598, [66638]); (66599, [66639]); (66736, [66776]);
    (66737, [66777]); (66738, [66778]); (66739, [66779]); (66740, [66780]);
    (66741, [66781]); (66742, [66782]); (66743, [66783]); (66744, [66784]);
    (66745, [66785]); (66746, [66786]); (66747, [66787]); (66748, [66788]);
    (66749, [66789]); (66750, [66790]); (66751, [66791]); (66752, [66792]);
    (66753, [66793]); (66754, [66794]); (66755, [66795]); (66756, [66796]);
    (66757, [66797]); (66758, [66798]); (66759, [66799]); (66760, [66800]);
    (66761, [66801]); (66762, [66802]); (66763, [66803]); (66764, [66804]);
    (66765, [66805]); (66766, [66806]); (66767, [66807]); (66768, [66808]);
    (66769, [66809]); (66770, [66810]); (66771, [66811]); (66928, [66967]);
    (66929, [66968]); (66930, [66969]); (66931, [66970]); (66932, [66971]);
    (66933, [66972]); (66934, [66973]); (66935, [66974]); (66936, [66975]);
    (66937, [66976]); (66938, [66977]); (66940, [66979]); (66941, [66980]);
    (66942, [66981]); (66943, [66982]); (66944, [66983]); (66945, [66984]);
    (66946, [66985]); (66947, [66986]); (66948, [66987]); (66949, [66988]);
    (66950, [66989]); (66951, [66990]); (66952, [66991]); (66953, [66992]);
    (66954, [66993]); (66956, [66995]); (66957, [66996]); (66958, [66997]);
    (66959, [66998]); (66960, [66999]); (66961, [67000]); (66962, [67001]);
    (66964, [67003]); (66965, [67004]); (68736, [68800]); (68737, [68801]);
    (68738, [68802]); (68739, [68803]); (68740, [68804]); (68741, [68805]);
    (68742, [68806]); (68743, [68807]); (68744, [68808]); (68745, [68809]);
    (68746, [68810]); (68747, [68811]); (68748, [68812]); (68749, [68813]);
    (68750, [68814]); (68751, [68815]); (68752, [68816]); (68753, [68817]);
    (68754, [68818]); (68755, [68819]); (68756, [68820]); (68757, [68821]);
    (68758, [68822]); (68759, [68823]); (68760, [68824]); (68761, [68825]);
    (68762, [68826]); (68763, [68827]); (68764, [68828]); (68765, [68829]);
    (68766, [68830]); (68767, [68831]); (68768, [68832]); (68769, [68833]);
    (68770, [68834]); (68771, [68835]); (68772, [68836]); (68773, [68837]);
    (68774, [68838]); (68775, [68839]); (68776, [68840]); (68777, [68841]);
    (68778, [68842]); (68779, [68843]); (68780, [68844]); (68781, [68845]);
    (68782, [68846]); (68783, [68847]); (68784, [68848]); (68785, [68849]);
    (68786, [68850]); (71840, [71872]); (71841, [71873]); (71842, [71874]);
    (71843, [71875]); (71844, [71876]); (71845, [71877]); (71846, [71878]);
    (71847, [71879]); (71848, [71880]); (71849, [71881]); (71850, [71882]);
    (71851, [71883]); (71852, [71884]); (71853, [71885]); (71854, [71886]);
    (71855, [71887]); (71856, [71888]); (71857, [71889]); (71858, [71890]);
    (71859, [71891]); (71860, [71892]); (71861, [71893]); (71862, [71894]);
    (71863, [71895]); (71864, [71896]); (71865, [71897]); (71866, [71898]);
    (71867, [71899]); (71868, [71900]); (71869, [71901]); (71870, [71902]);
    (71871, [71903]); (93760, [93792]); (93761, [93793]); (93762, [93794]);
    (93763, [93795]); (93764, [93796]); (93765, [93797]); (93766, [93798]);
    (93767, [93799]); (93768, [93800]); (93769, [93801]); (93770, [93802]);
    (93771, [93803]); (93772, [93804]); (93773, [93805]); (93774, [93806]);
    (93775, [93807]); (93776, [93808]); (93777, [93809]); (93778, [93810]);
    (93779, [93811]); (93780, [93812]); (93781, [93813]); (93782, [93814]);
    (93783, [93815]); (93784, [93816]); (93785, [93817]); (93786, [93818]);
    (93787, [93819]); (93788, [93820]); (93789, [93821]); (93790, [93822]);
    (93791, [93823]); (125184, [125218]); (125185, [125219]);
    (125186, [125220]); (125187, [125221]); (125188, [125222]);
    (125189, [125223]); (125190, [125224]); (125191, [125225]);
    (125192, [125226]); (125193, [125227]); (125194, [125228]);
    (125195, [125229]); (125196, [125230]); (125197, [125231]);
    (125198, [125232]); (125199, [125233]); (125200, [125234]);
    (125201, [125235]); (125202, [125236]); (125203, [125237]);
    (125204, [125238]); (125205, [125239]); (125206, [125240]);
    (125207, [125241]); (125208, [125242]); (125209, [125243]);
    (125210, [125244]); (125211, [125245]); (125212, [125246]);
    (125213, [125247]); (125214, [125248]); (125215, [125249]);
    (125216, [125250]); (125217, [125251])
  ].

(** The code points with the property Case_Ignorable, as ranges. *)
Definition case_ignorable_ranges : list (N * N) :=
  [
    (39, 39); (46, 46); (58, 58); (94, 94); (96, 96); (168, 168); (173, 173);
    (175, 175); (180, 180); (183, 184); (688, 879); (884, 885); (890, 890);
    (900, 901); (903, 903); (1155, 1161); (1369, 1369); (1375, 1375);
    (1425, 1469); (1471, 1471); (1473, 1474); (1476, 1477); (1479, 1479);
    (1524, 1524); (1536, 1541); (1552, 1562); (1564, 1564); (1600, 1600);
    (1611, 1631); (1648, 1648); (1750, 1757); (1759, 1768); (1770, 1773);
    (1807, 1807); (1809, 1809); (1840, 1866); (1958, 1968); (2027, 2037);
    (2042, 2042); (2045, 2045); (2070, 2093); (2137, 2139); (2184, 2184);
    (2192, 2193); (2200, 2207); (2249, 2306); (2362, 2362); (2364, 2364);
    (2369, 2376); (2381, 2381); (2385, 2391); (2402, 2403); (2417, 2417);
    (2433, 2433); (2492, 2492); (2497, 2500); (2509, 2509); (2530, 2531);
    (2558, 2558); (2561, 2562); (2620, 2620); (2625, 2626); (2631, 2632);
    (2635, 2637); (2641, 2641); (2672, 2673); (2677, 2677); (2689, 2690);
    (2748, 2748); (2753, 2757); (2759, 2760); (2765, 2765); (2786, 2787);
    (2810, 2815); (2817, 2817); (2876, 2876); (2879, 2879); (2881, 2884);
    (2893, 2893); (2901, 2902); (2914, 2915); (2946, 2946); (3008, 3008);
    (3021, 3021); (3072, 3072); (3076, 3076); (3132, 3132); (3134, 3136);
    (3142, 3144); (3146, 3149); (3157, 3158); (3170, 3171); (3201, 3201);
    (3260, 3260); (3263, 3263); (3270, 3270); (3276, 3277); (3298, 3299);
    (3328, 3329); (3387, 3388); (3393, 3396); (3405, 3405); (3426, 3427);
    (3457, 3457); (3530, 3530); (3538, 3540); (3542, 3542); (3633, 3633);
    (3636, 3642); (3654, 3662); (3761, 3761); (3764, 3772); (3782, 3782);
    (3784, 3789); (3864, 3865); (3893, 3893); (3895, 3895); (3897, 3897);
    (3953, 3966); (3968, 3972); (3974, 3975); (3981, 3991); (3993, 4028);
    (4038, 4038); (4141, 4144); (4146, 4151); (4153, 4154); (4157, 4158);
    (4184, 4185); (4190, 4192); (4209, 4212); (4226, 4226); (4229, 4230);
    (4237, 4237); (4253, 4253); (4348, 4348); (4957, 4959); (5906, 5908);
    (5938, 5939); (5970, 5971); (6002, 6003); (6068, 6069); (6071, 6077);
    (6086, 6086); (6089, 6099); (6103, 6103); (6109, 6109); (6155, 6159);
    (6211, 6211); (6277, 6278); (6313, 6313); (6432, 6434); (6439, 6440);
    (6450, 6450); (6457, 6459); (6679, 6680); (6683, 6683); (6742, 6742);
    (6744, 6750); (6752, 6752); (6754, 6754); (6757, 6764); (6771, 6780);
    (6783, 6783); (6823, 6823); (6832, 6862); (6912, 6915); (6964, 6964);
    (6966, 6970); (6972, 6972); (6978, 6978); (7019, 7027); (7040, 7041);
    (7074, 7077); (7080, 7081); (7083, 7085); (7142, 7142); (7144, 7145);
    (7149, 7149); (7151, 7153); (7212, 7219); (7222, 7223); (7288, 7293);
    (7376, 7378); (7380, 7392); (7394, 7400); (7405, 7405); (7412, 7412);
    (7416, 7417); (7468, 7530); (7544, 7544); (7579, 7679); (8125, 8125);
    (8127, 8129); (8141, 8143); (8157, 8159); (8173, 8175); (8189, 8190);
    (8203, 8207); (8216, 8217); (8228, 8228); (8231, 8231); (8234, 8238);
    (8288, 8292); (8294, 8303); (8305, 8305); (8319, 8319); (8336, 8348);
    (8400, 8432); (11388, 11389); (11503, 11505); (11631, 11631);
    (11647, 11647); (11744, 11775); (11823, 11823); (12293, 12293);
    (12330, 12333); (12337, 12341); (12347, 12347); (12441, 12446);
    (12540, 12542); (40981, 40981); (42232, 42237); (42508, 42508);
    (42607, 42610); (42612, 42621); (42623, 42623); (42652, 42655);
    (42736, 42737); (42752, 42785); (42864, 42864); (42888, 42890);
    (42994, 42996); (43000, 43001); (43010, 43010); (43014, 43014);
    (43019, 43019); (43045, 43046); (43052, 43052); (43204, 43205);
    (43232, 43249); (43263, 43263); (43302, 43309); (43335, 43345);
    (43392, 43394); (43443, 43443); (43446, 43449); (43452, 43453);
    (43471, 43471); (43493, 43494); (43561, 43566); (43569, 43570);
    (43573, 43574); (43587, 43587); (43596, 43596); (43632, 43632);
    (43644, 43644); (43696, 43696); (43698, 43700); (43703, 43704);
    (43710, 43711); (43713, 43713); (43741, 43741); (43756, 43757);
    (43763, 43764); (43766, 43766); (43867, 43871); (43881, 43883);
    (44005, 44005); (44008, 44008); (44013, 44013); (64286, 64286);
    (64434, 64450); (65024, 65039); (65043, 65043); (65056, 65071);
    (65106, 65106); (65109, 65109); (65279, 65279); (65287, 65287);
    (65294, 65294); (65306, 65306); (65342, 65342); (65344, 65344);
    (65392, 65392); (65438, 65439); (65507, 65507); (65529, 65531);
    (66045, 66045); (66272, 66272); (66422, 66426); (67456, 67461);
    (67463, 67504); (67506, 67514); (68097, 68099); (68101, 68102);
    (68108, 68111); (68152, 68154); (68159, 68159); (68325, 68326);
    (68900, 68903); (69291, 69292); (69446, 69456); (69506, 69509);
    (69633, 69633); (69688, 69702); (69744, 69744); (69747, 69748);
    (69759, 69761); (69811, 69814); (69817, 69818); (69821, 69821);
    (69826, 69826); (69837, 69837); (69888, 69890); (69927, 69931);
    (69933, 69940); (70003, 70003); (70016, 70017); (70070, 70078);
    (70089, 70092); (70095, 70095); (70191, 70193); (70196, 70196);
    (70198, 70199); (70206, 70206); (70367, 70367); (70371, 70378);
    (70400, 70401); (70459, 70460); (70464, 70464); (70502, 70508);
    (70512, 70516); (70712, 70719); (70722, 70724); (70726, 70726);
    (70750, 70750); (70835, 70840); (70842, 70842); (70847, 70848);
    (70850, 70851); (71090, 71093); (71100, 71101); (71103, 71104);
    (71132, 71133); (71219, 71226); (71229, 71229); (71231, 71232);
    (71339, 71339); (71341, 71341); (71344, 71349); (71351, 71351);
    (71453, 71455); (71458, 71461); (71463, 71467); (71727, 71735);
    (71737, 71738); (71995, 71996); (71998, 71998); (72003, 72003);
    (72148, 72151); (72154, 72155); (72160, 72160); (72193, 72202);
    (72243, 72248); (72251, 72254); (72263, 72263); (72273, 72278);
    (72281, 72283); (72330, 72342); (72344, 72345); (72752, 72758);
    (72760, 72765); (72767, 72767); (72850, 72871); (72874, 72880);
    (72882, 72883); (72885, 72886); (73009, 73014); (73018, 73018);
    (73020, 73021); (73023, 73029); (73031, 73031); (73104, 73105);
    (73109, 73109); (73111, 73111); (73459, 73460); (78896, 78904);
    (92912, 92916); (92976, 92982); (92992, 92995); (94031, 94031);
    (94095, 94111); (94176, 94177); (94179, 94180); (110576, 110579);
    (110581, 110587); (110589, 110590); (113821, 113822); (113824, 113827);
    (118528, 118573); (118576, 118598); (119143, 119145); (119155, 119170);
    (119173, 119179); (119210, 119213); (119362, 119364); (121344, 121398);
    (121403, 121452); (121461, 121461); (121476, 121476); (121499, 121503);
    (121505, 121519); (122880, 122886); (122888, 122904); (122907, 122913);
    (122915, 122916); (122918, 122922); (123184, 123197); (123566, 123566);
    (123628, 123631); (125136, 125142); (125252, 125259); (127995, 127999);
    (917505, 917505); (917536, 917631); (917760, 917999)
  ].

(** The code points with the property Cased, as ranges. *)
Definition cased_ranges : list (N * N) :=
  [
    (65, 90); (97, 122); (170, 170); (181, 181); (186, 186); (192, 214);
    (216, 246); (248, 442); (444, 447); (452, 659); (661, 696); (704, 705);
    (736, 740); (837, 837); (880, 883); (886, 887); (890, 893); (895, 895);
    (902, 902); (904, 906); (908, 908); (910, 929); (931, 1013);
    (1015, 1153); (1162, 1327); (1329, 1366); (1376, 1416); (4256, 4293);
    (4295, 4295); (4301, 4301); (4304, 4346); (4349, 4351); (5024, 5109);
    (5112, 5117); (7296, 7304); (7312, 7354); (7357, 7359); (7424, 7615);
    (7680, 7957); (7960, 7965); (7968, 8005); (8008, 8013); (8016, 8023);
    (8025, 8025); (8027, 8027); (8029, 8029); (8031, 8061); (8064, 8116);
    (8118, 8124); (8126, 8126); (8130, 8132); (8134, 8140); (8144, 8147);
    (8150, 8155); (8160, 8172); (8178, 8180); (8182, 8188); (8305, 8305);
    (8319, 8319); (8336, 8348); (8450, 8450); (8455, 8455); (8458, 8467);
    (8469, 8469); (8473, 8477); (8484, 8484); (8486, 8486); (8488, 8488);
    (8490, 8493); (8495, 8500); (8505, 8505); (8508, 8511); (8517, 8521);
    (8526, 8526); (8544, 8575); (8579, 8580); (9398, 9449); (11264, 11492);
    (11499, 11502); (11506, 11507); (11520, 11557); (11559, 11559);
    (11565, 11565); (42560, 42605); (42624, 42653); (42786, 42887);
    (42891, 42894); (42896, 42954); (42960, 42961); (42963, 42963);
    (42965, 42969); (42997, 42998); (43000, 43002); (43824, 43866);
    (43868, 43880); (43888, 43967); (64256, 64262); (64275, 64279);
    (65313, 65338); (65345, 65370); (66560, 66639); (66736, 66771);
    (66776, 66811); (66928, 66938); (66940, 66954); (66956, 66962);
    (66964, 66965); (66967, 66977); (66979, 66993); (66995, 67001);
    (67003, 67004); (67456, 67456); (67459, 67461); (67463, 67504);
    (67506, 67514); (68736, 68786); (68800, 68850); (71840, 71903);
    (93760, 93823); (119808, 119892); (119894, 119964); (119966, 119967);
    (119970, 119970); (119973, 119974); (119977, 119980); (119982, 119993);
    (119995, 119995); (119997, 120003); (120005, 120069); (120071, 120074);
    (120077, 120084); (120086, 120092); (120094, 120121); (120123, 120126);
    (120128, 120132); (120134, 120134); (120138, 120144); (120146, 120485);
    (120488, 120512); (120514, 120538); (120540, 120570); (120572, 120596);
    (120598, 120628); (120630, 120654); (120656, 120686); (120688, 120712);
    (120714, 120744); (120746, 120770); (120772, 120779); (122624, 122633);
    (122635, 122654); (125184, 125251); (127280, 127305); (127312, 127337);
    (127344, 127369)
  ].

Fixpoint assoc (c : N) (table : list (N * list N)) : option (list N) :=
  match table with
  | [] => None
  | (k, m) :: table' => if c =? k then Some m else assoc c table'
  end.

Definition in_ranges (c : N) (ranges : list (N * N)) : bool :=
  existsb (fun r => (fst r <=? c) && (c <=? snd r)) ranges.

Definition to_lower_full (c : N) : list N :=
  match assoc c lower_table with
  | Some m => m
  | None => [c]
  end.

Definition is_case_ignorable (c : N) : bool := in_ranges c case_ignorable_ranges.
Definition is_cased (c : N) : bool := in_ranges c cased_ranges.

Fixpoint skip_ignorable (l : list N) : list N :=
  match l with
  | [] => []
  | c :: l' => if is_case_ignorable c then skip_ignorable l' else l
  end.

Definition capital_sigma : N := 931.
Definition small_sigma : N := 963.
Definition final_sigma : N := 962.

(** The capital sigma is in final position when a cased letter comes before
    it and none after it, case-ignorable code points aside.  [before] holds
    the code points before the sigma, the nearest first. *)
Definition handle_capital_sigma (before after : list N) : N :=
  let cased_before :=
    match skip_ignorable before with
    | c :: _ => is_cased c
    | [] => false
    end in
  let cased_after :=
    match skip_ignorable after with
    | c :: _ => is_cased c
    | [] => false
    end in
  if cased_before && negb cased_after then final_sigma else small_sigma.

Definition lower_ucs4 (before after : list N) (c : N) : list N :=
  if c =? capital_sigma then [handle_capital_sigma before after]
  else to_lower_full c.

Fixpoint do_lower (before : list N) (cps : list N) : list N :=
  match cps with
  | [] => []
  | c :: cps' => (lower_ucs4 before cps' c ++ do_lower (c :: before) cps')%list
  end.

End Unicode.

(** [s.lower()]: the text is decoded, lower-cased code point by code point
    and encoded again.  (A [string] that is not UTF-8 stands for no [str]; it
    is left as it is.) *)
Definition lower (s : string) : string :=
  match Unicode.utf8_decode s with
  | Some cps => Unicode.utf8_encode_all (Unicode.do_lower [] cps)
  | None => s
  end.

(** [v.lower()] on a value: only a [str] has the method. *)
Definition py_lower (v : pyval) : result pyval :=
  match v with
  | VStr s => Ok (VStr (lower s))
  | VNone => Raise (AttributeError "'NoneType' object has no attribute 'lower'")
  | VBool _ => Raise (AttributeError "'bool' object has no attribute 'lower'")
  | VList _ => Raise (AttributeError "'list' object has no attribute 'lower'")
  | VDict _ => Raise (AttributeError "'dict' object has no attribute 'lower'")
  end.

(** ** The script *)

Import TextIO.

Definition parts : list string :=
  [ "static/data/genesis_part1.csv";
    "static/data/genesis_part2.csv";
    "static/data/genesis_part3.csv";
    "static/data/genesis_part4.csv" ].

Definition output_file : string := "static/data/genesis_nfts.json".

(** The lines of one part, as the file object hands them to the reader. *)
Definition part_lines (fs : filesystem) (part : string) : result (list string) :=
  text <- read_text fs part ;; Ok (readlines text).

(** The reading loop from its [i]-th turn on: [fieldnames] and [all_rows] are
    the script's variables of these names.  Part 1 ([i = 0]) gives the field
    names, the later parts are read with them.  (A file is decoded before any
    of it is parsed; CPython decodes it block by block while the reader
    runs, so where a file has both an undecodable byte and a CSV error, the
    exception raised may be the other one.) *)
Fixpoint read_parts (fs : filesystem) (i : nat) (ps : list string)
    (fieldnames : option (list string)) (all_rows : list pydict)
  : result (list pydict) :=
  match ps with
  | [] => Ok all_rows
  | part :: ps' =>
      lines <- part_lines fs part ;;
      if Nat.eqb i 0 then
        r <- Csv.DictReader lines None ;;
        read_parts fs (S i) ps' (fst r) (all_rows ++ snd r)%list
      else
        r <- Csv.DictReader lines fieldnames ;;
        read_parts fs (S i) ps' fieldnames (all_rows ++ snd r)%list
  end.

Definition all_rows (fs : filesystem) : result (list pydict) :=
  read_parts fs 0 parts None [].

Definition str_default : pyval := VStr EmptyString.

(** The body of the processing loop: the record made from one row. *)
Definition nft (row : pydict) : result pyval :=
  contract <- py_lower (dict_get row (Some "Contract Address") str_default) ;;
  let token_id := dict_get row (Some "Token ID") str_default in
  Ok (VDict
        [ (Some "token_address", contract);
          (Some "token_id", token_id);
          (Some "name", dict_get row (Some "Name") str_default);
          (Some "image_url", dict_get row (Some "Image URL") str_default);
          (Some "metadata",
            VDict [ (Some "name", dict_get row (Some "Name") str_default);
                    (Some "image", dict_get row (Some "Image URL") str_default) ]) ]).

(** The processing loop *)
Definition nfts (rows : list pydict) : result (list pyval) := mapM nft rows.

Definition success_message (n : nat) : string :=
  "Successfully created " ++ output_file ++ " with "
  ++ NilEmpty.string_of_uint (Nat.to_uint n) ++ " items." ++ String LF EmptyString.

(** The records the script holds when it starts writing. *)
Definition records_of (fs : filesystem) : result (list pyval) :=
  rows <- all_rows fs ;; nfts rows.

(** The whole script: what it prints, or the exception that ends it, and the
    file system it leaves. *)
Definition main (fs : filesystem) : result string * filesystem :=
  match records_of fs with
  | Raise e => (Raise e, fs)
  | Ok records =>
      match write_text fs output_file (Json.dumps (VList records)) with
      | Raise e => (Raise e, fs)
      | Ok fs' => (Ok (success_message (length records)), fs')
      end
  end.

(** ** Reading records and inputs *)

(** [rec[k]] for a record [rec]; nothing when [rec] is no dict or has no such
    key. *)
Fixpoint lookup (d : pydict) (k : pykey) : option pyval :=
  match d with
  | [] => None
  | (k', v) :: d' => if key_eqb k k' then Some v else lookup d' k
  end.

Definition field_of (rec : pyval) (k : string) : option pyval :=
  match rec with
  | VDict d => lookup d (Some k)
  | _ => None
  end.

Definition keys_of (rec : pyval) : option (list pykey) :=
  match rec with
  | VDict d => Some (dict_keys d)
  | _ => None
  end.

(** A [str] or [None]: what a row holds under a column name. *)
Definition is_str_or_none (v : pyval) : bool :=
  match v with
  | VStr _ | VNone => true
  | _ => false
  end.

(** The field names the script keeps from part 1, and the rows a part gives
    when it is read with the field names [fieldnames]. *)
Definition header_of (fs : filesystem) (part : string) : result (option (list string)) :=
  lines <- part_lines fs part ;; r <- Csv.DictReader lines None ;; Ok (fst r).

Definition rows_of (fs : filesystem) (part : string) (fieldnames : option (list string))
  : result (list pydict) :=
  lines <- part_lines fs part ;; r <- Csv.DictReader lines fieldnames ;; Ok (snd r).

Definition part1 : string := "static/data/genesis_part1.csv".
Definition part2 : string := "static/data/genesis_part2.csv".
Definition part3 : string := "static/data/genesis_part3.csv".
Definition part4 : string := "static/data/genesis_part4.csv".

(** An input that cannot be read as UTF-8 text. *)
Definition unusable (e : entry) : bool :=
  match e with
  | Absent => true
  | Directory => true
  | File bytes readable _ => negb readable || negb (utf8_valid bytes)
  end.

(** *** Lines and records *)

Definition is_blank_line (line : string) : bool :=
  String.eqb line (String LF EmptyString).

(** The record that begins on [line] also ends on it: no quoted field is
    left open at the end of the line. *)
Definition line_closed (line : string) : bool :=
  match Csv.process_line Csv.parse_reset line with
  | Ok r => Csv.state_eqb (Csv.state r) Csv.START_RECORD
  | Raise _ => false
  end.

(** The lines of the four parts, in the order read. *)
Definition input_lines (fs : filesystem) : result (list (list string)) :=
  mapM (part_lines fs) parts.

(** The data lines: every line but the first line of part 1. *)
Definition data_lines (fs : filesystem) : result (list string) :=
  ls <- input_lines fs ;; Ok (tl (concat ls)).

Definition count_nonblank (lines : list string) : nat :=
  length (filter (fun l => negb (is_blank_line l)) lines).

(** *** Values that JSON carries faithfully *)

Fixpoint distinct (ks : list pykey) : bool :=
  match ks with
  | [] => true
  | k :: ks' => negb (existsb (key_eqb k) ks') && distinct ks'
  end.

Definition is_str_key (k : pykey) : bool :=
  match k with Some _ => true | None => false end.

(** Every key is a [str] and no dict has a key twice. *)
Fixpoint json_safe (v : pyval) : bool :=
  match v with
  | VNone | VBool _ | VStr _ => true
  | VList l => forallb json_safe l
  | VDict d =>
      forallb (fun kv => is_str_key (fst kv)) d
      && distinct (map fst d)
      && forallb (fun kv => json_safe (snd kv)) d
  end.

(** The number of nested calls the decoder makes on the text of [v]. *)
Fixpoint depth_of (v : pyval) : nat :=
  match v with
  | VNone | VBool _ | VStr _ => 1
  | VList l => S (fold_right (fun x n => S (Nat.max (depth_of x) n)) 0 l)
  | VDict d => S (fold_right (fun kv n => S (Nat.max (depth_of (snd kv)) n)) 0 d)
  end.

(** *** Example inputs

    In the text of an example an apostrophe stands for a double quote and a
    vertical bar for a line feed. *)

Fixpoint lit (s : string) : string :=
  match s with
  | EmptyString => EmptyString
  | String c s' =>
      String (if Ascii.eqb c "'" then Json.dquote
              else if Ascii.eqb c "|" then LF else c) (lit s')
  end.

Definition fs_of (e1 e2 e3 e4 : entry) : filesystem :=
  fun p =>
    if String.eqb p part1 then e1
    else if String.eqb p part2 then e2
    else if String.eqb p part3 then e3
    else if String.eqb p part4 then e4
    else Absent.

Definition csv_file (text : string) : entry := File (lit text) true true.
Definition empty_file : entry := File EmptyString true true.

Definition header_line : string := "No,Token ID,Name,Image URL,Contract Address|".

(** The scenario of the specification *)
Definition fs_scenario : filesystem :=
  fs_of (csv_file (header_line ++ "1,42,'Cool Ape','http://img/1.png',0xABC123|"))
        empty_file empty_file empty_file.

Definition scenario_record : pyval :=
  VDict [ (Some "token_address", VStr "0xabc123");
          (Some "token_id", VStr "42");
          (Some "name", VStr "Cool Ape");
          (Some "image_url", VStr "http://img/1.png");
          (Some "metadata",
            VDict [ (Some "name", VStr "Cool Ape");
                    (Some "image", VStr "http://img/1.png") ]) ].

Definition scenario_expected : string :=
  lit "[{'token_address':'0xabc123','token_id':'42','name':'Cool Ape','image_url':'http://img/1.png','metadata':{'name':'Cool Ape','image':'http://img/1.png'}}]".

(** A data line with three fields under the five-column header *)
Definition fs_short_row : filesystem :=
  fs_of (csv_file (header_line ++ "1,42,Cool Ape|"))
        empty_file empty_file empty_file.

(** The same with the address column first, so that the short line has it *)
Definition fs_short_row_address_first : filesystem :=
  fs_of (csv_file "Contract Address,No,Token ID,Name,Image URL|0xAB,1,42|")
        empty_file empty_file empty_file.

(** A data line with seven fields *)
Definition long_row : list string :=
  ["1"; "42"; "Cool Ape"; "http://img/1.png"; "0xABC123"; "extra"; "more"].
Definition canonical_names : list string :=
  ["No"; "Token ID"; "Name"; "Image URL"; "Contract Address"].

(** A quoted name that runs over two lines *)
Definition fs_multiline : filesystem :=
  fs_of (csv_file (header_line ++ "1,42,'Cool|Ape',http://img/1.png,0xABC123|"))
        empty_file empty_file empty_file.

(** Blank lines between the rows of two parts *)
Definition fs_blank_lines : filesystem :=
  fs_of (csv_file (header_line ++ "|1,42,Cool Ape,http://img/1.png,0xABC123||"))
        (csv_file "|2,43,Calm Ape,http://img/2.png,0xDEF456|")
        empty_file empty_file.

(** Part 3 is missing; part 2 is not UTF-8 *)
Definition fs_missing : filesystem :=
  fs_of (csv_file header_line) empty_file Absent empty_file.
Definition fs_not_utf8 : filesystem :=
  fs_of (csv_file header_line) (File (String "255"%char EmptyString) true true)
        empty_file empty_file.

(** Under every column name the row holds a [str] or [None]. *)
Definition columns_hold_text (d : pydict) : bool :=
  forallb (fun kv => negb (is_str_key (fst kv)) || is_str_or_none (snd kv)) d.

Definition record_keys : list pykey :=
  [Some "token_address"; Some "token_id"; Some "name"; Some "image_url"; Some "metadata"].
Definition metadata_keys : list pykey := [Some "name"; Some "image"].

Definition none_has_no_lower : exn :=
  AttributeError "'NoneType' object has no attribute 'lower'".

(** What the script makes of the short line when the address column comes
    first. *)
Definition short_row_record : pyval :=
  VDict [ (Some "token_address", VStr "0xab");
          (Some "token_id", VStr "42");
          (Some "name", VNone);
          (Some "image_url", VNone);
          (Some "metadata", VDict [ (Some "name", VNone); (Some "image", VNone) ]) ].

Definition scenario_text : string :=
  lit "[|  {|    'token_address': '0xabc123',|    'token_id': '42',|    'name': 'Cool Ape',|    'image_url': 'http://img/1.png',|    'metadata': {|      'name': 'Cool Ape',|      'image': 'http://img/1.png'|    }|  }|]".



(** *** The shape of the lines of a text file *)

(** The record read from a line that holds one whole record. *)
Definition record_of_line (line : string) : list string :=
  match Csv.process_line Csv.parse_reset line with
  | Ok r => Csv.fields r
  | Raise _ => []
  end.

Fixpoint no_cr (s : string) : bool :=
  match s with
  | EmptyString => true
  | String c s' => negb (Ascii.eqb c CR) && no_cr s'
  end.

Definition plain_char (c : ascii) : bool :=
  negb (Ascii.eqb c LF) && negb (Ascii.eqb c CR).

Definition starts_plain (s : string) : bool :=
  match s with
  | EmptyString => true
  | String c _ => plain_char c
  end.

(** A line as a text file gives it: the lone line feed, or a line that
    begins with another character than a line break. *)
Definition proper_line (line : string) : bool :=
  match line with
  | EmptyString => false
  | String c rest =>
      if Ascii.eqb c LF then
        match rest with EmptyString => true | String _ _ => false end
      else negb (Ascii.eqb c CR)
  end.

(** The reader has begun a record: a field is stored or being read. *)
Definition has_field (r : Csv.Reader) : bool :=
  match Csv.fields r with
  | _ :: _ => true
  | [] =>
      match Csv.state r with
      | Csv.START_FIELD | Csv.IN_FIELD | Csv.IN_QUOTED_FIELD
      | Csv.QUOTE_IN_QUOTED_FIELD => true
      | Csv.START_RECORD | Csv.EAT_CRNL => false
      end
  end.



(** *** The text of the elements and members after the first

    [Json.encode] writes them with local loops; these are the same texts
    under names. *)
Fixpoint encode_items (level : nat) (l : list pyval) : string :=
  match l with
  | [] => EmptyString
  | y :: l' =>
      "," ++ Json.newline_indent (S level) ++ Json.encode (S level) y
      ++ encode_items level l'
  end.

Fixpoint encode_members (level : nat) (d : list (pykey * pyval)) : string :=
  match d with
  | [] => EmptyString
  | (k, y) :: d' =>
      "," ++ Json.newline_indent (S level) ++ Json.encode_key k ++ ": "
      ++ Json.encode (S level) y ++ encode_members level d'
  end.

(** The first character of a value's text: no white space, no closing
    bracket, and an ASCII character. *)
Definition value_start (c : ascii) : bool :=
  negb (Json.is_ws c) && negb (Ascii.eqb c "]") && (N_of_ascii c <? 128)%N.

Fixpoint items_depth (l : list pyval) : nat :=
  match l with
  | [] => 0
  | x :: l' => S (Nat.max (depth_of x) (items_depth l'))
  end.

Fixpoint members_depth (d : list (pykey * pyval)) : nat :=
  match d with
  | [] => 0
  | kv :: d' => S (Nat.max (depth_of (snd kv)) (members_depth d'))
  end.







Definition scenario_message : string :=
  lit "Successfully created static/data/genesis_nfts.json with 1 items.|".

(** *** Further notions for the properties of the script *)

(** The columns the script reads; every other column of a row is ignored. *)
Definition used_columns : list string :=
  ["Contract Address"; "Token ID"; "Name"; "Image URL"].

Definition is_str (v : pyval) : bool :=
  match v with
  | VStr _ => true
  | _ => false
  end.

(** Under every column name the row holds a [str]. *)
Definition columns_hold_str (d : pydict) : bool :=
  forallb (fun kv => negb (is_str_key (fst kv)) || is_str (snd kv)) d.

(** The record whose four fields are the given strings. *)
Definition record_of_strings (address token_id name image_url : string) : pyval :=
  VDict [ (Some "token_address", VStr address);
          (Some "token_id", VStr token_id);
          (Some "name", VStr name);
          (Some "image_url", VStr image_url);
          (Some "metadata",
            VDict [ (Some "name", VStr name); (Some "image", VStr image_url) ]) ].

(** A path that cannot be opened for writing. *)
Definition unwritable (e : entry) : bool :=
  match e with
  | Directory => true
  | File _ _ writable => negb writable
  | Absent => false
  end.

Definition is_upper (c : ascii) : bool :=
  let n := N_of_ascii c in (65 <=? n)%N && (n <=? 90)%N.

Fixpoint no_upper (s : string) : bool :=
  match s with
  | EmptyString => true
  | String c s' => negb (is_upper c) && no_upper s'
  end.

(** *** Further example inputs *)

(** A whole line, then a line that stops before the address *)
Definition fs_one_short_row : filesystem :=
  fs_of (csv_file (header_line
                   ++ "1,42,Cool Ape,http://img/1.png,0xABC123|2,43,Calm Ape|"))
        empty_file empty_file empty_file.

(** The scenario, with a directory where the output file should go *)
Definition fs_output_is_directory : filesystem :=
  fs_write fs_scenario output_file Directory.

(** Only the header in part 1, a blank line in part 3 *)
Definition fs_header_only : filesystem :=
  fs_of (csv_file header_line) empty_file (csv_file "|") empty_file.

(** Part 1 empty, the header and one row in part 2 *)
Definition fs_no_header : filesystem :=
  fs_of empty_file
        (csv_file (header_line ++ "1,42,Cool Ape,http://img/1.png,0xABC123|"))
        empty_file empty_file.

(** A header with the columns in another order, and a line for it *)
Definition shuffled_names : list string :=
  ["Contract Address"; "Name"; "No"; "Image URL"; "Token ID"].
Definition shuffled_row : list string :=
  ["0xABC123"; "Cool Ape"; "1"; "http://img/1.png"; "42"].







(** *** Code points and case *)

(** A Unicode scalar value: what a code point of a UTF-8 text is. *)
Definition valid_cp (n : N) : bool :=
  (n <? 1114112)%N && negb (Unicode.is_surrogate n).

(** A code point that lower-casing leaves alone: it is not the capital
    sigma and has no entry in the table. *)
Definition is_lower_stable (x : N) : bool :=
  negb (x =? Unicode.capital_sigma)%N
  && match Unicode.assoc x Unicode.lower_table with
     | None => true
     | Some _ => false
     end
  && valid_cp x.

(** Text of the ASCII repertoire, and the lower-casing of its letters. *)
Fixpoint is_ascii (s : string) : bool :=
  match s with
  | EmptyString => true
  | String c s' => (N_of_ascii c <? 128)%N && is_ascii s'
  end.

Fixpoint code_points_of_ascii (s : string) : list N :=
  match s with
  | EmptyString => []
  | String c s' => N_of_ascii c :: code_points_of_ascii s'
  end.

Definition ascii_lower_char (c : ascii) : ascii :=
  let n := N_of_ascii c in
  if (65 <=? n)%N && (n <=? 90)%N then ascii_of_N (n + 32) else c.

Fixpoint ascii_lower (s : string) : string :=
  match s with
  | EmptyString => EmptyString
  | String c s' => String (ascii_lower_char c) (ascii_lower s')
  end.

(** *** Records and rows in the order of the file *)

(** [records] are read, one after the other, from consecutive groups of
    lines that together are the lines of the file: the [i]-th record is what
    the reader makes of the [i]-th group alone. *)
Definition in_file_order (lines : list string) (records : list (list string)) : Prop :=
  exists groups : list (list string),
    concat groups = lines /\
    Forall2 (fun group record => Csv.reader group = Ok [record]) groups records.

(** The rows made from records: one for each record that is not blank, in
    the order of the records; without field names, the first record gives
    them and the others give the rows. *)
Definition rows_of_records (fieldnames : option (list string))
    (records : list (list string)) : list pydict :=
  match fieldnames with
  | Some names =>
      map (Csv.DictReader_row names)
        (filter (fun r => negb (Csv.is_blank_row r)) records)
  | None =>
      match records with
      | [] => []
      | names :: records' =>
          map (Csv.DictReader_row names)
            (filter (fun r => negb (Csv.is_blank_row r)) records')
      end
  end.

(** The reader after the lines [pre], none of which ends a record. *)
Fixpoint run_open (r : Csv.Reader) (pre : list string) : option Csv.Reader :=
  match pre with
  | [] => Some r
  | line :: pre' =>
      match Csv.process_line r line with
      | Ok r' =>
          if Csv.state_eqb (Csv.state r') Csv.START_RECORD then None
          else run_open r' pre'
      | Raise _ => None
      end
  end.

(** Three rows, with the ids 41, 42 and 43 *)
Definition fs_three_rows : filesystem :=
  fs_of (csv_file (header_line ++ "1,41,A,u1,0xA|2,42,B,u2,0xB|"))
        (csv_file "3,43,C,u3,0xC|")
        empty_file empty_file.

(** * Properties *)

(** ** The error monad and dicts *)

Lemma bind_ok {A B : Type} (m : result A) (k : A -> result B) (b : B) :
  bind m k = Ok b -> exists a, m = Ok a /\ k a = Ok b.
Proof.
  destruct m as [a | e]; simpl; intro H.
  - exists a; split; [reflexivity | exact H].
  - discriminate H.
Qed.

Ltac bind_inv H :=
  let x := fresh "x" in
  let Hx := fresh "Hx" in
  apply bind_ok in H; destruct H as [x [Hx H]].

Lemma mapM_length {A B : Type} (f : A -> result B) (l : list A) (out : list B) :
  mapM f l = Ok out -> length out = length l.
Proof.
  revert out; induction l as [| a l IH]; simpl; intros out H.
  - injection H as <-; reflexivity.
  - bind_inv H. bind_inv H. injection H as <-.
    simpl; f_equal; apply IH; assumption.
Qed.

Lemma mapM_nth_error {A B : Type} (f : A -> result B) (l : list A) (out : list B) :
  mapM f l = Ok out ->
  forall i a, nth_error l i = Some a ->
  exists b, nth_error out i = Some b /\ f a = Ok b.
Proof.
  revert out; induction l as [| a0 l IH]; simpl; intros out H i a Hi.
  - destruct i; discriminate Hi.
  - bind_inv H. bind_inv H. injection H as <-.
    destruct i as [| i]; simpl in *.
    + injection Hi as <-. exists x; split; [reflexivity | assumption].
    + eapply IH; eassumption.
Qed.

Lemma mapM_In {A B : Type} (f : A -> result B) (l : list A) (out : list B) :
  mapM f l = Ok out ->
  forall b, In b out -> exists a, In a l /\ f a = Ok b.
Proof.
  revert out; induction l as [| a0 l IH]; simpl; intros out H b Hb.
  - injection H as <-. destruct Hb.
  - bind_inv H. bind_inv H. injection H as <-.
    destruct Hb as [<- | Hb].
    + exists a0; split; [left; reflexivity | assumption].
    + destruct (IH _ Hx0 _ Hb) as [a [Ha Hf]].
      exists a; split; [right; assumption | assumption].
Qed.

Lemma key_eqb_refl (k : pykey) : key_eqb k k = true.
Proof. destruct k as [s |]; simpl; [apply String.eqb_refl | reflexivity]. Qed.

Lemma key_eqb_eq (a b : pykey) : key_eqb a b = true <-> a = b.
Proof.
  destruct a as [x |], b as [y |]; simpl; split; intro H;
    try discriminate; try reflexivity.
  - apply String.eqb_eq in H; subst; reflexivity.
  - injection H as ->; apply String.eqb_refl.
Qed.

Lemma dict_get_set_same (d : pydict) (k : pykey) (v def : pyval) :
  dict_get (dict_set d k v) k def = v.
Proof.
  induction d as [| [k' v'] d IH]; simpl.
  - rewrite key_eqb_refl; reflexivity.
  - destruct (key_eqb k k') eqn:E; simpl; rewrite E; [reflexivity | exact IH].
Qed.

Lemma dict_get_set_other (d : pydict) (k k0 : pykey) (v def : pyval) :
  key_eqb k0 k = false ->
  dict_get (dict_set d k v) k0 def = dict_get d k0 def.
Proof.
  intro Hk; induction d as [| [k' v'] d IH]; simpl.
  - rewrite Hk; reflexivity.
  - destruct (key_eqb k k') eqn:E; simpl.
    + apply key_eqb_eq in E; subst k'. rewrite Hk; reflexivity.
    + destruct (key_eqb k0 k'); [reflexivity | exact IH].
Qed.

(** A key the dict does not have gives the default. *)
Lemma dict_get_absent (d : pydict) (k : pykey) (def : pyval) :
  dict_mem d k = false -> dict_get d k def = def.
Proof.
  induction d as [| [k' v'] d IH]; simpl; intro H; [reflexivity |].
  apply orb_false_iff in H; destruct H as [H1 H2].
  rewrite H1; apply IH; exact H2.
Qed.

(** ** [str.lower] *)

(** Splitting a number into its digits in base 64 *)
Lemma base64_digits (n : N) :
  exists q r, (n = 64 * q + r /\ r < 64 /\ n / 64 = q /\ n mod 64 = r)%N.
Proof.
  exists (n / 64)%N, (n mod 64)%N.
  split; [apply N.div_mod; lia |].
  split; [apply N.mod_lt; lia |]. split; reflexivity.
Qed.

Ltac decide_tests :=
  repeat match goal with
    | |- context [(?a <? ?b)%N] => destruct (N.ltb_spec a b); try lia
    | |- context [(?a <=? ?b)%N] => destruct (N.leb_spec a b); try lia
    end.

Lemma valid_cp_inv (n : N) :
  valid_cp n = true -> (n < 1114112 /\ (n < 55296 \/ 57343 < n))%N.
Proof.
  unfold valid_cp, Unicode.is_surrogate. intro Hv.
  apply andb_true_iff in Hv; destruct Hv as [Hlt Hs].
  apply N.ltb_lt in Hlt. apply negb_true_iff in Hs.
  split; [exact Hlt |].
  destruct (N.leb_spec 55296 n); destruct (N.leb_spec n 57343);
    simpl in Hs; try discriminate Hs; lia.
Qed.

Lemma valid_cp_intro (n : N) :
  (n < 1114112)%N -> (n < 55296 \/ 57343 < n)%N -> valid_cp n = true.
Proof.
  intros H1 H2. unfold valid_cp, Unicode.is_surrogate.
  destruct (N.ltb_spec n 1114112); [| lia].
  destruct (N.leb_spec 55296 n); destruct (N.leb_spec n 57343); simpl; try reflexivity; lia.
Qed.

(** Decoding the bytes of a code point gives the code point back. *)
Lemma decode_encode (n : N) (rest : string) :
  valid_cp n = true ->
  Unicode.utf8_decode (Json.utf8_encode n ++ rest)
  = option_map (cons n) (Unicode.utf8_decode rest).
Proof.
  intro Hv. destruct (valid_cp_inv n Hv) as [Hlt Hsur].
  unfold Json.utf8_encode, Json.str1.
  destruct (N.ltb_spec n 128) as [H1 | H1].
  - cbn [append Unicode.utf8_decode].
    rewrite N_ascii_embedding by lia.
    destruct (N.ltb_spec n 128); [reflexivity | lia].
  - destruct (base64_digits n) as (q1 & r1 & E1 & R1 & D1 & M1).
    destruct (N.ltb_spec n 2048) as [H2 | H2].
    + cbn [append Unicode.utf8_decode].
      rewrite D1, M1.
      rewrite !N_ascii_embedding by lia.
      unfold Unicode.is_continuation.
      replace ((192 + q1 - 192) * 64 + (128 + r1 - 128))%N with n by lia.
      decide_tests. reflexivity.
    + destruct (base64_digits q1) as (q2 & r2 & E2 & R2 & D2 & M2).
      assert (D12 : (n / 4096 = q2)%N).
      { change 4096%N with (64 * 64)%N. rewrite <- N.Div0.div_div.
        rewrite D1; exact D2. }
      destruct (N.ltb_spec n 65536) as [H3 | H3].
      * cbn [append Unicode.utf8_decode].
        rewrite D12, D1, M1, M2.
        rewrite !N_ascii_embedding by lia.
        unfold Unicode.is_continuation, Unicode.is_surrogate.
        replace ((224 + q2 - 224) * 4096 + (128 + r2 - 128) * 64 + (128 + r1 - 128))%N
          with n by lia.
        decide_tests; reflexivity.
      * destruct (base64_digits q2) as (q3 & r3 & E3 & R3 & D3 & M3).
        assert (D13 : (n / 262144 = q3)%N).
        { change 262144%N with (4096 * 64)%N. rewrite <- N.Div0.div_div.
          rewrite D12; exact D3. }
        assert (M12 : ((n / 4096) mod 64 = r3)%N) by (rewrite D12; exact M3).
        cbn [append Unicode.utf8_decode].
        rewrite D13, M12, D1, M1, M2.
        rewrite !N_ascii_embedding by lia.
        unfold Unicode.is_continuation.
        replace ((240 + q3 - 240) * 262144 + (128 + r3 - 128) * 4096
                 + (128 + r2 - 128) * 64 + (128 + r1 - 128))%N with n by lia.
        decide_tests; reflexivity.
Qed.

Lemma decode_encode_all (cps : list N) :
  forallb valid_cp cps = true ->
  Unicode.utf8_decode (Unicode.utf8_encode_all cps) = Some cps.
Proof.
  induction cps as [| c cps IH]; simpl; intro H; [reflexivity |].
  apply andb_true_iff in H; destruct H as [Hc Hcps].
  rewrite (decode_encode c _ Hc), (IH Hcps). reflexivity.
Qed.

Lemma option_map_cons_inv (n : N) (o : option (list N)) (cps : list N) :
  option_map (cons n) o = Some cps -> exists cps', o = Some cps' /\ cps = n :: cps'.
Proof.
  destruct o as [l |]; simpl; intro H; [| discriminate H].
  injection H as <-. exists l; split; reflexivity.
Qed.

(** The code points of a UTF-8 text are scalar values. *)
Lemma decode_valid (s : string) (cps : list N) :
  Unicode.utf8_decode s = Some cps -> forallb valid_cp cps = true.
Proof.
  assert (H : forall n s cps, String.length s <= n ->
              Unicode.utf8_decode s = Some cps -> forallb valid_cp cps = true).
  { clear s cps. induction n as [| n IH]; intros s cps Hn Hd.
    - destruct s; [| simpl in Hn; lia]. injection Hd as <-; reflexivity.
    - destruct s as [| c0 s1]; [injection Hd as <-; reflexivity |].
      cbn [Unicode.utf8_decode] in Hd. simpl in Hn.
      set (b0 := N_of_ascii c0) in *.
      destruct (N.ltb_spec b0 128) as [H1 | H1].
      { apply option_map_cons_inv in Hd; destruct Hd as (cps' & Hd & ->).
        simpl. rewrite (valid_cp_intro b0) by lia.
        apply (IH s1); [lia | exact Hd]. }
      destruct (N.ltb_spec b0 224) as [H2 | H2].
      { destruct s1 as [| c1 s2]; [discriminate Hd |]. simpl in Hn.
        set (b1 := N_of_ascii c1) in *.
        destruct ((192 <=? b0)%N && Unicode.is_continuation b1
                  && (128 <=? (b0 - 192) * 64 + (b1 - 128))%N) eqn:E;
          [| discriminate Hd].
        apply option_map_cons_inv in Hd; destruct Hd as (cps' & Hd & ->).
        apply andb_true_iff in E; destruct E as [E E3].
        apply andb_true_iff in E; destruct E as [E1 E2].
        unfold Unicode.is_continuation in E2.
        apply andb_true_iff in E2; destruct E2 as [E2 E2'].
        apply N.leb_le in E1, E2, E2', E3.
        simpl. rewrite valid_cp_intro by lia.
        apply (IH s2); [lia | exact Hd]. }
      destruct (N.ltb_spec b0 240) as [H3 | H3].
      { destruct s1 as [| c1 [| c2 s3]]; try discriminate Hd. simpl in Hn.
        set (b1 := N_of_ascii c1) in *. set (b2 := N_of_ascii c2) in *.
        set (cp := ((b0 - 224) * 4096 + (b1 - 128) * 64 + (b2 - 128))%N) in *.
        destruct (Unicode.is_continuation b1 && Unicode.is_continuation b2
                  && (2048 <=? cp)%N && negb (Unicode.is_surrogate cp)) eqn:E;
          [| discriminate Hd].
        apply option_map_cons_inv in Hd; destruct Hd as (cps' & Hd & ->).
        apply andb_true_iff in E; destruct E as [E E4].
        apply andb_true_iff in E; destruct E as [E E3].
        apply andb_true_iff in E; destruct E as [E1 E2].
        unfold Unicode.is_continuation in E1, E2.
        apply andb_true_iff in E1; destruct E1 as [E1 E1'].
        apply andb_true_iff in E2; destruct E2 as [E2 E2'].
        apply N.leb_le in E1, E1', E2, E2', E3.
        simpl. unfold valid_cp at 1. rewrite E4.
        assert (Hcp : (cp < 1114112)%N) by (unfold cp; lia).
        apply N.ltb_lt in Hcp; rewrite Hcp. simpl.
        apply (IH s3); [lia | exact Hd]. }
      destruct (N.ltb_spec b0 248) as [H4 | H4]; [| discriminate Hd].
      destruct s1 as [| c1 [| c2 [| c3 s4]]]; try discriminate Hd. simpl in Hn.
      set (b1 := N_of_ascii c1) in *. set (b2 := N_of_ascii c2) in *.
      set (b3 := N_of_ascii c3) in *.
      set (cp := ((b0 - 240) * 262144 + (b1 - 128) * 4096
                  + (b2 - 128) * 64 + (b3 - 128))%N) in *.
      destruct (Unicode.is_continuation b1 && Unicode.is_continuation b2
                && Unicode.is_continuation b3
                && (65536 <=? cp)%N && (cp <=? 1114111)%N) eqn:E;
        [| discriminate Hd].
      apply option_map_cons_inv in Hd; destruct Hd as (cps' & Hd & ->).
      apply andb_true_iff in E; destruct E as [E E5].
      apply andb_true_iff in E; destruct E as [E E4].
      apply N.leb_le in E4, E5.
      simpl. rewrite valid_cp_intro by lia.
      apply (IH s4); [lia | exact Hd]. }
  apply (H (String.length s)); lia.
Qed.

(** Every code point a lower-case mapping yields is left alone by
    lower-casing: checked on the whole table. *)
Lemma table_outputs_stable :
  forallb (fun e => forallb is_lower_stable (snd e)) Unicode.lower_table = true.
Proof. vm_compute; reflexivity. Qed.

Lemma assoc_In (c : N) (table : list (N * list N)) (m : list N) :
  Unicode.assoc c table = Some m -> In (c, m) table.
Proof.
  induction table as [| [k m'] table IH]; simpl; intro H; [discriminate H |].
  destruct (N.eqb_spec c k) as [-> | _].
  - injection H as ->; left; reflexivity.
  - right; apply IH; exact H.
Qed.

Lemma to_lower_full_stable (c : N) :
  valid_cp c = true -> (c =? Unicode.capital_sigma)%N = false ->
  forallb is_lower_stable (Unicode.to_lower_full c) = true.
Proof.
  intros Hv Hs. unfold Unicode.to_lower_full.
  destruct (Unicode.assoc c Unicode.lower_table) as [m |] eqn:E.
  - apply assoc_In in E.
    pose proof table_outputs_stable as Ht.
    rewrite forallb_forall in Ht. exact (Ht _ E).
  - simpl. unfold is_lower_stable. rewrite Hs, E, Hv. reflexivity.
Qed.

Lemma lower_ucs4_stable (before after : list N) (c : N) :
  valid_cp c = true ->
  forallb is_lower_stable (Unicode.lower_ucs4 before after c) = true.
Proof.
  intro Hv. unfold Unicode.lower_ucs4.
  destruct (c =? Unicode.capital_sigma)%N eqn:E.
  - unfold Unicode.handle_capital_sigma.
    match goal with |- context [if ?b then _ else _] => destruct b end;
      vm_compute; reflexivity.
  - apply to_lower_full_stable; assumption.
Qed.

Lemma do_lower_stable (cps : list N) :
  forall before, forallb valid_cp cps = true ->
  forallb is_lower_stable (Unicode.do_lower before cps) = true.
Proof.
  induction cps as [| c cps IH]; intros before H; [reflexivity |].
  simpl in H. apply andb_true_iff in H; destruct H as [Hc Hcps].
  cbn [Unicode.do_lower]. rewrite forallb_app.
  rewrite (lower_ucs4_stable _ _ c Hc), (IH _ Hcps). reflexivity.
Qed.

(** Lower-casing leaves a text of stable code points as it is. *)
Lemma do_lower_fixes (cps : list N) :
  forall before, forallb is_lower_stable cps = true ->
  Unicode.do_lower before cps = cps.
Proof.
  induction cps as [| c cps IH]; intros before H; [reflexivity |].
  simpl in H. apply andb_true_iff in H; destruct H as [Hc Hcps].
  cbn [Unicode.do_lower]. rewrite (IH _ Hcps).
  unfold is_lower_stable in Hc.
  apply andb_true_iff in Hc; destruct Hc as [Hc _].
  apply andb_true_iff in Hc; destruct Hc as [Hs Ha].
  apply negb_true_iff in Hs.
  unfold Unicode.lower_ucs4, Unicode.to_lower_full. rewrite Hs.
  destruct (Unicode.assoc c Unicode.lower_table); [discriminate Ha | reflexivity].
Qed.

Lemma stable_valid (cps : list N) :
  forallb is_lower_stable cps = true -> forallb valid_cp cps = true.
Proof.
  induction cps as [| c cps IH]; simpl; intro H; [reflexivity |].
  apply andb_true_iff in H; destruct H as [Hc Hcps].
  unfold is_lower_stable in Hc. apply andb_true_iff in Hc; destruct Hc as [_ Hv].
  rewrite Hv, (IH Hcps); reflexivity.
Qed.

Lemma lower_idempotent (s : string) : lower (lower s) = lower s.
Proof.
  unfold lower at 2 3.
  destruct (Unicode.utf8_decode s) as [cps |] eqn:E.
  - pose proof (do_lower_stable cps [] (decode_valid s cps E)) as Hst.
    unfold lower.
    rewrite (decode_encode_all _ (stable_valid _ Hst)).
    rewrite (do_lower_fixes _ [] Hst). reflexivity.
  - unfold lower. rewrite E. reflexivity.
Qed.

(** Lower-casing beyond ASCII: an accented capital, the dotted capital I,
    which becomes two code points, and the capital sigma, final or not. *)
Lemma lower_beyond_ascii :
  lower "ÉCOLE İstanbul ΟΔΟΣ ΣΑΣ 0xABC" = "école i̇stanbul οδος σας 0xabc".
Proof. vm_compute; reflexivity. Qed.

(** ** The record made from a row *)

Lemma nft_inv (row : pydict) (rec : pyval) :
  nft row = Ok rec ->
  exists contract,
    py_lower (dict_get row (Some "Contract Address") str_default) = Ok contract /\
    rec = VDict
        [ (Some "token_address", contract);
          (Some "token_id", dict_get row (Some "Token ID") str_default);
          (Some "name", dict_get row (Some "Name") str_default);
          (Some "image_url", dict_get row (Some "Image URL") str_default);
          (Some "metadata",
            VDict [ (Some "name", dict_get row (Some "Name") str_default);
                    (Some "image", dict_get row (Some "Image URL") str_default) ]) ].
Proof.
  unfold nft; intro H. bind_inv H. injection H as <-.
  exists x; split; [assumption | reflexivity].
Qed.

Lemma py_lower_inv (v c : pyval) :
  py_lower v = Ok c -> exists s, v = VStr s /\ c = VStr (lower s).
Proof.
  destruct v; simpl; intro H; try discriminate H.
  injection H as <-. exists s; split; reflexivity.
Qed.

(** The script succeeds on a row exactly when the row holds a [str] under
    the address column, or lacks the column. *)
Lemma nft_ok_iff (row : pydict) :
  is_ok (nft row) = true <->
  exists s, dict_get row (Some "Contract Address") str_default = VStr s.
Proof.
  unfold nft; split.
  - destruct (dict_get row (Some "Contract Address") str_default) eqn:E;
      simpl; intro H; try discriminate H.
    exists s; reflexivity.
  - intros [s ->]; reflexivity.
Qed.


(** C4: in every record the script produces, [metadata.name] is the
    record's [name] and [metadata.image] is its [image_url]. *)
Theorem metadata_mirrors_record (fs : filesystem) (out : list pyval) (rec : pyval) :
  records_of fs = Ok out -> In rec out ->
  exists md n u,
    field_of rec "metadata" = Some md /\
    field_of rec "name" = Some n /\ field_of md "name" = Some n /\
    field_of rec "image_url" = Some u /\ field_of md "image" = Some u.
Proof.
  unfold records_of, nfts; intros H Hin.
  bind_inv H.
  destruct (mapM_In _ _ _ H _ Hin) as [row [_ Hrow]].
  apply nft_inv in Hrow; destruct Hrow as [c [_ ->]].
  eexists; eexists; eexists; repeat split; reflexivity.
Qed.

Lemma metadata_mirrors_record_witness :
  records_of fs_scenario = Ok [scenario_record] /\
  In scenario_record [scenario_record] /\
  exists md n u,
    field_of scenario_record "metadata" = Some md /\
    field_of scenario_record "name" = Some n /\ field_of md "name" = Some n /\
    field_of scenario_record "image_url" = Some u /\ field_of md "image" = Some u.
Proof.
  split; [vm_compute; reflexivity |].
  split; [left; reflexivity |].
  apply (metadata_mirrors_record fs_scenario [scenario_record] scenario_record).
  - vm_compute; reflexivity.
  - left; reflexivity.
Defined.

(** C7: lower-casing the address is idempotent.  The [token_address] of a
    record is its own lower-casing, and the row with that address in place
    of the contract address gives the same record again. *)
Theorem address_normalisation_idempotent (row : pydict) (rec t : pyval) :
  nft row = Ok rec -> field_of rec "token_address" = Some t ->
  py_lower t = Ok t /\
  nft (dict_set row (Some "Contract Address") t) = Ok rec.
Proof.
  intros H Ht.
  apply nft_inv in H; destruct H as [c [Hc ->]].
  simpl in Ht; injection Ht as <-.
  apply py_lower_inv in Hc; destruct Hc as [s [Hs ->]].
  split.
  - simpl; rewrite lower_idempotent; reflexivity.
  - unfold nft.
    rewrite dict_get_set_same; simpl; rewrite lower_idempotent.
    rewrite !dict_get_set_other by reflexivity.
    reflexivity.
Qed.

Lemma address_normalisation_idempotent_witness :
  nft (Csv.DictReader_row canonical_names long_row) = Ok scenario_record /\
  field_of scenario_record "token_address" = Some (VStr "0xabc123") /\
  py_lower (VStr "0xabc123") = Ok (VStr "0xabc123") /\
  nft (dict_set (Csv.DictReader_row canonical_names long_row)
         (Some "Contract Address") (VStr "0xabc123")) = Ok scenario_record.
Proof.
  split; [vm_compute; reflexivity |].
  split; [vm_compute; reflexivity |].
  apply (address_normalisation_idempotent
           (Csv.DictReader_row canonical_names long_row) scenario_record
           (VStr "0xabc123")); vm_compute; reflexivity.
Defined.

(** ** The rows of a [DictReader] *)

Lemma columns_hold_text_set (d : pydict) (k : pykey) (v : pyval) :
  columns_hold_text d = true ->
  negb (is_str_key k) || is_str_or_none v = true ->
  columns_hold_text (dict_set d k v) = true.
Proof.
  unfold columns_hold_text; intros Hd Hv.
  induction d as [| [k' v'] d IH]; simpl in *.
  - rewrite Hv; reflexivity.
  - apply andb_true_iff in Hd; destruct Hd as [H1 H2].
    destruct (key_eqb k k') eqn:E; simpl.
    + apply key_eqb_eq in E; subst k'. rewrite Hv, H2; reflexivity.
    + rewrite H1, (IH H2); reflexivity.
Qed.

Lemma columns_hold_text_get (d : pydict) (k : string) :
  columns_hold_text d = true ->
  is_str_or_none (dict_get d (Some k) str_default) = true.
Proof.
  unfold columns_hold_text; intro Hd.
  induction d as [| [k' v'] d IH]; simpl in *; [reflexivity |].
  apply andb_true_iff in Hd; destruct Hd as [H1 H2].
  destruct k' as [s |]; simpl in *.
  - destruct (String.eqb k s); [exact H1 | exact (IH H2)].
  - exact (IH H2).
Qed.

Lemma fold_set_text (pairs : list (string * string)) (d : pydict) :
  columns_hold_text d = true ->
  columns_hold_text
    (fold_left (fun d kv => dict_set d (fst kv) (snd kv))
       (map (fun kv => (Some (fst kv), VStr (snd kv))) pairs) d) = true.
Proof.
  revert d; induction pairs as [| [k v] pairs IH]; simpl; intros d Hd.
  - exact Hd.
  - apply IH. apply columns_hold_text_set; [exact Hd | reflexivity].
Qed.

Lemma fold_set_none (keys : list string) (d : pydict) :
  columns_hold_text d = true ->
  columns_hold_text (fold_left (fun d key => dict_set d (Some key) VNone) keys d) = true.
Proof.
  revert d; induction keys as [| k keys IH]; simpl; intros d Hd.
  - exact Hd.
  - apply IH. apply columns_hold_text_set; [exact Hd | reflexivity].
Qed.

(** Whatever the numbers of field names and of fields, the row holds text or
    [None] under each column name; the surplus fields are under [None]. *)
Lemma DictReader_row_text (names row : list string) :
  columns_hold_text (Csv.DictReader_row names row) = true.
Proof.
  unfold Csv.DictReader_row, dict_of.
  destruct (length names <? length row)%nat.
  - apply columns_hold_text_set; [apply fold_set_text; reflexivity | reflexivity].
  - destruct (length row <? length names)%nat.
    + apply fold_set_none; apply fold_set_text; reflexivity.
    + apply fold_set_text; reflexivity.
Qed.

(** C9: the record made from a row of the reader, whatever the number of
    fields of the line, has exactly the five keys [token_address],
    [token_id], [name], [image_url] and [metadata], its [metadata] exactly the
    keys [name] and [image], and each of the six values is a [str] or [None]:
    no list of surplus fields gets into a record. *)
Theorem record_has_exactly_the_five_keys (names row : list string) (rec : pyval) :
  nft (Csv.DictReader_row names row) = Ok rec ->
  keys_of rec = Some record_keys /\
  exists a i n u md,
    rec = VDict [ (Some "token_address", a); (Some "token_id", i);
                  (Some "name", n); (Some "image_url", u); (Some "metadata", md) ] /\
    keys_of md = Some metadata_keys /\
    md = VDict [ (Some "name", n); (Some "image", u) ] /\
    is_str_or_none a = true /\ is_str_or_none i = true /\
    is_str_or_none n = true /\ is_str_or_none u = true.
Proof.
  intro H.
  apply nft_inv in H; destruct H as [c [Hc ->]].
  split; [reflexivity |].
  do 5 eexists.
  split; [reflexivity |].
  split; [reflexivity |].
  split; [reflexivity |].
  pose proof (DictReader_row_text names row) as Ht.
  apply py_lower_inv in Hc; destruct Hc as [s [_ ->]].
  repeat split; try reflexivity; apply columns_hold_text_get; exact Ht.
Qed.

Lemma record_has_exactly_the_five_keys_witness :
  nft (Csv.DictReader_row canonical_names long_row) = Ok scenario_record /\
  keys_of scenario_record = Some record_keys /\
  exists a i n u md,
    scenario_record
    = VDict [ (Some "token_address", a); (Some "token_id", i);
              (Some "name", n); (Some "image_url", u); (Some "metadata", md) ] /\
    keys_of md = Some metadata_keys /\
    md = VDict [ (Some "name", n); (Some "image", u) ] /\
    is_str_or_none a = true /\ is_str_or_none i = true /\
    is_str_or_none n = true /\ is_str_or_none u = true.
Proof.
  split; [vm_compute; reflexivity |].
  apply (record_has_exactly_the_five_keys canonical_names long_row scenario_record).
  vm_compute; reflexivity.
Defined.

(** A column that the header does not have is defaulted: the field of the
    record is the empty string. *)
Lemma absent_column_defaults (row : pydict) (rec : pyval) :
  nft row = Ok rec ->
  (dict_mem row (Some "Token ID") = false -> field_of rec "token_id" = Some (VStr "")) /\
  (dict_mem row (Some "Name") = false -> field_of rec "name" = Some (VStr "")) /\
  (dict_mem row (Some "Image URL") = false -> field_of rec "image_url" = Some (VStr "")) /\
  (dict_mem row (Some "Contract Address") = false ->
   field_of rec "token_address" = Some (VStr "")).
Proof.
  intro H. apply nft_inv in H; destruct H as [c [Hc ->]]; simpl.
  repeat split; intro Hm.
  - rewrite (dict_get_absent _ _ _ Hm); reflexivity.
  - rewrite (dict_get_absent _ _ _ Hm); reflexivity.
  - rewrite (dict_get_absent _ _ _ Hm); reflexivity.
  - rewrite (dict_get_absent _ _ _ Hm) in Hc. injection Hc as <-. reflexivity.
Qed.

(** C1: a data line with fewer fields than the header is not defaulted.  The
    reader puts [None] under the columns the line did not reach, so
    [row.get(k, "")] finds the key and returns [None].  With the canonical
    header the address column is the last one, [None.lower()] raises and the
    script ends without writing its output; with the address column first,
    the record holds [None] (written as null) for the name and the image. *)
Theorem short_row_is_not_defaulted :
  all_rows fs_short_row
  = Ok [[ (Some "No", VStr "1"); (Some "Token ID", VStr "42");
          (Some "Name", VStr "Cool Ape"); (Some "Image URL", VNone);
          (Some "Contract Address", VNone) ]] /\
  main fs_short_row = (Raise none_has_no_lower, fs_short_row) /\
  fs_short_row output_file = Absent /\
  records_of fs_short_row_address_first = Ok [short_row_record] /\
  field_of short_row_record "name" = Some VNone /\
  field_of short_row_record "image_url" = Some VNone.
Proof.
  repeat split; vm_compute; reflexivity.
Qed.

(** C3: on the scenario of the specification the script writes one file,
    the array of the one expected record, with the layout of [indent=2];
    read back as JSON, that file and the text the specification gives are the
    same array. *)
Theorem scenario_output :
  records_of fs_scenario = Ok [scenario_record] /\
  fst (main fs_scenario)
  = Ok (lit "Successfully created static/data/genesis_nfts.json with 1 items.|") /\
  snd (main fs_scenario) output_file = File scenario_text true true /\
  Json.loads scenario_text = Ok (VList [scenario_record]) /\
  Json.loads scenario_expected = Ok (VList [scenario_record]).
Proof.
  repeat split; vm_compute; reflexivity.
Qed.

(** ** The reading loop *)

Lemma rows_of_eq (fs : filesystem) (part : string) (names : option (list string))
    (lines : list string) (r : option (list string) * list pydict) :
  part_lines fs part = Ok lines -> Csv.DictReader lines names = Ok r ->
  rows_of fs part names = Ok (snd r).
Proof. unfold rows_of; intros H1 H2; rewrite H1; simpl; rewrite H2; reflexivity. Qed.

Lemma header_of_eq (fs : filesystem) (part : string)
    (lines : list string) (r : option (list string) * list pydict) :
  part_lines fs part = Ok lines -> Csv.DictReader lines None = Ok r ->
  header_of fs part = Ok (fst r).
Proof. unfold header_of; intros H1 H2; rewrite H1; simpl; rewrite H2; reflexivity. Qed.

(** The rows the script holds after the reading loop are the rows of part 1,
    read for its own header, then those of parts 2, 3 and 4, read with the
    field names of part 1. *)
Lemma all_rows_inv (fs : filesystem) (rows : list pydict) :
  all_rows fs = Ok rows ->
  exists names r1 r2 r3 r4,
    header_of fs part1 = Ok names /\
    rows_of fs part1 None = Ok r1 /\
    rows_of fs part2 names = Ok r2 /\
    rows_of fs part3 names = Ok r3 /\
    rows_of fs part4 names = Ok r4 /\
    rows = (r1 ++ r2 ++ r3 ++ r4)%list.
Proof.
  unfold all_rows, parts; simpl; intro H.
  bind_inv H. bind_inv H. rename x into l1, x0 into d1.
  bind_inv H. bind_inv H. rename x into l2, x0 into d2.
  bind_inv H. bind_inv H. rename x into l3, x0 into d3.
  bind_inv H. bind_inv H. rename x into l4, x0 into d4.
  injection H as <-.
  exists (fst d1), (snd d1), (snd d2), (snd d3), (snd d4).
  split; [eapply header_of_eq; eassumption |].
  split; [eapply rows_of_eq; eassumption |].
  split; [eapply rows_of_eq; eassumption |].
  split; [eapply rows_of_eq; eassumption |].
  split; [eapply rows_of_eq; eassumption |].
  rewrite <- !app_assoc; reflexivity.
Qed.



(** ** Inputs that cannot be read *)

Lemma part_lines_unusable (fs : filesystem) (part : string) :
  unusable (fs part) = true -> exists e, part_lines fs part = Raise e.
Proof.
  unfold part_lines, read_text, unusable.
  destruct (fs part) as [| | bytes readable writable]; intro H.
  - eexists; reflexivity.
  - eexists; reflexivity.
  - destruct readable; simpl in *.
    + destruct (utf8_valid bytes); [discriminate H | eexists; reflexivity].
    + eexists; reflexivity.
Qed.

Lemma read_parts_unusable (fs : filesystem) (part : string) (ps : list string) :
  In part ps -> unusable (fs part) = true ->
  forall i names acc, exists e, read_parts fs i ps names acc = Raise e.
Proof.
  intros Hin Hu; induction ps as [| p ps IH]; [destruct Hin |].
  intros i names acc; simpl.
  destruct (part_lines fs p) as [lines | e] eqn:Hp; simpl; [| eexists; reflexivity].
  destruct Hin as [-> | Hin].
  - destruct (part_lines_unusable _ _ Hu) as [e He]; congruence.
  - destruct (Nat.eqb i 0).
    + destruct (Csv.DictReader lines None) as [r | e]; simpl; [| eexists; reflexivity].
      apply IH; assumption.
    + destruct (Csv.DictReader lines names) as [r | e]; simpl; [| eexists; reflexivity].
      apply IH; assumption.
Qed.

(** C6: if one of the four inputs is missing, cannot be read or is not
    UTF-8 text, the script ends with an exception and leaves the file system
    as it found it: the output file is not written. *)
Theorem unusable_input_aborts (fs : filesystem) (part : string) :
  In part parts -> unusable (fs part) = true ->
  exists e, main fs = (Raise e, fs).
Proof.
  intros Hin Hu.
  destruct (read_parts_unusable fs part parts Hin Hu 0 None []) as [e He].
  exists e. unfold main, records_of, all_rows. rewrite He; reflexivity.
Qed.

Lemma unusable_input_aborts_witness :
  In part3 parts /\ unusable (fs_missing part3) = true /\
  exists e, main fs_missing = (Raise e, fs_missing).
Proof.
  split; [right; right; left; reflexivity |].
  split; [reflexivity |].
  apply (unusable_input_aborts fs_missing part3).
  - right; right; left; reflexivity.
  - reflexivity.
Defined.

(** The two kinds of failure on the example inputs. *)
Lemma unusable_input_examples :
  main fs_missing = (Raise FileNotFoundError, fs_missing) /\
  fs_missing output_file = Absent /\
  main fs_not_utf8 = (Raise UnicodeDecodeError, fs_not_utf8) /\
  fs_not_utf8 output_file = Absent.
Proof. repeat split; vm_compute; reflexivity. Qed.

(** ** Lines, blank lines and records *)

Lemma no_cr_LF (s : string) : no_cr s = true -> no_cr (String LF s) = true.
Proof. intro H; exact H. Qed.

Lemma translate_newlines_no_cr (s : string) : no_cr (translate_newlines s) = true.
Proof.
  assert (H : forall n s, String.length s <= n -> no_cr (translate_newlines s) = true).
  { induction n as [| n IH]; intros t Hn.
    - destruct t; [reflexivity | simpl in Hn; lia].
    - destruct t as [| c t]; [reflexivity |].
      simpl translate_newlines.
      destruct (Ascii.eqb c CR) eqn:E.
      + destruct t as [| c' t']; [reflexivity |].
        destruct (Ascii.eqb c' LF); apply no_cr_LF; apply IH; simpl in Hn |- *; lia.
      + change (negb (Ascii.eqb c CR) && no_cr (translate_newlines t) = true).
        rewrite E; simpl. apply IH; simpl in Hn; lia. }
  apply (H (String.length s)); lia.
Qed.

Lemma starts_plain_snoc (cur : string) (c : ascii) :
  starts_plain cur = true -> plain_char c = true ->
  starts_plain (cur ++ String c EmptyString) = true.
Proof. destruct cur; simpl; intros; assumption. Qed.

Lemma proper_line_of_plain (cur : string) (c : ascii) :
  starts_plain cur = true -> proper_line (cur ++ String LF EmptyString) = true.
Proof.
  destruct cur as [| c0 cur]; simpl; [reflexivity |].
  unfold plain_char; intro H. apply andb_true_iff in H; destruct H as [H1 H2].
  apply negb_true_iff in H1; rewrite H1; exact H2.
Qed.

Lemma readlines_from_proper (s : string) :
  forall cur, starts_plain cur = true -> no_cr s = true ->
  forallb proper_line (readlines_from cur s) = true.
Proof.
  induction s as [| c s IH]; intros cur Hcur Hs; simpl.
  - destruct cur as [| c0 cur]; [reflexivity |].
    simpl in *. unfold plain_char in Hcur.
    apply andb_true_iff in Hcur; destruct Hcur as [H1 H2].
    apply negb_true_iff in H1; rewrite H1, H2; reflexivity.
  - simpl in Hs; apply andb_true_iff in Hs; destruct Hs as [Hc Hs].
    destruct (Ascii.eqb c LF) eqn:E; simpl.
    + rewrite (proper_line_of_plain cur c Hcur); simpl.
      apply IH; [reflexivity | exact Hs].
    + apply IH; [| exact Hs].
      apply starts_plain_snoc; [exact Hcur |].
      unfold plain_char; rewrite E, Hc; reflexivity.
Qed.

(** Every line the script reads from a part is a proper line. *)
Lemma part_lines_proper (fs : filesystem) (part : string) (lines : list string) :
  part_lines fs part = Ok lines -> forallb proper_line lines = true.
Proof.
  unfold part_lines, read_text; intro H.
  destruct (fs part) as [| | bytes readable writable]; simpl in H; try discriminate H.
  destruct (negb readable); simpl in H; [discriminate H |].
  destruct (utf8_valid bytes); simpl in H; [| discriminate H].
  injection H as <-.
  apply readlines_from_proper; [reflexivity | apply translate_newlines_no_cr].
Qed.

(** *** Once a record has begun, it has a field at its end *)

Lemma parse_add_char_has_field (r r' : Csv.Reader) (c : ascii) :
  Csv.parse_add_char r c = Ok r' ->
  Csv.fields r' = Csv.fields r /\ Csv.state r' = Csv.state r.
Proof.
  unfold Csv.parse_add_char; intro H.
  destruct (Csv.is_continuation c).
  - injection H as <-; split; reflexivity.
  - destruct (Csv.field_limit <=? Csv.field_len r)%N; [discriminate H |].
    injection H as <-; split; reflexivity.
Qed.

Lemma has_field_save (r : Csv.Reader) (s : Csv.ParserState) :
  has_field (Csv.set_state (Csv.parse_save_field r) s) = true.
Proof.
  unfold has_field; simpl. destruct (Csv.fields r); reflexivity.
Qed.

Lemma has_field_started (r : Csv.Reader) (s : Csv.ParserState) :
  match s with
  | Csv.START_FIELD | Csv.IN_FIELD | Csv.IN_QUOTED_FIELD
  | Csv.QUOTE_IN_QUOTED_FIELD => True
  | _ => False
  end ->
  has_field (Csv.set_state r s) = true.
Proof.
  unfold has_field; simpl. destruct (Csv.fields r); [| reflexivity].
  destruct s; intro H; try reflexivity; destruct H.
Qed.

Lemma has_field_kept (r : Csv.Reader) (s : Csv.ParserState) :
  Csv.fields r <> [] -> has_field (Csv.set_state r s) = true.
Proof.
  unfold has_field; simpl. destruct (Csv.fields r); [intro H; destruct H |]; reflexivity.
Qed.

Lemma add_char_then_state (r r' : Csv.Reader) (c : ascii) (s : Csv.ParserState) :
  Csv.parse_add_char r c = Ok r' ->
  match s with
  | Csv.START_FIELD | Csv.IN_FIELD | Csv.IN_QUOTED_FIELD
  | Csv.QUOTE_IN_QUOTED_FIELD => True
  | _ => False
  end ->
  has_field (Csv.set_state r' s) = true.
Proof. intros _ Hs; apply has_field_started; exact Hs. Qed.

Lemma process_start_field_has_field (r r' : Csv.Reader) (i : Csv.input) :
  Csv.process_start_field r i = Ok r' -> has_field r' = true.
Proof.
  unfold Csv.process_start_field; destruct i as [c |]; intro H.
  - destruct (Csv.is_newline (Csv.Ch c)).
    { injection H as <-; apply has_field_save. }
    destruct (Ascii.eqb c Csv.quotechar).
    { injection H as <-; apply has_field_started; exact I. }
    destruct (Ascii.eqb c Csv.delimiter).
    { injection H as <-.
      unfold has_field; simpl. destruct (Csv.fields r); reflexivity. }
    bind_inv H. injection H as <-.
    eapply add_char_then_state; [eassumption | exact I].
  - injection H as <-; apply has_field_save.
Qed.

Lemma parse_process_char_has_field (r r' : Csv.Reader) (i : Csv.input) :
  has_field r = true -> Csv.parse_process_char r i = Ok r' -> has_field r' = true.
Proof.
  intros Hr H. unfold Csv.parse_process_char in H.
  destruct (Csv.state r) eqn:Est.
  - (* START_RECORD: a field is stored already *)
    assert (Hf : Csv.fields r <> []).
    { unfold has_field in Hr; rewrite Est in Hr.
      destruct (Csv.fields r); [discriminate Hr | discriminate]. }
    destruct i as [c |].
    + destruct (Csv.is_newline (Csv.Ch c)).
      * injection H as <-; apply has_field_kept; exact Hf.
      * eapply process_start_field_has_field; eassumption.
    + injection H as <-; exact Hr.
  - eapply process_start_field_has_field; eassumption.
  - destruct i as [c |].
    + destruct (Csv.is_newline (Csv.Ch c)).
      { injection H as <-; apply has_field_save. }
      destruct (Ascii.eqb c Csv.delimiter).
      { injection H as <-; apply has_field_save. }
      destruct (parse_add_char_has_field _ _ _ H) as [Hf Hs].
      unfold has_field; rewrite Hf, Hs, Est. destruct (Csv.fields r); reflexivity.
    + injection H as <-; apply has_field_save.
  - destruct i as [c |].
    + destruct (Ascii.eqb c Csv.quotechar).
      { injection H as <-; apply has_field_started; exact I. }
      destruct (parse_add_char_has_field _ _ _ H) as [Hf Hs].
      unfold has_field; rewrite Hf, Hs, Est. destruct (Csv.fields r); reflexivity.
    + injection H as <-; exact Hr.
  - destruct i as [c |].
    + destruct (Ascii.eqb c Csv.quotechar).
      { bind_inv H. injection H as <-.
        eapply add_char_then_state; [eassumption | exact I]. }
      destruct (Ascii.eqb c Csv.delimiter).
      { injection H as <-; apply has_field_save. }
      destruct (Csv.is_newline (Csv.Ch c)).
      { injection H as <-; apply has_field_save. }
      bind_inv H. injection H as <-.
      eapply add_char_then_state; [eassumption | exact I].
    + injection H as <-; apply has_field_save.
  - (* EAT_CRNL: a field is stored already *)
    assert (Hf : Csv.fields r <> []).
    { unfold has_field in Hr; rewrite Est in Hr.
      destruct (Csv.fields r); [discriminate Hr | discriminate]. }
    destruct i as [c |].
    + destruct (Csv.is_newline (Csv.Ch c)); [| discriminate H].
      injection H as <-; exact Hr.
    + injection H as <-; apply has_field_kept; exact Hf.
Qed.

Lemma process_line_has_field (line : string) :
  forall r r', has_field r = true -> Csv.process_line r line = Ok r' ->
  has_field r' = true.
Proof.
  induction line as [| c line IH]; simpl; intros r r' Hr H.
  - eapply parse_process_char_has_field; eassumption.
  - bind_inv H. eapply IH; [| eassumption].
    eapply parse_process_char_has_field; eassumption.
Qed.

(** A proper line that holds a whole record gives the empty record exactly
    when it is the blank line. *)
Lemma blank_record_iff_blank_line (line : string) :
  proper_line line = true -> line_closed line = true ->
  Csv.is_blank_row (record_of_line line) = is_blank_line line.
Proof.
  unfold line_closed, record_of_line, is_blank_line.
  destruct line as [| c line]; [discriminate |].
  simpl proper_line. destruct (Ascii.eqb c LF) eqn:E.
  - apply Ascii.eqb_eq in E; subst c.
    destruct line; [reflexivity | discriminate].
  - intros Hc Hcl.
    assert (Hne : String.eqb (String c line) (String LF EmptyString) = false).
    { simpl. rewrite E; reflexivity. }
    rewrite Hne.
    destruct (Csv.process_line Csv.parse_reset (String c line)) as [r |] eqn:Hp;
      [| discriminate Hcl].
    simpl in Hp. bind_inv Hp.
    assert (Hx1 : has_field x = true).
    { unfold Csv.parse_process_char in Hx.
      cbn [Csv.state Csv.parse_reset] in Hx.
      unfold Csv.is_newline in Hx.
      rewrite E in Hx. apply negb_true_iff in Hc; rewrite Hc in Hx; cbn [orb] in Hx.
      eapply process_start_field_has_field; exact Hx. }
    pose proof (process_line_has_field _ _ _ Hx1 Hp) as Hr.
    unfold has_field in Hr.
    destruct (Csv.fields r); [| reflexivity].
    destruct (Csv.state r); simpl in Hcl; discriminate.
Qed.

(** *** The reader on lines that each hold a whole record *)

Lemma reader_closed (lines : list string) :
  forallb line_closed lines = true ->
  Csv.reader lines = Ok (map record_of_line lines).
Proof.
  unfold Csv.reader.
  induction lines as [| l lines IH]; simpl; intro H; [reflexivity |].
  apply andb_true_iff in H; destruct H as [Hl Hls].
  unfold line_closed in Hl; unfold record_of_line at 1.
  destruct (Csv.process_line Csv.parse_reset l) as [r |]; [| discriminate Hl].
  simpl. rewrite Hl, (IH Hls); reflexivity.
Qed.

Lemma nonblank_records_count (lines : list string) :
  forallb proper_line lines = true -> forallb line_closed lines = true ->
  length (filter (fun r => negb (Csv.is_blank_row r)) (map record_of_line lines))
  = count_nonblank lines.
Proof.
  unfold count_nonblank.
  induction lines as [| l lines IH]; simpl; intros Hp Hc; [reflexivity |].
  apply andb_true_iff in Hp; destruct Hp as [Hp Hps].
  apply andb_true_iff in Hc; destruct Hc as [Hc Hcs].
  rewrite (blank_record_iff_blank_line l Hp Hc).
  destruct (is_blank_line l); simpl; rewrite (IH Hps Hcs); reflexivity.
Qed.

Lemma DictReader_closed_rows (lines : list string) (names : list string)
    (r : option (list string) * list pydict) :
  forallb proper_line lines = true -> forallb line_closed lines = true ->
  Csv.DictReader lines (Some names) = Ok r ->
  length (snd r) = count_nonblank lines.
Proof.
  intros Hp Hc H. unfold Csv.DictReader in H.
  rewrite (reader_closed lines Hc) in H; simpl in H.
  injection H as <-; simpl.
  rewrite length_map. apply nonblank_records_count; assumption.
Qed.

Lemma DictReader_closed_header (header : string) (lines : list string)
    (r : option (list string) * list pydict) :
  forallb proper_line lines = true ->
  line_closed header = true -> forallb line_closed lines = true ->
  Csv.DictReader (header :: lines) None = Ok r ->
  fst r = Some (record_of_line header) /\ length (snd r) = count_nonblank lines.
Proof.
  intros Hp Hh Hc H. unfold Csv.DictReader in H.
  rewrite (reader_closed (header :: lines)) in H
    by (simpl; rewrite Hh, Hc; reflexivity).
  simpl in H. injection H as <-; simpl.
  split; [reflexivity |].
  rewrite length_map. apply nonblank_records_count; assumption.
Qed.

(** The rows of a part follow its lines: one row for each line that is not
    blank, in the order of the lines. *)
Lemma rows_in_line_order (lines : list string) (names : list string) :
  forallb line_closed lines = true ->
  Csv.DictReader lines (Some names)
  = Ok (Some names,
        map (Csv.DictReader_row names)
          (filter (fun r => negb (Csv.is_blank_row r)) (map record_of_line lines))).
Proof.
  intro Hc. unfold Csv.DictReader. rewrite (reader_closed lines Hc). reflexivity.
Qed.

Lemma count_nonblank_app (a b : list string) :
  count_nonblank (a ++ b) = count_nonblank a + count_nonblank b.
Proof. unfold count_nonblank. rewrite filter_app, length_app; reflexivity. Qed.

(** C10, as the code has it: a blank line gives no row and no record.  When
    the script succeeds, part 1 begins with its header line and no quoted
    field runs over a line break (each line holds a whole record), the
    number of records is the number of data lines that are not blank, over
    the four parts. *)
Theorem record_count_is_nonblank_line_count
    (fs : filesystem) (out : list pyval) (header : string) (rest ls : list string) :
  records_of fs = Ok out ->
  part_lines fs part1 = Ok (header :: rest) ->
  data_lines fs = Ok ls ->
  line_closed header = true ->
  forallb line_closed ls = true ->
  length out = count_nonblank ls.
Proof.
  unfold records_of, nfts; intros H H1 Hd Hh Hc.
  bind_inv H. rewrite (mapM_length _ _ _ H). clear H out.
  unfold all_rows, parts in Hx; simpl in Hx.
  unfold part1 in H1.
  bind_inv Hx. rewrite H1 in Hx0; injection Hx0 as <-.
  bind_inv Hx. rename x0 into d1, Hx0 into D1.
  bind_inv Hx. rename x0 into l2, Hx0 into L2.
  bind_inv Hx. rename x0 into d2, Hx0 into D2.
  bind_inv Hx. rename x0 into l3, Hx0 into L3.
  bind_inv Hx. rename x0 into d3, Hx0 into D3.
  bind_inv Hx. rename x0 into l4, Hx0 into L4.
  bind_inv Hx. rename x0 into d4, Hx0 into D4.
  injection Hx as <-.
  unfold data_lines, input_lines, parts in Hd; simpl in Hd.
  rewrite H1, L2, L3, L4 in Hd; simpl in Hd.
  injection Hd as <-. rewrite app_nil_r in *.
  rewrite !forallb_app in Hc.
  apply andb_true_iff in Hc; destruct Hc as [C1 Hc].
  apply andb_true_iff in Hc; destruct Hc as [C2 Hc].
  apply andb_true_iff in Hc; destruct Hc as [C3 C4].
  pose proof (part_lines_proper _ _ _ H1) as P1; simpl in P1.
  apply andb_true_iff in P1; destruct P1 as [_ P1].
  pose proof (part_lines_proper _ _ _ L2) as P2.
  pose proof (part_lines_proper _ _ _ L3) as P3.
  pose proof (part_lines_proper _ _ _ L4) as P4.
  destruct (DictReader_closed_header _ _ _ P1 Hh C1 D1) as [N1 R1].
  rewrite N1 in D2, D3, D4.
  pose proof (DictReader_closed_rows _ _ _ P2 C2 D2) as R2.
  pose proof (DictReader_closed_rows _ _ _ P3 C3 D3) as R3.
  pose proof (DictReader_closed_rows _ _ _ P4 C4 D4) as R4.
  rewrite !length_app, !count_nonblank_app. simpl. lia.
Qed.

Lemma record_count_is_nonblank_line_count_witness :
  exists out header rest ls,
    records_of fs_blank_lines = Ok out /\
    part_lines fs_blank_lines part1 = Ok (header :: rest) /\
    data_lines fs_blank_lines = Ok ls /\
    line_closed header = true /\
    forallb line_closed ls = true /\
    length ls = 5 /\ count_nonblank ls = 2 /\
    length out = count_nonblank ls.
Proof.
  do 4 eexists.
  split; [vm_compute; reflexivity |].
  split; [vm_compute; reflexivity |].
  split; [vm_compute; reflexivity |].
  split; [vm_compute; reflexivity |].
  split; [vm_compute; reflexivity |].
  split; [vm_compute; reflexivity |].
  split; [vm_compute; reflexivity |].
  eapply (record_count_is_nonblank_line_count fs_blank_lines);
    vm_compute; reflexivity.
Defined.

(** C10 as it is stated does not hold: a quoted field may run over several
    lines, which then make one record.  Here two data lines, neither of them
    blank, give one record. *)
Lemma multiline_field_counterexample :
  ~ (forall fs out ls,
       records_of fs = Ok out -> data_lines fs = Ok ls ->
       length out = count_nonblank ls).
Proof.
  intro H.
  assert (C : exists out ls,
             records_of fs_multiline = Ok out /\ data_lines fs_multiline = Ok ls /\
             length out = 1 /\ count_nonblank ls = 2).
  { do 2 eexists.
    split; [vm_compute; reflexivity |].
    split; [vm_compute; reflexivity |].
    split; vm_compute; reflexivity. }
  destruct C as (out & ls & Ho & Hl & H1 & H2).
  specialize (H fs_multiline out ls Ho Hl). lia.
Qed.

(** ** JSON: what is written is read back *)

Lemma append_assoc (a b c : string) : (a ++ b) ++ c = a ++ (b ++ c).
Proof. induction a as [| x a IH]; simpl; [reflexivity | rewrite IH; reflexivity]. Qed.

Lemma append_nil_r (a : string) : a ++ EmptyString = a.
Proof. induction a as [| x a IH]; simpl; [reflexivity | rewrite IH; reflexivity]. Qed.

Lemma length_append (a b : string) :
  String.length (a ++ b) = String.length a + String.length b.
Proof. induction a as [| x a IH]; simpl; [reflexivity | rewrite IH; reflexivity]. Qed.

(** Reading one escaped character back, before a text that is not empty. *)
Lemma scanstring_escape_char (c x : ascii) (t : string) :
  Json.scanstring (Json.escape_char c ++ String x t)
  = (r <- Json.scanstring (String x t) ;; Ok (String c (fst r), snd r)).
Proof.
  destruct c as [[] [] [] [] [] [] [] []]; reflexivity.
Qed.

Lemma scanstring_escape (s rest : string) :
  Json.scanstring (Json.escape s ++ String Json.dquote rest) = Ok (s, rest).
Proof.
  induction s as [| c s IH]; [reflexivity |].
  simpl Json.escape. rewrite append_assoc.
  destruct (Json.escape s ++ String Json.dquote rest) as [| x t] eqn:E.
  - destruct (Json.escape s); discriminate E.
  - rewrite scanstring_escape_char, IH; reflexivity.
Qed.

Lemma encode_basestring_app (s rest : string) :
  Json.encode_basestring s ++ rest
  = String Json.dquote (Json.escape s ++ String Json.dquote rest).
Proof.
  unfold Json.encode_basestring, Json.str1; simpl.
  rewrite append_assoc; reflexivity.
Qed.

Lemma skip_ws_spaces (n : nat) (s : string) :
  Json.skip_ws (Json.spaces n ++ s) = Json.skip_ws s.
Proof. induction n as [| n IH]; simpl; [reflexivity | exact IH]. Qed.

Lemma skip_ws_newline_indent (level : nat) (s : string) :
  Json.skip_ws (Json.newline_indent level ++ s) = Json.skip_ws s.
Proof. unfold Json.newline_indent. simpl append. apply skip_ws_spaces. Qed.

Lemma skip_ws_start (c : ascii) (s : string) :
  Json.is_ws c = false -> Json.skip_ws (String c s) = String c s.
Proof. intro H; simpl; rewrite H; reflexivity. Qed.

Lemma encode_items_eq (level : nat) (l : list pyval) :
  (fix items (l : list pyval) : string :=
     match l with
     | [] => EmptyString
     | y :: l' =>
         "," ++ Json.newline_indent (S level) ++ Json.encode (S level) y ++ items l'
     end) l = encode_items level l.
Proof. induction l as [| y l IH]; simpl; [reflexivity | rewrite <- IH; reflexivity]. Qed.

Lemma encode_members_eq (level : nat) (d : list (pykey * pyval)) :
  (fix members (d : list (pykey * pyval)) : string :=
     match d with
     | [] => EmptyString
     | (k', y) :: d' =>
         "," ++ Json.newline_indent (S level) ++ Json.encode_key k' ++ ": "
         ++ Json.encode (S level) y ++ members d'
     end) d = encode_members level d.
Proof.
  induction d as [| [k y] d IH]; simpl; [reflexivity | rewrite <- IH; reflexivity].
Qed.

Lemma encode_list_cons (level : nat) (x : pyval) (l : list pyval) :
  Json.encode level (VList (x :: l))
  = String "[" (Json.newline_indent (S level) ++ Json.encode (S level) x
                ++ encode_items level l ++ Json.newline_indent level ++ "]").
Proof.
  rewrite <- encode_items_eq. reflexivity.
Qed.

Lemma encode_dict_cons (level : nat) (k : pykey) (x : pyval) (d : list (pykey * pyval)) :
  Json.encode level (VDict ((k, x) :: d))
  = String "{" (Json.newline_indent (S level) ++ Json.encode_key k ++ ": "
                ++ Json.encode (S level) x
                ++ encode_members level d ++ Json.newline_indent level ++ "}").
Proof.
  rewrite <- encode_members_eq. reflexivity.
Qed.

(** The text of a value begins with a character that opens a value. *)
Lemma encode_start (level : nat) (v : pyval) :
  exists c t, Json.encode level v = String c t /\ value_start c = true.
Proof.
  destruct v as [| b | s | l | d].
  - do 2 eexists; split; reflexivity.
  - destruct b; do 2 eexists; split; reflexivity.
  - do 2 eexists; split; reflexivity.
  - destruct l as [| x l].
    + do 2 eexists; split; reflexivity.
    + rewrite encode_list_cons. do 2 eexists; split; reflexivity.
  - destruct d as [| [k x] d].
    + do 2 eexists; split; reflexivity.
    + rewrite encode_dict_cons. do 2 eexists; split; reflexivity.
Qed.

Lemma value_text_head (level : nat) (v : pyval) (rest : string) :
  exists c s,
    Json.encode level v ++ rest = String c s /\
    Json.is_ws c = false /\ Ascii.eqb c "]" = false.
Proof.
  destruct (encode_start level v) as (c & t & E & Hc).
  exists c, (t ++ rest). rewrite E.
  unfold value_start in Hc. apply andb_true_iff in Hc; destruct Hc as [Hc _].
  apply andb_true_iff in Hc; destruct Hc as [H1 H2].
  apply negb_true_iff in H1, H2.
  split; [reflexivity | split; assumption].
Qed.

Lemma value_text_no_mark (level : nat) (v : pyval) :
  Json.drop_prefix Json.byte_order_mark (Json.encode level v) = None.
Proof.
  destruct (encode_start level v) as (c & t & E & Hc).
  rewrite E. unfold value_start in Hc.
  apply andb_true_iff in Hc; destruct Hc as [_ Hc].
  destruct c as [b0 b1 b2 b3 b4 b5 b6 b7].
  destruct b0, b1, b2, b3, b4, b5, b6, b7;
    (reflexivity || (vm_compute in Hc; discriminate Hc)).
Qed.

Lemma skip_ws_value (level : nat) (v : pyval) (rest : string) :
  Json.skip_ws (Json.encode level v ++ rest) = Json.encode level v ++ rest.
Proof.
  destruct (value_text_head level v rest) as (c & s & E & Hw & _).
  rewrite E. apply skip_ws_start; exact Hw.
Qed.

(** One step of each of the three scanning functions. *)
Lemma scan_once_string (fuel : nat) (s : string) :
  Json.scan_once (S fuel) (String Json.dquote s)
  = (r <- Json.scanstring s ;; Ok (VStr (fst r), snd r)).
Proof. reflexivity. Qed.

Lemma scan_once_array (fuel : nat) (s : string) :
  Json.scan_once (S fuel) (String "[" s)
  = match Json.skip_ws s with
    | EmptyString => Raise Json.expecting_value
    | String c1 s2 =>
        if Ascii.eqb c1 "]" then Ok (VList [], s2)
        else r <- Json.scan_items fuel (String c1 s2) ;; Ok (VList (fst r), snd r)
    end.
Proof. reflexivity. Qed.

Lemma scan_once_object (fuel : nat) (s : string) :
  Json.scan_once (S fuel) (String "{" s)
  = match Json.skip_ws s with
    | EmptyString => Raise Json.expecting_name
    | String c1 s2 =>
        if Ascii.eqb c1 "}" then Ok (VDict [], s2)
        else if Ascii.eqb c1 Json.dquote then
          r <- Json.scan_members fuel s2 ;; Ok (VDict (dict_of (fst r)), snd r)
        else Raise Json.expecting_name
    end.
Proof. reflexivity. Qed.

Lemma scan_items_step (fuel : nat) (s : string) :
  Json.scan_items (S fuel) s
  = (r <- Json.scan_once fuel s ;;
     match Json.skip_ws (snd r) with
     | EmptyString => Raise Json.expecting_comma
     | String c s2 =>
         if Ascii.eqb c "]" then Ok ([fst r], s2)
         else if Ascii.eqb c "," then
           rs <- Json.scan_items fuel (Json.skip_ws s2) ;; Ok (fst r :: fst rs, snd rs)
         else Raise Json.expecting_comma
     end).
Proof. reflexivity. Qed.

Lemma scan_members_step (fuel : nat) (s : string) :
  Json.scan_members (S fuel) s
  = (k <- Json.scanstring s ;;
     match Json.skip_ws (snd k) with
     | EmptyString => Raise Json.expecting_colon
     | String c s2 =>
         if Ascii.eqb c ":" then
           r <- Json.scan_once fuel (Json.skip_ws s2) ;;
           match Json.skip_ws (snd r) with
           | EmptyString => Raise Json.expecting_comma
           | String c3 s4 =>
               if Ascii.eqb c3 "}" then Ok ([(Some (fst k), fst r)], s4)
               else if Ascii.eqb c3 "," then
                 match Json.skip_ws s4 with
                 | EmptyString => Raise Json.expecting_name
                 | String c5 s6 =>
                     if Ascii.eqb c5 Json.dquote then
                       ms <- Json.scan_members fuel s6 ;;
                       Ok ((Some (fst k), fst r) :: fst ms, snd ms)
                     else Raise Json.expecting_name
                 end
               else Raise Json.expecting_comma
           end
         else Raise Json.expecting_colon
     end).
Proof. reflexivity. Qed.

Lemma depth_of_list (l : list pyval) : depth_of (VList l) = S (items_depth l).
Proof.
  reflexivity.
Qed.

Lemma depth_of_dict (d : list (pykey * pyval)) : depth_of (VDict d) = S (members_depth d).
Proof.
  reflexivity.
Qed.

Section ScanValue.

(** The values that need less fuel than [n] are read back. *)
Variable n : nat.
Hypothesis scan_once_below :
  forall fuel, fuel < n ->
  forall v level rest,
    depth_of v <= fuel -> json_safe v = true ->
    Json.scan_once fuel (Json.encode level v ++ rest) = Ok (v, rest).

Lemma scan_items_ok (level : nat) (rest : string) (l : list pyval) :
  forall x fuel,
    fuel <= n -> items_depth (x :: l) <= fuel ->
    forallb json_safe (x :: l) = true ->
    Json.scan_items fuel
      (Json.encode (S level) x
       ++ encode_items level l ++ Json.newline_indent level ++ String "]" rest)
    = Ok (x :: l, rest).
Proof.
  induction l as [| y l IH]; intros x fuel Hn Hd Hs;
    (destruct fuel as [| f]; [simpl in Hd; lia |]);
    simpl in Hd, Hs; apply andb_true_iff in Hs; destruct Hs as [Hx Hs];
    rewrite scan_items_step, scan_once_below by (assumption || lia);
    cbn [bind fst snd].
  - cbn [encode_items append]. rewrite skip_ws_newline_indent.
    reflexivity.
  - cbn [encode_items]. rewrite !append_assoc. cbn [append].
    rewrite skip_ws_start by reflexivity.
    cbn [Ascii.eqb Bool.eqb]. cbn iota.
    rewrite skip_ws_newline_indent, skip_ws_value.
    rewrite IH by (simpl; assumption || lia).
    reflexivity.
Qed.

Lemma scan_members_ok (level : nat) (rest : string) (d : list (pykey * pyval)) :
  forall k x fuel,
    fuel <= n -> members_depth ((Some k, x) :: d) <= fuel ->
    forallb (fun kv => is_str_key (fst kv)) d = true ->
    forallb (fun kv => json_safe (snd kv)) ((Some k, x) :: d) = true ->
    Json.scan_members fuel
      (Json.escape k
       ++ String Json.dquote
            (String ":" (String " "
               (Json.encode (S level) x
                ++ encode_members level d ++ Json.newline_indent level
                ++ String "}" rest))))
    = Ok ((Some k, x) :: d, rest).
Proof.
  induction d as [| [k2 y] d IH]; intros k x fuel Hn Hd Hk Hs;
    (destruct fuel as [| f]; [simpl in Hd; lia |]);
    simpl in Hd, Hs; apply andb_true_iff in Hs; destruct Hs as [Hx Hs];
    rewrite scan_members_step, scanstring_escape;
    cbn [bind fst snd append];
    rewrite (skip_ws_start ":") by reflexivity;
    cbn [Ascii.eqb Bool.eqb]; cbn iota;
    change (Json.skip_ws (String " " ?s)) with (Json.skip_ws s);
    rewrite skip_ws_value, scan_once_below by (assumption || lia);
    cbn [bind fst snd].
  - cbn [encode_members append]. rewrite skip_ws_newline_indent.
    reflexivity.
  - simpl in Hk. apply andb_true_iff in Hk; destruct Hk as [Hk2 Hk].
    destruct k2 as [k2 |]; [| discriminate Hk2].
    cbn [encode_members Json.encode_key]. rewrite !append_assoc. cbn [append].
    rewrite skip_ws_start by reflexivity.
    cbn [Ascii.eqb Bool.eqb]. cbn iota.
    rewrite skip_ws_newline_indent, encode_basestring_app.
    rewrite skip_ws_start by reflexivity.
    cbn [Ascii.eqb Bool.eqb Json.dquote]. cbn iota.
    rewrite IH by (simpl; assumption || lia).
    reflexivity.
Qed.

End ScanValue.

(** Building a dict from pairs with distinct keys gives the pairs back. *)
Lemma dict_set_new (d : pydict) (k : pykey) (v : pyval) :
  existsb (key_eqb k) (map fst d) = false -> dict_set d k v = (d ++ [(k, v)])%list.
Proof.
  induction d as [| [k' v'] d IH]; simpl; intro H; [reflexivity |].
  apply orb_false_iff in H; destruct H as [H1 H2].
  rewrite H1, (IH H2); reflexivity.
Qed.

Lemma existsb_key_app (k : pykey) (a b : list pykey) :
  existsb (key_eqb k) (a ++ b) = existsb (key_eqb k) a || existsb (key_eqb k) b.
Proof. apply existsb_app. Qed.

Lemma key_eqb_sym (a b : pykey) : key_eqb a b = key_eqb b a.
Proof.
  destruct a as [x |], b as [y |]; simpl; try reflexivity. apply String.eqb_sym.
Qed.

Lemma distinct_app_cons (a : list pykey) (k : pykey) (b : list pykey) :
  distinct (a ++ k :: b) = true ->
  existsb (key_eqb k) a = false /\ distinct ((a ++ [k]) ++ b) = true.
Proof.
  induction a as [| x a IH]; simpl; intro H.
  - split; [reflexivity | exact H].
  - apply andb_true_iff in H; destruct H as [H1 H2].
    destruct (IH H2) as [Ha Hd].
    rewrite existsb_key_app in H1; simpl in H1.
    apply negb_true_iff in H1.
    apply orb_false_iff in H1; destruct H1 as [H1a H1b].
    apply orb_false_iff in H1b; destruct H1b as [H1k H1b].
    split.
    + rewrite key_eqb_sym, H1k; exact Ha.
    + rewrite Hd, !existsb_key_app; simpl.
      rewrite H1a, H1k, H1b; reflexivity.
Qed.

Lemma fold_set_distinct (d acc : pydict) :
  distinct (map fst (acc ++ d)) = true ->
  fold_left (fun d kv => dict_set d (fst kv) (snd kv)) d acc = (acc ++ d)%list.
Proof.
  revert acc; induction d as [| [k v] d IH]; intros acc H; simpl.
  - rewrite app_nil_r; reflexivity.
  - rewrite map_app in H; simpl in H.
    destruct (distinct_app_cons _ _ _ H) as [Hk Hd].
    rewrite dict_set_new by exact Hk.
    rewrite IH.
    + rewrite <- app_assoc; reflexivity.
    + rewrite !map_app; simpl. exact Hd.
Qed.

Lemma dict_of_distinct (d : pydict) :
  distinct (map fst d) = true -> dict_of d = d.
Proof. intro H; unfold dict_of; rewrite fold_set_distinct; [reflexivity | exact H]. Qed.

(** Every safe value is read back from its text, at any indentation and
    before any text, when the fuel covers its depth. *)
Lemma scan_once_round_trip (n : nat) :
  forall fuel, fuel < n ->
  forall v level rest,
    depth_of v <= fuel -> json_safe v = true ->
    Json.scan_once fuel (Json.encode level v ++ rest) = Ok (v, rest).
Proof.
  induction n as [| n IH]; intros fuel Hn v level rest Hd Hs; [lia |].
  destruct fuel as [| f]; [destruct v; simpl in Hd; lia |].
  assert (Hf : f <= n) by lia.
  destruct v as [| b | s | l | d].
  - reflexivity.
  - destruct b; reflexivity.
  - cbn [Json.encode]. rewrite encode_basestring_app, scan_once_string, scanstring_escape.
    reflexivity.
  - destruct l as [| x l]; [reflexivity |].
    rewrite depth_of_list in Hd.
    rewrite encode_list_cons. cbn [append]. rewrite !append_assoc.
    rewrite scan_once_array, skip_ws_newline_indent, skip_ws_value.
    destruct (value_text_head (S level) x
                (encode_items level l ++ Json.newline_indent level ++ "]" ++ rest))
      as (c & t & E & _ & Hc).
    rewrite E, Hc, <- E.
    cbn [append].
    rewrite (scan_items_ok n IH level rest l x f Hf) by (assumption || lia).
    reflexivity.
  - destruct d as [| [k x] d]; [reflexivity |].
    rewrite depth_of_dict in Hd.
    cbn [json_safe] in Hs.
    apply andb_true_iff in Hs; destruct Hs as [Hs Hv].
    apply andb_true_iff in Hs; destruct Hs as [Hk Hdist].
    cbn [forallb fst] in Hk.
    apply andb_true_iff in Hk; destruct Hk as [Hk1 Hk].
    destruct k as [k |]; [| discriminate Hk1].
    rewrite encode_dict_cons. cbn [append Json.encode_key]. rewrite !append_assoc.
    rewrite scan_once_object, skip_ws_newline_indent, encode_basestring_app.
    rewrite skip_ws_start by reflexivity.
    cbn [Ascii.eqb Bool.eqb Json.dquote]. cbn iota.
    cbn [append]. rewrite !append_assoc. cbn [append].
    rewrite (scan_members_ok n IH level rest d k x f Hf) by (assumption || lia).
    cbn [bind fst snd].
    rewrite dict_of_distinct by exact Hdist.
    reflexivity.
Qed.

(** Induction on values, with the elements of a list and the values of a
    dict as sub-values. *)
Lemma pyval_induction (P : pyval -> Prop) :
  P VNone -> (forall b, P (VBool b)) -> (forall s, P (VStr s)) ->
  (forall l, Forall P l -> P (VList l)) ->
  (forall d, Forall (fun kv => P (snd kv)) d -> P (VDict d)) ->
  forall v, P v.
Proof.
  intros HN HB HS HL HD.
  fix IH 1. intros [| b | s | l | d].
  - exact HN.
  - apply HB.
  - apply HS.
  - apply HL. induction l as [| x l IHl]; constructor; [apply IH | exact IHl].
  - apply HD. induction d as [| [k x] d IHd]; constructor; [apply IH | exact IHd].
Qed.

Lemma items_depth_le_length (level : nat) (l : list pyval) :
  Forall (fun v => forall level, depth_of v <= String.length (Json.encode level v)) l ->
  items_depth l <= String.length (encode_items level l).
Proof.
  induction 1 as [| y l Hy _ IH]; [simpl; lia |].
  cbn [items_depth encode_items]. rewrite !length_append.
  specialize (Hy (S level)). simpl String.length. lia.
Qed.

Lemma members_depth_le_length (level : nat) (d : list (pykey * pyval)) :
  Forall (fun kv => forall level,
            depth_of (snd kv) <= String.length (Json.encode level (snd kv))) d ->
  members_depth d <= String.length (encode_members level d).
Proof.
  induction 1 as [| [k y] d Hy _ IH]; [simpl; lia |].
  cbn [members_depth encode_members snd]. rewrite !length_append.
  specialize (Hy (S level)). simpl in Hy. simpl String.length. lia.
Qed.

(** The text of a value is at least as long as the value is deep. *)
Lemma depth_le_length (v : pyval) :
  forall level, depth_of v <= String.length (Json.encode level v).
Proof.
  induction v as [| b | s | l Hl | d Hd] using pyval_induction; intro level.
  - simpl; lia.
  - destruct b; simpl; lia.
  - simpl; lia.
  - destruct l as [| x l]; [simpl; lia |].
    rewrite depth_of_list, encode_list_cons.
    inversion Hl as [| ? ? Hx Hl']; subst.
    pose proof (items_depth_le_length level l Hl') as Hi.
    specialize (Hx (S level)).
    assert (Hm : Nat.max (depth_of x) (items_depth l)
                 <= String.length (Json.encode (S level) x)
                    + String.length (encode_items level l))
      by (apply Nat.max_lub; lia).
    cbn [items_depth]. simpl String.length. rewrite !length_append. lia.
  - destruct d as [| [k x] d]; [simpl; lia |].
    rewrite depth_of_dict, encode_dict_cons.
    inversion Hd as [| ? ? Hx Hd']; subst.
    pose proof (members_depth_le_length level d Hd') as Hi.
    specialize (Hx (S level)). simpl in Hx.
    assert (Hm : Nat.max (depth_of x) (members_depth d)
                 <= String.length (Json.encode (S level) x)
                    + String.length (encode_members level d))
      by (apply Nat.max_lub; lia).
    cbn [members_depth snd]. simpl String.length. rewrite !length_append.
    simpl String.length. rewrite !length_append. lia.
Qed.

(** [json.loads(json.dumps(v, indent=2, ensure_ascii=False))] is [v]. *)
Lemma loads_dumps (v : pyval) :
  json_safe v = true -> Json.loads (Json.dumps v) = Ok v.
Proof.
  intro Hs. unfold Json.loads, Json.dumps.
  rewrite value_text_no_mark.
  rewrite <- (append_nil_r (Json.encode 0 v)) at 2.
  rewrite skip_ws_value.
  rewrite (scan_once_round_trip (S (S (String.length (Json.encode 0 v))))).
  - reflexivity.
  - lia.
  - pose proof (depth_le_length v 0); lia.
  - exact Hs.
Qed.

(** *** The records the script writes are safe *)

Lemma str_or_none_safe (v : pyval) : is_str_or_none v = true -> json_safe v = true.
Proof. destruct v; simpl; intro H; try discriminate H; reflexivity. Qed.

Lemma nft_json_safe (row : pydict) (rec : pyval) :
  columns_hold_text row = true -> nft row = Ok rec -> json_safe rec = true.
Proof.
  intros Ht H. apply nft_inv in H; destruct H as [c [Hc ->]].
  apply py_lower_inv in Hc; destruct Hc as [s [_ ->]].
  pose proof (str_or_none_safe _ (columns_hold_text_get row "Token ID" Ht)) as H1.
  pose proof (str_or_none_safe _ (columns_hold_text_get row "Name" Ht)) as H2.
  pose proof (str_or_none_safe _ (columns_hold_text_get row "Image URL" Ht)) as H3.
  simpl. rewrite H1, H2, H3. reflexivity.
Qed.

Lemma nfts_json_safe (rows : list pydict) (out : list pyval) :
  forallb columns_hold_text rows = true -> nfts rows = Ok out ->
  forallb json_safe out = true.
Proof.
  unfold nfts. revert out; induction rows as [| row rows IH]; simpl; intros out Ht H.
  - injection H as <-; reflexivity.
  - apply andb_true_iff in Ht; destruct Ht as [Hr Ht].
    bind_inv H. bind_inv H. injection H as <-.
    simpl. rewrite (nft_json_safe _ _ Hr Hx), (IH _ Ht Hx0); reflexivity.
Qed.

Lemma DictReader_rows_text (lines : list string) (names : option (list string))
    (r : option (list string) * list pydict) :
  Csv.DictReader lines names = Ok r -> forallb columns_hold_text (snd r) = true.
Proof.
  assert (Hm : forall ns l, forallb columns_hold_text (map (Csv.DictReader_row ns) l) = true).
  { intros ns l; induction l as [| x l IH]; simpl; [reflexivity |].
    rewrite DictReader_row_text; exact IH. }
  unfold Csv.DictReader; intro H. bind_inv H.
  destruct names as [ns |].
  - injection H as <-; apply Hm.
  - destruct x as [| ns records]; injection H as <-; [reflexivity | apply Hm].
Qed.

Lemma rows_of_text (fs : filesystem) (part : string) (names : option (list string))
    (rows : list pydict) :
  rows_of fs part names = Ok rows -> forallb columns_hold_text rows = true.
Proof.
  unfold rows_of; intro H. bind_inv H. bind_inv H. injection H as <-.
  eapply DictReader_rows_text; eassumption.
Qed.

Lemma all_rows_text (fs : filesystem) (rows : list pydict) :
  all_rows fs = Ok rows -> forallb columns_hold_text rows = true.
Proof.
  intro H.
  destruct (all_rows_inv _ _ H) as (names & r1 & r2 & r3 & r4 & _ & H1 & H2 & H3 & H4 & ->).
  rewrite !forallb_app.
  rewrite (rows_of_text _ _ _ _ H1), (rows_of_text _ _ _ _ H2),
          (rows_of_text _ _ _ _ H3), (rows_of_text _ _ _ _ H4).
  reflexivity.
Qed.

Lemma write_text_content (fs fs' : filesystem) (path text : string) :
  write_text fs path text = Ok fs' -> exists r w, fs' path = File text r w.
Proof.
  unfold write_text, fs_write; intro H.
  destruct (fs path) as [| | old r w].
  - injection H as <-. rewrite String.eqb_refl. do 2 eexists; reflexivity.
  - discriminate H.
  - destruct w; [| discriminate H].
    injection H as <-. rewrite String.eqb_refl. do 2 eexists; reflexivity.
Qed.

(** C8: when the script succeeds, the output file holds a text that reads
    back, as JSON, to the list of the records the script held, each record
    with its fields in their order. *)
Theorem output_round_trip (fs fs' : filesystem) (msg : string) :
  main fs = (Ok msg, fs') ->
  exists records text r w,
    records_of fs = Ok records /\
    fs' output_file = File text r w /\
    Json.loads text = Ok (VList records).
Proof.
  unfold main; intro H.
  destruct (records_of fs) as [records | e] eqn:Hr; [| discriminate H].
  destruct (write_text fs output_file (Json.dumps (VList records))) as [fs1 | e] eqn:Hw;
    [| discriminate H].
  injection H as _ <-.
  destruct (write_text_content _ _ _ _ Hw) as (r & w & Hf).
  exists records, (Json.dumps (VList records)), r, w.
  split; [reflexivity |]. split; [exact Hf |].
  apply loads_dumps.
  unfold records_of in Hr. bind_inv Hr.
  cbn [json_safe]. eapply nfts_json_safe; [| eassumption].
  eapply all_rows_text; eassumption.
Qed.

Lemma output_round_trip_witness :
  main fs_scenario = (Ok scenario_message, snd (main fs_scenario)) /\
  exists records text r w,
    records_of fs_scenario = Ok records /\
    snd (main fs_scenario) output_file = File text r w /\
    Json.loads text = Ok (VList records).
Proof.
  split; [vm_compute; reflexivity |].
  apply (output_round_trip fs_scenario (snd (main fs_scenario)) scenario_message).
  vm_compute; reflexivity.
Defined.

(** * Further properties of the script *)

(** ** What a row of the reader holds under a column name *)

Lemma fold_zip_other (k : string) (def : pyval) (ns : list string) :
  forall (rs : list string) (acc : pydict),
    ~ In k ns ->
    dict_get
      (fold_left (fun d kv => dict_set d (fst kv) (snd kv))
         (map (fun kv => (Some (fst kv), VStr (snd kv))) (combine ns rs)) acc)
      (Some k) def
    = dict_get acc (Some k) def.
Proof.
  induction ns as [| n0 ns IH]; intros rs acc Hk; [reflexivity |].
  destruct rs as [| r0 rs]; [reflexivity |].
  simpl. rewrite IH by (intro H; apply Hk; right; exact H).
  apply dict_get_set_other. simpl.
  apply String.eqb_neq. intro E; apply Hk; left; symmetry; exact E.
Qed.

Lemma fold_zip_get (k v : string) (def : pyval) (ns : list string) :
  forall (rs : list string) (i : nat) (acc : pydict),
    nth_error ns i = Some k -> nth_error rs i = Some v ->
    ~ In k (skipn (S i) ns) ->
    dict_get
      (fold_left (fun d kv => dict_set d (fst kv) (snd kv))
         (map (fun kv => (Some (fst kv), VStr (snd kv))) (combine ns rs)) acc)
      (Some k) def
    = VStr v.
Proof.
  induction ns as [| n0 ns IH]; intros rs i acc Hn Hr Hk.
  - destruct i; discriminate Hn.
  - destruct rs as [| r0 rs]; [destruct i; discriminate Hr |].
    destruct i as [| i]; simpl in Hn, Hr.
    + injection Hn as ->. injection Hr as ->.
      simpl. rewrite fold_zip_other by exact Hk.
      apply dict_get_set_same.
    + simpl. eapply IH; eassumption.
Qed.

Lemma fold_none_other (k : string) (def : pyval) (keys : list string) :
  forall d : pydict,
    ~ In k keys ->
    dict_get (fold_left (fun d key => dict_set d (Some key) VNone) keys d) (Some k) def
    = dict_get d (Some k) def.
Proof.
  induction keys as [| k0 keys IH]; intros d Hk; [reflexivity |].
  simpl. rewrite IH by (intro H; apply Hk; right; exact H).
  apply dict_get_set_other. simpl.
  apply String.eqb_neq. intro E; apply Hk; left; symmetry; exact E.
Qed.

Lemma fold_none_in (k : string) (def : pyval) (keys : list string) :
  forall d : pydict,
    In k keys ->
    dict_get (fold_left (fun d key => dict_set d (Some key) VNone) keys d) (Some k) def
    = VNone.
Proof.
  induction keys as [| k0 keys IH]; intros d Hk; [destruct Hk |].
  simpl. destruct (in_dec string_dec k keys) as [Hin | Hout].
  - apply IH; exact Hin.
  - destruct Hk as [-> | Hin]; [| contradiction].
    rewrite fold_none_other by exact Hout.
    apply dict_get_set_same.
Qed.

Lemma In_skipn_le {A : Type} (x : A) (l : list A) (n m : nat) :
  n <= m -> In x (skipn m l) -> In x (skipn n l).
Proof.
  revert n m; induction l as [| a l IH]; intros n m Hle Hin.
  - destruct m; destruct Hin.
  - destruct n as [| n]; destruct m as [| m]; simpl in *; try lia; try assumption.
    + right. apply (IH 0 m); [lia | exact Hin].
    + apply (IH n m); [lia | exact Hin].
Qed.

(** The value under a column name is the field at the place of the name in
    the header (the last such place, when the header has the name twice). *)
Lemma DictReader_row_get (names row : list string) (i : nat) (k v : string)
    (def : pyval) :
  nth_error names i = Some k -> nth_error row i = Some v ->
  ~ In k (skipn (S i) names) ->
  dict_get (Csv.DictReader_row names row) (Some k) def = VStr v.
Proof.
  intros Hn Hr Hk. unfold Csv.DictReader_row, dict_of.
  destruct (length names <? length row)%nat.
  - rewrite dict_get_set_other by reflexivity.
    eapply fold_zip_get; eassumption.
  - destruct (length row <? length names)%nat.
    + rewrite fold_none_other; [eapply fold_zip_get; eassumption |].
      intro Hin. apply Hk. apply (In_skipn_le k names (S i) (length row)); [| exact Hin].
      assert (i < length row) by (apply nth_error_Some; rewrite Hr; discriminate).
      lia.
    + eapply fold_zip_get; eassumption.
Qed.

(** A name the header does not have gives the default. *)
Lemma DictReader_row_absent (names row : list string) (k : string) (def : pyval) :
  ~ In k names ->
  dict_get (Csv.DictReader_row names row) (Some k) def = def.
Proof.
  intro Hk. unfold Csv.DictReader_row, dict_of.
  destruct (length names <? length row)%nat.
  - rewrite dict_get_set_other by reflexivity.
    rewrite fold_zip_other by exact Hk. reflexivity.
  - destruct (length row <? length names)%nat.
    + rewrite fold_none_other.
      * rewrite fold_zip_other by exact Hk. reflexivity.
      * intro Hin. apply Hk. apply (In_skipn_le k names 0 (length row)); [lia | exact Hin].
    + rewrite fold_zip_other by exact Hk. reflexivity.
Qed.

Lemma columns_hold_str_set (d : pydict) (k : pykey) (v : pyval) :
  columns_hold_str d = true ->
  negb (is_str_key k) || is_str v = true ->
  columns_hold_str (dict_set d k v) = true.
Proof.
  unfold columns_hold_str; intros Hd Hv.
  induction d as [| [k' v'] d IH]; simpl in *.
  - rewrite Hv; reflexivity.
  - apply andb_true_iff in Hd; destruct Hd as [H1 H2].
    destruct (key_eqb k k') eqn:E; simpl.
    + apply key_eqb_eq in E; subst k'. rewrite Hv, H2; reflexivity.
    + rewrite H1, (IH H2); reflexivity.
Qed.

Lemma columns_hold_str_get (d : pydict) (k : string) :
  columns_hold_str d = true ->
  is_str (dict_get d (Some k) str_default) = true.
Proof.
  unfold columns_hold_str; intro Hd.
  induction d as [| [k' v'] d IH]; simpl in *; [reflexivity |].
  apply andb_true_iff in Hd; destruct Hd as [H1 H2].
  destruct k' as [s |]; simpl in *.
  - destruct (String.eqb k s); [exact H1 | exact (IH H2)].
  - exact (IH H2).
Qed.

Lemma fold_zip_str (pairs : list (string * string)) (d : pydict) :
  columns_hold_str d = true ->
  columns_hold_str
    (fold_left (fun d kv => dict_set d (fst kv) (snd kv))
       (map (fun kv => (Some (fst kv), VStr (snd kv))) pairs) d) = true.
Proof.
  revert d; induction pairs as [| [k v] pairs IH]; simpl; intros d Hd.
  - exact Hd.
  - apply IH. apply columns_hold_str_set; [exact Hd | reflexivity].
Qed.

Lemma is_str_inv (v : pyval) : is_str v = true -> exists s, v = VStr s.
Proof. destruct v; simpl; intro H; try discriminate H. exists s; reflexivity. Qed.

(** ** The processing loop on the rows of the reader *)

(** X1: the script reads four columns of a row; the value under any other
    key (the sequence number [No], the surplus fields under [None], any other
    column) has no effect on the record. *)
Theorem other_columns_are_ignored (row : pydict) (k : pykey) (v : pyval) :
  forallb (fun c => negb (key_eqb (Some c) k)) used_columns = true ->
  nft (dict_set row k v) = nft row.
Proof.
  intro H. simpl in H.
  repeat (apply andb_true_iff in H; let H1 := fresh "K" in destruct H as [H1 H]).
  apply negb_true_iff in K, K0, K1, K2.
  unfold nft. rewrite !dict_get_set_other by assumption. reflexivity.
Qed.

Lemma other_columns_are_ignored_witness :
  forallb (fun c => negb (key_eqb (Some c) (Some "No"))) used_columns = true /\
  nft (dict_set (Csv.DictReader_row canonical_names long_row) (Some "No") (VStr "999"))
  = nft (Csv.DictReader_row canonical_names long_row).
Proof.
  split; [reflexivity |].
  apply (other_columns_are_ignored
           (Csv.DictReader_row canonical_names long_row) (Some "No") (VStr "999")).
  reflexivity.
Defined.

(** X2: the fields are found by the names of the header, wherever the
    columns stand: the token id, the name and the image URL of the record are
    the fields under these names, unchanged, and the token address is the
    field under the address column, lower-cased. *)
Theorem fields_are_taken_by_column_name
    (names row : list string) (ia it inm iu : nat) (a t n u : string) :
  nth_error names ia = Some "Contract Address" -> nth_error row ia = Some a ->
  ~ In "Contract Address" (skipn (S ia) names) ->
  nth_error names it = Some "Token ID" -> nth_error row it = Some t ->
  ~ In "Token ID" (skipn (S it) names) ->
  nth_error names inm = Some "Name" -> nth_error row inm = Some n ->
  ~ In "Name" (skipn (S inm) names) ->
  nth_error names iu = Some "Image URL" -> nth_error row iu = Some u ->
  ~ In "Image URL" (skipn (S iu) names) ->
  nft (Csv.DictReader_row names row) = Ok (record_of_strings (lower a) t n u).
Proof.
  intros A1 A2 A3 T1 T2 T3 N1 N2 N3 U1 U2 U3.
  unfold nft.
  rewrite (DictReader_row_get names row ia _ a _ A1 A2 A3).
  rewrite (DictReader_row_get names row it _ t _ T1 T2 T3).
  rewrite (DictReader_row_get names row inm _ n _ N1 N2 N3).
  rewrite (DictReader_row_get names row iu _ u _ U1 U2 U3).
  reflexivity.
Qed.

Lemma fields_are_taken_by_column_name_witness :
  (nth_error shuffled_names 0 = Some "Contract Address" /\
   nth_error shuffled_row 0 = Some "0xABC123" /\
   ~ In "Contract Address" (skipn 1 shuffled_names)) /\
  (nth_error shuffled_names 4 = Some "Token ID" /\
   nth_error shuffled_row 4 = Some "42" /\
   ~ In "Token ID" (skipn 5 shuffled_names)) /\
  (nth_error shuffled_names 1 = Some "Name" /\
   nth_error shuffled_row 1 = Some "Cool Ape" /\
   ~ In "Name" (skipn 2 shuffled_names)) /\
  (nth_error shuffled_names 3 = Some "Image URL" /\
   nth_error shuffled_row 3 = Some "http://img/1.png" /\
   ~ In "Image URL" (skipn 4 shuffled_names)) /\
  nft (Csv.DictReader_row shuffled_names shuffled_row)
  = Ok (record_of_strings (lower "0xABC123") "42" "Cool Ape" "http://img/1.png").
Proof.
  assert (A : ~ In "Contract Address" (skipn 1 shuffled_names))
    by (simpl; intuition discriminate).
  assert (T : ~ In "Token ID" (skipn 5 shuffled_names))
    by (simpl; intuition discriminate).
  assert (N : ~ In "Name" (skipn 2 shuffled_names))
    by (simpl; intuition discriminate).
  assert (U : ~ In "Image URL" (skipn 4 shuffled_names))
    by (simpl; intuition discriminate).
  split; [split; [reflexivity | split; [reflexivity | exact A]] |].
  split; [split; [reflexivity | split; [reflexivity | exact T]] |].
  split; [split; [reflexivity | split; [reflexivity | exact N]] |].
  split; [split; [reflexivity | split; [reflexivity | exact U]] |].
  apply (fields_are_taken_by_column_name shuffled_names shuffled_row 0 4 1 3
           "0xABC123" "42" "Cool Ape" "http://img/1.png");
    (reflexivity || assumption).
Defined.

Lemma full_row_holds_str (names row : list string) :
  length names <= length row ->
  columns_hold_str (Csv.DictReader_row names row) = true.
Proof.
  intro Hle. unfold Csv.DictReader_row, dict_of.
  destruct (Nat.ltb_spec (length names) (length row)).
  - apply columns_hold_str_set; [apply fold_zip_str; reflexivity | reflexivity].
  - destruct (Nat.ltb_spec (length row) (length names)); [lia |].
    apply fold_zip_str; reflexivity.
Qed.

(** X3: a line with at least as many fields as the header has names always
    gives a record, and the four fields of the record are strings: none is
    null. *)
Theorem full_row_gives_strings (names row : list string) :
  length names <= length row ->
  exists a t n u, nft (Csv.DictReader_row names row) = Ok (record_of_strings a t n u).
Proof.
  intro Hle. pose proof (full_row_holds_str names row Hle) as Hs.
  destruct (is_str_inv _ (columns_hold_str_get _ "Contract Address" Hs)) as [a Ha].
  destruct (is_str_inv _ (columns_hold_str_get _ "Token ID" Hs)) as [t Ht].
  destruct (is_str_inv _ (columns_hold_str_get _ "Name" Hs)) as [n Hn].
  destruct (is_str_inv _ (columns_hold_str_get _ "Image URL" Hs)) as [u Hu].
  exists (lower a), t, n, u.
  unfold nft. rewrite Ha, Ht, Hn, Hu. reflexivity.
Qed.

Lemma full_row_gives_strings_witness :
  length canonical_names <= length long_row /\
  exists a t n u,
    nft (Csv.DictReader_row canonical_names long_row) = Ok (record_of_strings a t n u).
Proof.
  split; [simpl; lia |].
  apply (full_row_gives_strings canonical_names long_row). simpl; lia.
Defined.

(** X4: the record of a line fails to be made exactly when the line stops
    before the address column: the script succeeds on a row if and only if
    [Contract Address] is not among the names the line did not reach. *)
Theorem row_fails_iff_address_not_reached (names row : list string) :
  is_ok (nft (Csv.DictReader_row names row))
  = negb (existsb (String.eqb "Contract Address") (skipn (length row) names)).
Proof.
  assert (Hstr : forall d, is_str (dict_get d (Some "Contract Address") str_default) = true ->
                 is_ok (nft d) = true).
  { intros d H. apply is_str_inv in H; destruct H as [s Hs].
    unfold nft; rewrite Hs; reflexivity. }
  assert (Hbase : columns_hold_str
                    (dict_of (map (fun kv => (Some (fst kv), VStr (snd kv)))
                                (combine names row))) = true)
    by (unfold dict_of; apply fold_zip_str; reflexivity).
  destruct (Nat.ltb_spec (length names) (length row)) as [Hlt | Hge].
  - rewrite skipn_all2 by lia. simpl.
    apply Hstr. apply columns_hold_str_get. apply full_row_holds_str; lia.
  - destruct (Nat.ltb_spec (length row) (length names)) as [Hlt | Hge'].
    + destruct (existsb (String.eqb "Contract Address") (skipn (length row) names)) eqn:E.
      * apply existsb_exists in E; destruct E as [x [Hin Hx]].
        apply String.eqb_eq in Hx; subst x.
        unfold nft, Csv.DictReader_row.
        apply Nat.ltb_ge in Hge; rewrite Hge.
        apply Nat.ltb_lt in Hlt; rewrite Hlt.
        rewrite fold_none_in by exact Hin. reflexivity.
      * simpl. apply Hstr.
        unfold Csv.DictReader_row.
        apply Nat.ltb_ge in Hge; rewrite Hge.
        apply Nat.ltb_lt in Hlt; rewrite Hlt.
        rewrite fold_none_other.
        -- apply columns_hold_str_get; exact Hbase.
        -- intro Hin.
           assert (Ht : existsb (String.eqb "Contract Address")
                          (skipn (length row) names) = true)
             by (apply existsb_exists; exists "Contract Address";
                 split; [exact Hin | apply String.eqb_refl]).
           congruence.
    + rewrite skipn_all2 by lia. simpl.
      apply Hstr. apply columns_hold_str_get. apply full_row_holds_str; lia.
Qed.

(** X5: when the header has none of the four columns the script reads (a
    blank first line, other column names), every line gives the record with
    four empty strings, whatever its fields. *)
Theorem header_without_the_columns_gives_empty_records (names row : list string) :
  (forall c, In c used_columns -> ~ In c names) ->
  nft (Csv.DictReader_row names row) = Ok (record_of_strings "" "" "" "").
Proof.
  intro H. unfold nft.
  rewrite !DictReader_row_absent by (apply H; simpl; tauto).
  reflexivity.
Qed.

Lemma header_without_the_columns_gives_empty_records_witness :
  (forall c, In c used_columns -> ~ In c ["id"; "title"]) /\
  nft (Csv.DictReader_row ["id"; "title"] long_row) = Ok (record_of_strings "" "" "" "").
Proof.
  assert (H : forall c, In c used_columns -> ~ In c ["id"; "title"]).
  { intros c Hc Hin. simpl in Hc, Hin.
    destruct Hin as [<- | [<- | []]]; intuition discriminate. }
  split; [exact H |].
  apply (header_without_the_columns_gives_empty_records ["id"; "title"] long_row H).
Defined.

(** ** The lower-cased address *)

(** On an ASCII character the lower-case mapping is that of the letters
    A-Z, and the result is one byte. *)
Lemma ascii_char_lower (c : ascii) (before after : list N) :
  (N_of_ascii c <? 128)%N = true ->
  Unicode.lower_ucs4 before after (N_of_ascii c) = [N_of_ascii (ascii_lower_char c)] /\
  Json.utf8_encode (N_of_ascii (ascii_lower_char c))
  = String (ascii_lower_char c) EmptyString.
Proof.
  destruct c as [b0 b1 b2 b3 b4 b5 b6 b7].
  destruct b7; [intro H; vm_compute in H; destruct b0, b1, b2, b3, b4, b5, b6; discriminate H |].
  intros _. destruct b0, b1, b2, b3, b4, b5, b6; split; vm_compute; reflexivity.
Qed.

Lemma ascii_decode (s : string) :
  is_ascii s = true -> Unicode.utf8_decode s = Some (code_points_of_ascii s).
Proof.
  induction s as [| c s IH]; simpl; intro H; [reflexivity |].
  apply andb_true_iff in H; destruct H as [Hc Hs].
  rewrite Hc, (IH Hs). reflexivity.
Qed.

Lemma ascii_do_lower (s : string) :
  forall before, is_ascii s = true ->
  Unicode.utf8_encode_all (Unicode.do_lower before (code_points_of_ascii s))
  = ascii_lower s.
Proof.
  induction s as [| c s IH]; intros before H; [reflexivity |].
  simpl in H. apply andb_true_iff in H; destruct H as [Hc Hs].
  cbn [code_points_of_ascii Unicode.do_lower ascii_lower].
  destruct (ascii_char_lower c before (code_points_of_ascii s) Hc) as [H1 H2].
  rewrite H1. cbn [app Unicode.utf8_encode_all].
  rewrite H2, (IH _ Hs). reflexivity.
Qed.

(** On ASCII text [str.lower] lower-cases the letters A-Z and nothing else. *)
Lemma lower_ascii (s : string) : is_ascii s = true -> lower s = ascii_lower s.
Proof.
  intro H. unfold lower. rewrite (ascii_decode s H). apply ascii_do_lower; exact H.
Qed.

Lemma ascii_lower_char_not_upper (c : ascii) : is_upper (ascii_lower_char c) = false.
Proof.
  destruct c as [b0 b1 b2 b3 b4 b5 b6 b7];
    destruct b0, b1, b2, b3, b4, b5, b6, b7; reflexivity.
Qed.

Lemma ascii_lower_char_fixes (c : ascii) : is_upper c = false -> ascii_lower_char c = c.
Proof. unfold ascii_lower_char, is_upper. intro H; rewrite H; reflexivity. Qed.

Lemma ascii_lower_no_upper (s : string) : no_upper (ascii_lower s) = true.
Proof.
  induction s as [| c s IH]; simpl; [reflexivity |].
  rewrite ascii_lower_char_not_upper, IH; reflexivity.
Qed.

Lemma ascii_lower_length (s : string) :
  String.length (ascii_lower s) = String.length s.
Proof. induction s as [| c s IH]; simpl; [reflexivity | rewrite IH; reflexivity]. Qed.

Lemma ascii_lower_fixes (s : string) : no_upper s = true -> ascii_lower s = s.
Proof.
  induction s as [| c s IH]; simpl; intro H; [reflexivity |].
  apply andb_true_iff in H; destruct H as [Hc Hs].
  apply negb_true_iff in Hc.
  rewrite (ascii_lower_char_fixes c Hc), (IH Hs); reflexivity.
Qed.

(** X12: the token address of a record is the contract address of the row,
    lower-cased.  For an address of ASCII characters (as the hexadecimal
    addresses are) that is the address with its letters A-Z lower-cased: it
    has no upper-case letter, it is as long as the contract address, and an
    address without upper-case letters is passed on unchanged. *)
Theorem token_address_is_lower_case (row : pydict) (rec : pyval) :
  nft row = Ok rec ->
  exists s,
    dict_get row (Some "Contract Address") str_default = VStr s /\
    field_of rec "token_address" = Some (VStr (lower s)) /\
    (is_ascii s = true ->
     lower s = ascii_lower s /\
     no_upper (lower s) = true /\
     String.length (lower s) = String.length s /\
     (no_upper s = true -> lower s = s)).
Proof.
  intro H. apply nft_inv in H; destruct H as [c [Hc ->]].
  apply py_lower_inv in Hc; destruct Hc as [s [Hs ->]].
  exists s. split; [exact Hs |]. split; [reflexivity |].
  intro Ha. rewrite (lower_ascii s Ha).
  split; [reflexivity |].
  split; [apply ascii_lower_no_upper |].
  split; [apply ascii_lower_length | apply ascii_lower_fixes].
Qed.

Lemma token_address_is_lower_case_witness :
  nft (Csv.DictReader_row canonical_names long_row) = Ok scenario_record /\
  exists s,
    dict_get (Csv.DictReader_row canonical_names long_row)
      (Some "Contract Address") str_default = VStr s /\
    field_of scenario_record "token_address" = Some (VStr (lower s)) /\
    (is_ascii s = true ->
     lower s = ascii_lower s /\
     no_upper (lower s) = true /\
     String.length (lower s) = String.length s /\
     (no_upper s = true -> lower s = s)).
Proof.
  split; [vm_compute; reflexivity |].
  apply (token_address_is_lower_case
           (Csv.DictReader_row canonical_names long_row) scenario_record).
  vm_compute; reflexivity.
Defined.

(** ** The run as a whole *)

Lemma mapM_raise {A B : Type} (f : A -> result B) (l : list A) (a : A) (e0 : exn) :
  In a l -> f a = Raise e0 -> exists e, mapM f l = Raise e.
Proof.
  induction l as [| a0 l IH]; intros Hin Hf; [destruct Hin |].
  simpl. destruct (f a0) as [b |] eqn:E0; simpl; [| eexists; reflexivity].
  destruct Hin as [-> | Hin]; [congruence |].
  destruct (IH Hin Hf) as [e He]. rewrite He. eexists; reflexivity.
Qed.

(** X6: one row that cannot be made into a record ends the whole run: no
    row is skipped, and nothing is written, whatever the other rows are. *)
Theorem one_bad_row_aborts_the_run
    (fs : filesystem) (rows : list pydict) (row : pydict) (e0 : exn) :
  all_rows fs = Ok rows -> In row rows -> nft row = Raise e0 ->
  exists e, main fs = (Raise e, fs).
Proof.
  intros Hr Hin Hf.
  destruct (mapM_raise nft rows row e0 Hin Hf) as [e He].
  exists e. unfold main, records_of, nfts. rewrite Hr; simpl. rewrite He. reflexivity.
Qed.

Lemma one_bad_row_aborts_the_run_witness :
  exists rows row,
    all_rows fs_one_short_row = Ok rows /\ length rows = 2 /\
    In row rows /\ nft row = Raise none_has_no_lower /\
    exists e, main fs_one_short_row = (Raise e, fs_one_short_row).
Proof.
  do 2 eexists.
  split; [vm_compute; reflexivity |].
  split; [reflexivity |].
  split; [right; left; reflexivity |].
  split; [vm_compute; reflexivity |].
  eapply (one_bad_row_aborts_the_run fs_one_short_row).
  - vm_compute; reflexivity.
  - right; left; reflexivity.
  - vm_compute; reflexivity.
Defined.

(** X7: when the output path cannot be opened for writing (a directory, a
    file without write permission), the run ends with an exception after all
    the reading and processing, and the file system is left as it was. *)
Theorem unwritable_output_aborts (fs : filesystem) (records : list pyval) :
  records_of fs = Ok records -> unwritable (fs output_file) = true ->
  exists e, main fs = (Raise e, fs).
Proof.
  intros Hr Hu. unfold main, write_text. rewrite Hr.
  destruct (fs output_file) as [| | old r w]; simpl in Hu.
  - discriminate Hu.
  - eexists; reflexivity.
  - apply negb_true_iff in Hu; subst w. eexists; reflexivity.
Qed.

Lemma unwritable_output_aborts_witness :
  records_of fs_output_is_directory = Ok [scenario_record] /\
  unwritable (fs_output_is_directory output_file) = true /\
  exists e, main fs_output_is_directory = (Raise e, fs_output_is_directory).
Proof.
  split; [vm_compute; reflexivity |].
  split; [reflexivity |].
  apply (unwritable_output_aborts fs_output_is_directory [scenario_record]).
  - vm_compute; reflexivity.
  - reflexivity.
Defined.

Lemma main_ok_inv (fs fs' : filesystem) (msg : string) :
  main fs = (Ok msg, fs') ->
  exists records,
    records_of fs = Ok records /\
    write_text fs output_file (Json.dumps (VList records)) = Ok fs' /\
    msg = success_message (length records).
Proof.
  unfold main; intro H.
  destruct (records_of fs) as [records | e]; [| discriminate H].
  destruct (write_text fs output_file (Json.dumps (VList records))) as [fs1 | e] eqn:Hw;
    [| discriminate H].
  injection H as <- <-. exists records.
  split; [reflexivity |]. split; [exact Hw | reflexivity].
Qed.

Lemma write_text_frame (fs fs' : filesystem) (path text p : string) :
  write_text fs path text = Ok fs' -> p <> path -> fs' p = fs p.
Proof.
  unfold write_text, fs_write; intros H Hp.
  apply String.eqb_neq in Hp.
  destruct (fs path) as [| | old r w].
  - injection H as <-. rewrite Hp; reflexivity.
  - discriminate H.
  - destruct w; [| discriminate H]. injection H as <-. rewrite Hp; reflexivity.
Qed.

(** X8: a run that succeeds changes the output file and nothing else: every
    other path, the four inputs among them, is as it was. *)
Theorem only_the_output_file_changes (fs fs' : filesystem) (msg : string) :
  main fs = (Ok msg, fs') ->
  forall p, p <> output_file -> fs' p = fs p.
Proof.
  intros H p Hp.
  destruct (main_ok_inv _ _ _ H) as (records & _ & Hw & _).
  eapply write_text_frame; eassumption.
Qed.

Lemma only_the_output_file_changes_witness :
  main fs_scenario = (Ok scenario_message, snd (main fs_scenario)) /\
  forall p, p <> output_file -> snd (main fs_scenario) p = fs_scenario p.
Proof.
  split; [vm_compute; reflexivity |].
  apply (only_the_output_file_changes fs_scenario (snd (main fs_scenario)) scenario_message).
  vm_compute; reflexivity.
Defined.

Lemma part_lines_ext (fs1 fs2 : filesystem) (part : string) :
  fs1 part = fs2 part -> part_lines fs1 part = part_lines fs2 part.
Proof. unfold part_lines, read_text; intros ->; reflexivity. Qed.

Lemma read_parts_ext (fs1 fs2 : filesystem) (ps : list string) :
  (forall p, In p ps -> fs1 p = fs2 p) ->
  forall i names acc, read_parts fs1 i ps names acc = read_parts fs2 i ps names acc.
Proof.
  induction ps as [| p ps IH]; intros H i names acc; [reflexivity |].
  simpl. rewrite (part_lines_ext fs1 fs2 p) by (apply H; left; reflexivity).
  destruct (part_lines fs2 p) as [lines |]; simpl; [| reflexivity].
  destruct (Nat.eqb i 0).
  - destruct (Csv.DictReader lines None); simpl; [| reflexivity].
    apply IH. intros q Hq; apply H; right; exact Hq.
  - destruct (Csv.DictReader lines names); simpl; [| reflexivity].
    apply IH. intros q Hq; apply H; right; exact Hq.
Qed.

Lemma parts_are_not_the_output (p : string) : In p parts -> p <> output_file.
Proof.
  intros Hin E. subst p. simpl in Hin.
  destruct Hin as [H | [H | [H | [H | []]]]]; discriminate H.
Qed.

(** The records depend on the four inputs only. *)
Lemma records_of_ext (fs1 fs2 : filesystem) :
  (forall p, In p parts -> fs1 p = fs2 p) -> records_of fs1 = records_of fs2.
Proof.
  intro H. unfold records_of, all_rows. rewrite (read_parts_ext fs1 fs2 parts H).
  reflexivity.
Qed.

(** X9: running the script again changes nothing: on the file system a
    successful run leaves, a second run succeeds with the same message and
    leaves every path as the first run left it. *)
Theorem rerun_changes_nothing (fs fs' : filesystem) (msg : string) :
  main fs = (Ok msg, fs') ->
  fst (main fs') = Ok msg /\ forall p, snd (main fs') p = fs' p.
Proof.
  intro H.
  destruct (main_ok_inv _ _ _ H) as (records & Hr & Hw & ->).
  assert (Hsame : records_of fs' = Ok records).
  { rewrite <- Hr. apply records_of_ext. intros p Hp.
    eapply write_text_frame; [exact Hw | apply parts_are_not_the_output; exact Hp]. }
  assert (Hout : exists r, fs' output_file = File (Json.dumps (VList records)) r true).
  { unfold write_text, fs_write in Hw.
    destruct (fs output_file) as [| | old r w].
    - injection Hw as <-. rewrite String.eqb_refl. eexists; reflexivity.
    - discriminate Hw.
    - destruct w; [| discriminate Hw].
      injection Hw as <-. rewrite String.eqb_refl. eexists; reflexivity. }
  destruct Hout as [r Hout].
  unfold main, write_text. rewrite Hsame, Hout. simpl.
  split; [reflexivity |].
  intro p. unfold fs_write.
  destruct (String.eqb p output_file) eqn:E; [| reflexivity].
  apply String.eqb_eq in E; subst p. symmetry; exact Hout.
Qed.

Lemma rerun_changes_nothing_witness :
  main fs_scenario = (Ok scenario_message, snd (main fs_scenario)) /\
  fst (main (snd (main fs_scenario))) = Ok scenario_message /\
  forall p, snd (main (snd (main fs_scenario))) p = snd (main fs_scenario) p.
Proof.
  split; [vm_compute; reflexivity |].
  apply (rerun_changes_nothing fs_scenario (snd (main fs_scenario)) scenario_message).
  vm_compute; reflexivity.
Defined.

(** X13: the number the script prints is the number of records in the file
    it wrote: the message of a successful run names the output file and the
    length of the list the file reads back to. *)
Theorem message_counts_the_records_written (fs fs' : filesystem) (msg : string) :
  main fs = (Ok msg, fs') ->
  exists records text r w,
    fs' output_file = File text r w /\
    Json.loads text = Ok (VList records) /\
    msg = success_message (length records).
Proof.
  intro H.
  destruct (main_ok_inv _ _ _ H) as (records & Hr & Hw & ->).
  destruct (write_text_content _ _ _ _ Hw) as (r & w & Hf).
  exists records, (Json.dumps (VList records)), r, w.
  split; [exact Hf |]. split; [| reflexivity].
  apply loads_dumps.
  unfold records_of in Hr. bind_inv Hr.
  cbn [json_safe]. eapply nfts_json_safe; [| eassumption].
  eapply all_rows_text; eassumption.
Qed.

Lemma message_counts_the_records_written_witness :
  main fs_blank_lines = (fst (main fs_blank_lines), snd (main fs_blank_lines)) /\
  fst (main fs_blank_lines)
  = Ok (lit "Successfully created static/data/genesis_nfts.json with 2 items.|") /\
  exists records text r w,
    snd (main fs_blank_lines) output_file = File text r w /\
    Json.loads text = Ok (VList records) /\
    lit "Successfully created static/data/genesis_nfts.json with 2 items.|"
    = success_message (length records).
Proof.
  split; [vm_compute; reflexivity |].
  split; [vm_compute; reflexivity |].
  apply (message_counts_the_records_written fs_blank_lines (snd (main fs_blank_lines))).
  vm_compute; reflexivity.
Defined.

(** ** Inputs without data, inputs without header *)

Lemma blank_line_closed (line : string) :
  is_blank_line line = true ->
  line_closed line = true /\ record_of_line line = [].
Proof.
  unfold is_blank_line; intro H. apply String.eqb_eq in H; subst line.
  split; reflexivity.
Qed.

Lemma blank_lines_closed (lines : list string) :
  forallb is_blank_line lines = true ->
  forallb line_closed lines = true /\
  filter (fun r => negb (Csv.is_blank_row r)) (map record_of_line lines) = [].
Proof.
  induction lines as [| l lines IH]; simpl; intro H; [split; reflexivity |].
  apply andb_true_iff in H; destruct H as [Hl Hls].
  destruct (blank_line_closed l Hl) as [Hc Hr].
  destruct (IH Hls) as [Hcs Hf].
  rewrite Hc, Hcs, Hr; simpl. split; [reflexivity | exact Hf].
Qed.

Lemma DictReader_blank_lines (lines names : list string) :
  forallb is_blank_line lines = true ->
  Csv.DictReader lines (Some names) = Ok (Some names, []).
Proof.
  intro H. destruct (blank_lines_closed lines H) as [Hc Hf].
  rewrite (rows_in_line_order lines names Hc), Hf. reflexivity.
Qed.

Lemma DictReader_blank_after_header (header : string) (lines : list string) :
  line_closed header = true -> forallb is_blank_line lines = true ->
  Csv.DictReader (header :: lines) None = Ok (Some (record_of_line header), []).
Proof.
  intros Hh H. destruct (blank_lines_closed lines H) as [Hc Hf].
  unfold Csv.DictReader.
  rewrite (reader_closed (header :: lines)) by (simpl; rewrite Hh, Hc; reflexivity).
  simpl. rewrite Hf. reflexivity.
Qed.

Lemma mapM_cons_inv {A B : Type} (f : A -> result B) (a : A) (l : list A)
    (out : list B) :
  mapM f (a :: l) = Ok out ->
  exists b bs, f a = Ok b /\ mapM f l = Ok bs /\ out = b :: bs.
Proof.
  simpl; intro H. bind_inv H. bind_inv H. injection H as <-.
  do 2 eexists; repeat split; eassumption.
Qed.

Lemma input_lines_inv (fs : filesystem) (ls : list (list string)) :
  input_lines fs = Ok ls ->
  exists l1 l2 l3 l4,
    part_lines fs part1 = Ok l1 /\ part_lines fs part2 = Ok l2 /\
    part_lines fs part3 = Ok l3 /\ part_lines fs part4 = Ok l4 /\
    ls = [l1; l2; l3; l4].
Proof.
  unfold input_lines, parts; intro H.
  apply mapM_cons_inv in H; destruct H as (l1 & t1 & L1 & H & ->).
  apply mapM_cons_inv in H; destruct H as (l2 & t2 & L2 & H & ->).
  apply mapM_cons_inv in H; destruct H as (l3 & t3 & L3 & H & ->).
  apply mapM_cons_inv in H; destruct H as (l4 & t4 & L4 & H & ->).
  simpl in H; injection H as <-.
  exists l1, l2, l3, l4. repeat (split; [assumption |]). reflexivity.
Qed.

(** X10: when part 1 begins with its header line and every data line of
    the four parts is blank (or there is none), the run cannot fail on its
    input: it writes the empty array [[]] and reports 0 items, provided the
    output path can be written. *)
Theorem blank_data_gives_the_empty_array
    (fs : filesystem) (header : string) (rest ls : list string) :
  part_lines fs part1 = Ok (header :: rest) ->
  data_lines fs = Ok ls ->
  line_closed header = true ->
  forallb is_blank_line ls = true ->
  unwritable (fs output_file) = false ->
  exists fs' r w,
    main fs = (Ok (success_message 0), fs') /\
    fs' output_file = File "[]" r w.
Proof.
  intros H1 Hd Hh Hb Hw.
  unfold data_lines in Hd. bind_inv Hd. injection Hd as <-.
  destruct (input_lines_inv _ _ Hx) as (l1 & l2 & l3 & l4 & L1 & L2 & L3 & L4 & ->).
  rewrite H1 in L1; injection L1 as <-.
  simpl in Hb. rewrite app_nil_r, !forallb_app in Hb.
  apply andb_true_iff in Hb; destruct Hb as [B1 Hb].
  apply andb_true_iff in Hb; destruct Hb as [B2 Hb].
  apply andb_true_iff in Hb; destruct Hb as [B3 B4].
  assert (Hr : records_of fs = Ok []).
  { unfold records_of, all_rows, parts. unfold part1, part2, part3, part4 in *.
    simpl. rewrite H1; simpl.
    rewrite (DictReader_blank_after_header header rest Hh B1); simpl.
    rewrite L2; simpl. rewrite (DictReader_blank_lines l2 _ B2); simpl.
    rewrite L3; simpl. rewrite (DictReader_blank_lines l3 _ B3); simpl.
    rewrite L4; simpl. rewrite (DictReader_blank_lines l4 _ B4); simpl.
    reflexivity. }
  unfold main, write_text. rewrite Hr.
  destruct (fs output_file) as [| | old r w] eqn:Ho; simpl in Hw.
  - do 3 eexists. split; [reflexivity |].
    unfold fs_write. rewrite String.eqb_refl. reflexivity.
  - discriminate Hw.
  - apply negb_false_iff in Hw; subst w.
    do 3 eexists. split; [reflexivity |].
    unfold fs_write. rewrite String.eqb_refl. reflexivity.
Qed.

Lemma blank_data_gives_the_empty_array_witness :
  exists header rest ls,
    part_lines fs_header_only part1 = Ok (header :: rest) /\
    data_lines fs_header_only = Ok ls /\
    line_closed header = true /\
    forallb is_blank_line ls = true /\
    unwritable (fs_header_only output_file) = false /\
    exists fs' r w,
      main fs_header_only = (Ok (success_message 0), fs') /\
      fs' output_file = File "[]" r w.
Proof.
  do 3 eexists.
  split; [vm_compute; reflexivity |].
  split; [vm_compute; reflexivity |].
  split; [vm_compute; reflexivity |].
  split; [vm_compute; reflexivity |].
  split; [reflexivity |].
  eapply (blank_data_gives_the_empty_array fs_header_only);
    vm_compute; reflexivity.
Defined.

(** X11: when part 1 is empty, the script has no field names to pass on:
    each of parts 2, 3 and 4 is then read for its own header, so the first
    record of each of them becomes field names and not a row. *)
Theorem without_header_each_part_reads_its_own
    (fs : filesystem) (rows : list pydict) :
  part_lines fs part1 = Ok [] -> all_rows fs = Ok rows ->
  exists r2 r3 r4,
    rows_of fs part2 None = Ok r2 /\
    rows_of fs part3 None = Ok r3 /\
    rows_of fs part4 None = Ok r4 /\
    rows = (r2 ++ r3 ++ r4)%list.
Proof.
  intros H1 H.
  destruct (all_rows_inv _ _ H) as (names & r1 & r2 & r3 & r4 & Hh & R1 & R2 & R3 & R4 & ->).
  unfold header_of in Hh. rewrite H1 in Hh. simpl in Hh. injection Hh as <-.
  unfold rows_of in R1. rewrite H1 in R1. simpl in R1. injection R1 as <-.
  exists r2, r3, r4. repeat (split; [assumption |]). reflexivity.
Qed.

Lemma without_header_each_part_reads_its_own_witness :
  exists rows,
    part_lines fs_no_header part1 = Ok [] /\
    all_rows fs_no_header = Ok rows /\ length rows = 1 /\
    exists r2 r3 r4,
      rows_of fs_no_header part2 None = Ok r2 /\
      rows_of fs_no_header part3 None = Ok r3 /\
      rows_of fs_no_header part4 None = Ok r4 /\
      rows = (r2 ++ r3 ++ r4)%list.
Proof.
  eexists.
  split; [vm_compute; reflexivity |].
  split; [vm_compute; reflexivity |].
  split; [reflexivity |].
  apply (without_header_each_part_reads_its_own fs_no_header); vm_compute; reflexivity.
Defined.

(** ** The records of the reader follow the lines of the file *)

Lemma reader_from_open (pre : list string) :
  forall r r' lines,
    run_open r pre = Some r' ->
    Csv.reader_from r (pre ++ lines) = Csv.reader_from r' lines.
Proof.
  induction pre as [| l pre IH]; intros r r' lines H; simpl in H.
  - injection H as <-; reflexivity.
  - simpl. destruct (Csv.process_line r l) as [r1 |]; [| discriminate H].
    simpl. destruct (Csv.state_eqb (Csv.state r1) Csv.START_RECORD); [discriminate H |].
    apply IH; exact H.
Qed.

Lemma run_open_snoc (pre : list string) :
  forall r r1 r2 l,
    run_open r pre = Some r1 -> Csv.process_line r1 l = Ok r2 ->
    Csv.state_eqb (Csv.state r2) Csv.START_RECORD = false ->
    run_open r (pre ++ [l]) = Some r2.
Proof.
  induction pre as [| l0 pre IH]; intros r r1 r2 l H Hp Hs; simpl in H.
  - injection H as <-. simpl. rewrite Hp, Hs. reflexivity.
  - simpl. destruct (Csv.process_line r l0) as [r0 |]; [| discriminate H].
    destruct (Csv.state_eqb (Csv.state r0) Csv.START_RECORD); [discriminate H |].
    eapply IH; eassumption.
Qed.

(** At the end of a line the reader is between two records or inside a
    quoted field. *)
Lemma process_line_end_state (line : string) :
  forall r r', Csv.process_line r line = Ok r' ->
  Csv.state r' = Csv.START_RECORD \/ Csv.state r' = Csv.IN_QUOTED_FIELD.
Proof.
  induction line as [| c line IH]; intros r r' H; simpl in H.
  - unfold Csv.parse_process_char in H.
    destruct (Csv.state r) eqn:E; simpl in H; injection H as <-; simpl; auto.
  - bind_inv H. eapply IH; eassumption.
Qed.

Lemma run_open_state (pre : list string) :
  forall r r', run_open r pre = Some r' -> pre <> [] ->
  Csv.state r' = Csv.IN_QUOTED_FIELD.
Proof.
  induction pre as [| l pre IH]; intros r r' H Hne; [contradiction |].
  simpl in H. destruct (Csv.process_line r l) as [r1 |] eqn:Hp; [| discriminate H].
  destruct (Csv.state_eqb (Csv.state r1) Csv.START_RECORD) eqn:Hs; [discriminate H |].
  destruct pre as [| l' pre].
  - simpl in H; injection H as <-.
    destruct (process_line_end_state _ _ _ Hp) as [E | E]; [| exact E].
    rewrite E in Hs; discriminate Hs.
  - eapply IH; [exact H | discriminate].
Qed.

Lemma reader_from_groups (lines : list string) :
  forall r pre records,
    run_open Csv.parse_reset pre = Some r ->
    Csv.reader_from r lines = Ok records ->
    exists groups,
      concat groups = (pre ++ lines)%list /\
      Forall2 (fun group record => Csv.reader group = Ok [record]) groups records.
Proof.
  induction lines as [| l lines IH]; intros r pre records Hpre H.
  - destruct pre as [| l0 pre'].
    + simpl in Hpre; injection Hpre as <-. simpl in H. injection H as <-.
      exists []. split; [reflexivity | constructor].
    + assert (Hq : Csv.state r = Csv.IN_QUOTED_FIELD)
        by (eapply run_open_state; [exact Hpre | discriminate]).
      simpl in H. rewrite Hq in H. rewrite orb_true_r in H. injection H as <-.
      exists [l0 :: pre']. split; [simpl; rewrite !app_nil_r; reflexivity |].
      constructor; [| constructor].
      unfold Csv.reader.
      rewrite <- (app_nil_r (l0 :: pre')).
      rewrite (reader_from_open _ _ _ [] Hpre).
      simpl. rewrite Hq, orb_true_r. reflexivity.
  - simpl in H. destruct (Csv.process_line r l) as [r1 |] eqn:Hp; [| discriminate H].
    simpl in H.
    destruct (Csv.state_eqb (Csv.state r1) Csv.START_RECORD) eqn:Hs.
    + bind_inv H. injection H as <-.
      destruct (IH Csv.parse_reset [] x eq_refl Hx) as (groups & Hc & Hf).
      exists ((pre ++ [l])%list :: groups). split.
      * simpl. rewrite Hc. simpl. rewrite <- app_assoc. reflexivity.
      * constructor; [| exact Hf].
        unfold Csv.reader.
        rewrite (reader_from_open _ _ _ [l] Hpre).
        simpl. rewrite Hp. simpl. rewrite Hs. reflexivity.
    + destruct (IH r1 (pre ++ [l])%list records) as (groups & Hc & Hf).
      * eapply run_open_snoc; eassumption.
      * exact H.
      * exists groups. split; [| exact Hf].
        rewrite Hc, <- app_assoc. reflexivity.
Qed.

(** The records of a file are read in the order of its lines. *)
Lemma reader_in_file_order (lines : list string) (records : list (list string)) :
  Csv.reader lines = Ok records -> in_file_order lines records.
Proof.
  intro H. unfold Csv.reader in H.
  destruct (reader_from_groups lines Csv.parse_reset [] records eq_refl H)
    as (groups & Hc & Hf).
  exists groups. split; assumption.
Qed.

(** The rows of a [DictReader] are made from the records of the reader, in
    their order. *)
Lemma DictReader_inv (lines : list string) (fieldnames : option (list string))
    (r : option (list string) * list pydict) :
  Csv.DictReader lines fieldnames = Ok r ->
  exists records,
    Csv.reader lines = Ok records /\
    snd r = rows_of_records fieldnames records /\
    fst r = match fieldnames with
            | Some names => Some names
            | None => hd_error records
            end.
Proof.
  unfold Csv.DictReader; intro H. bind_inv H. exists x.
  split; [exact Hx |].
  destruct fieldnames as [names |].
  - injection H as <-. split; reflexivity.
  - destruct x as [| names records']; injection H as <-; split; reflexivity.
Qed.

(** C5: the records are in the order of the input rows.  The records of each
    part are read from consecutive groups of its lines, in the order of the
    lines; the rows are made from these records in their order, those of
    part 1 first (its first record giving the field names), then those of
    parts 2, 3 and 4; and the record at each position of the output is the
    one made from the row at that position. *)
Theorem order_preserved (fs : filesystem) (out : list pyval) :
  records_of fs = Ok out ->
  exists l1 l2 l3 l4 c1 c2 c3 c4,
    part_lines fs part1 = Ok l1 /\ part_lines fs part2 = Ok l2 /\
    part_lines fs part3 = Ok l3 /\ part_lines fs part4 = Ok l4 /\
    in_file_order l1 c1 /\ in_file_order l2 c2 /\
    in_file_order l3 c3 /\ in_file_order l4 c4 /\
    let fieldnames := hd_error c1 in
    let rows := (rows_of_records None c1 ++ rows_of_records fieldnames c2
                 ++ rows_of_records fieldnames c3
                 ++ rows_of_records fieldnames c4)%list in
    mapM nft rows = Ok out /\
    forall i row,
      nth_error rows i = Some row ->
      exists rec, nth_error out i = Some rec /\ nft row = Ok rec.
Proof.
  unfold records_of, nfts; intro H. bind_inv H. rename x into rows, Hx into Hr.
  unfold all_rows, parts in Hr; simpl in Hr.
  bind_inv Hr. rename x into l1, Hx into L1.
  bind_inv Hr. rename x into d1, Hx into D1.
  bind_inv Hr. rename x into l2, Hx into L2.
  bind_inv Hr. rename x into d2, Hx into D2.
  bind_inv Hr. rename x into l3, Hx into L3.
  bind_inv Hr. rename x into d3, Hx into D3.
  bind_inv Hr. rename x into l4, Hx into L4.
  bind_inv Hr. rename x into d4, Hx into D4.
  injection Hr as <-.
  destruct (DictReader_inv _ _ _ D1) as (c1 & R1 & S1 & F1).
  destruct (DictReader_inv _ _ _ D2) as (c2 & R2 & S2 & _).
  destruct (DictReader_inv _ _ _ D3) as (c3 & R3 & S3 & _).
  destruct (DictReader_inv _ _ _ D4) as (c4 & R4 & S4 & _).
  exists l1, l2, l3, l4, c1, c2, c3, c4.
  repeat (split; [assumption |]).
  repeat (split; [apply reader_in_file_order; assumption |]).
  cbv zeta.
  rewrite S1, S2, S3, S4, F1, <- !app_assoc in H. simpl in H.
  split; [exact H |].
  apply mapM_nth_error; exact H.
Qed.

Lemma order_preserved_witness :
  exists out,
    records_of fs_three_rows = Ok out /\
    exists l1 l2 l3 l4 c1 c2 c3 c4,
      part_lines fs_three_rows part1 = Ok l1 /\ part_lines fs_three_rows part2 = Ok l2 /\
      part_lines fs_three_rows part3 = Ok l3 /\ part_lines fs_three_rows part4 = Ok l4 /\
      in_file_order l1 c1 /\ in_file_order l2 c2 /\
      in_file_order l3 c3 /\ in_file_order l4 c4 /\
      let fieldnames := hd_error c1 in
      let rows := (rows_of_records None c1 ++ rows_of_records fieldnames c2
                   ++ rows_of_records fieldnames c3
                   ++ rows_of_records fieldnames c4)%list in
      mapM nft rows = Ok out /\
      forall i row,
        nth_error rows i = Some row ->
        exists rec, nth_error out i = Some rec /\ nft row = Ok rec.
Proof.
  eexists; split; [vm_compute; reflexivity |].
  apply (order_preserved fs_three_rows); vm_compute; reflexivity.
Defined.

(** The three rows of the example come out in the order 41, 42, 43. *)
Lemma three_rows_in_order :
  records_of fs_three_rows
  = Ok [ record_of_strings "0xa" "41" "A" "u1";
         record_of_strings "0xb" "42" "B" "u2";
         record_of_strings "0xc" "43" "C" "u3" ].
Proof. vm_compute; reflexivity. Qed.
